(** * Authentication, registration keys and tier/tenant guards

    A shallow embedding of the three server modules of the legal-practice
    SaaS: the RBAC middleware (account tiers, tenant ownership), the
    [RegistrationKeyService] and the [AuthService].

    - JavaScript strings are sequences of UTF-16 code units ([js_string]).
    - Literal texts of the source (error messages) are [string]s.
    - Asynchronous service methods are computations in a state-and-exception
      monad [M] over a [World]: the persistent store, the clock, the entropy
      the random generators draw from, the console, and the script of
      storage outcomes. The services read the clock and never advance it:
      a later instant is another world ([with_clock]).
    - Numbers are integers; instants are milliseconds since the epoch.
    - The external libraries (bcrypt, jsonwebtoken, crypto) and the process
      environment are the fields of the class [Platform]. *)

From Stdlib Require Import ZArith NArith List String Ascii Bool Lia.
From Stdlib Require Import DecimalString.
Import ListNotations.

Set Implicit Arguments.
Local Open Scope Z_scope.

(* ================================================================== *)
(** * JavaScript strings *)
(* ================================================================== *)

Definition code_unit := N.
Definition js_string := list code_unit.

(** An ASCII literal as a JavaScript string. *)
Definition js (s : string) : js_string :=
  map N_of_ascii (list_ascii_of_string s).

Fixpoint js_eqb (a b : js_string) : bool :=
  match a, b with
  | [], [] => true
  | x :: a', y :: b' => N.eqb x y && js_eqb a' b'
  | _, _ => false
  end.

(** ECMAScript [WhiteSpace] and [LineTerminator] code points, the ones
    [String.prototype.trim] strips. *)
Definition is_white_space (c : code_unit) : bool :=
  (N.eqb c 9 || N.eqb c 10 || N.eqb c 11 || N.eqb c 12 || N.eqb c 13
   || N.eqb c 32 || N.eqb c 160 || N.eqb c 5760
   || (N.leb 8192 c && N.leb c 8202)
   || N.eqb c 8232 || N.eqb c 8233 || N.eqb c 8239 || N.eqb c 8287
   || N.eqb c 12288 || N.eqb c 65279)%bool.

Fixpoint trimStart (s : js_string) : js_string :=
  match s with
  | [] => []
  | c :: s' => if is_white_space c then trimStart s' else s
  end.

Definition trimEnd (s : js_string) : js_string := rev (trimStart (rev s)).

(** [s.trim()] *)
Definition trim (s : js_string) : js_string := trimEnd (trimStart s).

(** Truthiness of a string value: the empty string is falsy. *)
Definition truthy_string (s : js_string) : bool :=
  match s with [] => false | _ :: _ => true end.

(** Truthiness of a possibly missing ([undefined] / [null]) string. *)
Definition truthy (o : option js_string) : bool :=
  match o with Some s => truthy_string s | None => false end.

(* ================================================================== *)
(** * RBAC middleware *)
(* ================================================================== *)

(** The Prisma enum [AccountType]. *)
Inductive AccountType := SIMPLES | COMPOSTA | GERENCIAL.

Definition AccountType_eqb (a b : AccountType) : bool :=
  match a, b with
  | SIMPLES, SIMPLES | COMPOSTA, COMPOSTA | GERENCIAL, GERENCIAL => true
  | _, _ => false
  end.

(** [types.includes(t)] *)
Definition includes (types : list AccountType) (t : AccountType) : bool :=
  existsb (AccountType_eqb t) types.

(** The identity the authentication layer attaches to a request
    ([req.user]); every attribute may be missing at run time. *)
Record AuthUser := {
  au_userId : js_string;
  au_tenantId : option js_string;
  au_accountType : option AccountType
}.

(** [AuthenticatedRequest]: the attached identity and the path parameters. *)
Record AuthenticatedRequest := {
  req_user : option AuthUser;
  req_params : list (string * js_string)
}.

(** [req.params.name] *)
Fixpoint param (name : string) (ps : list (string * js_string))
  : option js_string :=
  match ps with
  | [] => None
  | (k, v) :: ps' => if String.eqb k name then Some v else param name ps'
  end.

(** The JSON objects the guards answer with. *)
Inductive Body :=
| ErrorBody (error : string)
| RequiredBody (error : string) (required : list AccountType)
               (current : AccountType)
| ForbiddenBody (error : string) (forbidden : list AccountType)
                (current : AccountType)
| TenantBody (error : string) (userTenant requestedTenant : js_string).

(** What a middleware does with a request: call [next()], or answer
    [res.status(status).json(body)]. *)
Inductive Outcome :=
| Next
| Respond (status : Z) (body : Body).

Definition requireAccountTypes (allowedTypes : list AccountType)
  (req : AuthenticatedRequest) : Outcome :=
  match req_user req with
  | None =>
      Respond 401
        (ErrorBody "Usuário não autenticado ou tipo de conta não identificado")
  | Some user =>
      match au_accountType user with
      | None =>
          Respond 401
            (ErrorBody
               "Usuário não autenticado ou tipo de conta não identificado")
      | Some accountType =>
          if negb (includes allowedTypes accountType) then
            Respond 403
              (RequiredBody "Acesso negado para este tipo de conta"
                 allowedTypes accountType)
          else Next
      end
  end.

Definition forbidAccountTypes (forbiddenTypes : list AccountType)
  (req : AuthenticatedRequest) : Outcome :=
  match req_user req with
  | None =>
      Respond 401
        (ErrorBody "Usuário não autenticado ou tipo de conta não identificado")
  | Some user =>
      match au_accountType user with
      | None =>
          Respond 401
            (ErrorBody
               "Usuário não autenticado ou tipo de conta não identificado")
      | Some accountType =>
          if includes forbiddenTypes accountType then
            Respond 403
              (ForbiddenBody "Acesso negado para este tipo de conta"
                 forbiddenTypes accountType)
          else Next
      end
  end.

Definition requireCashFlowAccess : AuthenticatedRequest -> Outcome :=
  requireAccountTypes [COMPOSTA; GERENCIAL].

Definition requireSettingsAccess : AuthenticatedRequest -> Outcome :=
  requireAccountTypes [GERENCIAL].

Record DashboardPermissions := {
  canViewFinancialCharts : bool;
  canViewCashFlow : bool;
  canViewSettings : bool;
  canViewAllModules : bool
}.

Definition getDashboardPermissions (accountType : AccountType)
  : DashboardPermissions :=
  {| canViewFinancialCharts := negb (AccountType_eqb accountType SIMPLES);
     canViewCashFlow := includes [COMPOSTA; GERENCIAL] accountType;
     canViewSettings := AccountType_eqb accountType GERENCIAL;
     canViewAllModules := AccountType_eqb accountType GERENCIAL |}.

Definition validateTenantAccess (req : AuthenticatedRequest) : Outcome :=
  match req_user req with
  | None =>
      Respond 401
        (ErrorBody "Usuário não autenticado ou tenant não identificado")
  | Some user =>
      if negb (truthy (au_tenantId user)) then
        Respond 401
          (ErrorBody "Usuário não autenticado ou tenant não identificado")
      else
        let userTenant :=
          match au_tenantId user with Some t => t | None => [] end in
        match param "tenantId" (req_params req) with
        | Some pathTenantId =>
            if (truthy_string pathTenantId
                && negb (js_eqb pathTenantId userTenant))%bool then
              Respond 403
                (TenantBody "Acesso negado: tenant não autorizado"
                   userTenant pathTenantId)
            else Next
        | None => Next
        end
  end.

(** The tier policy as the specification words it: the tiers are ordered
    SIMPLES < COMPOSTA < GERENCIAL, Cash-Flow needs a tier of at least
    COMPOSTA, Settings needs exactly GERENCIAL. *)
Definition tier_rank (t : AccountType) : Z :=
  match t with SIMPLES => 0 | COMPOSTA => 1 | GERENCIAL => 2 end.

Definition spec_cash_flow_policy (t : AccountType) : Prop :=
  tier_rank COMPOSTA <= tier_rank t.

Definition spec_settings_policy (t : AccountType) : Prop := t = GERENCIAL.

(** A request of an authenticated caller of tier [t]. *)
Definition caller_of_tier (t : AccountType) (req : AuthenticatedRequest)
  : Prop :=
  exists user, req_user req = Some user /\ au_accountType user = Some t.

(* ================================================================== *)
(** * Stored entities *)
(* ================================================================== *)

(** An entry of a key's usage log: [validateAndConsumeKey] records
    [{usedAt, tenantId, ip}], [registerUser] records
    [{userId, email, usedAt}]. Instants are milliseconds since the epoch. *)
Inductive UsedLog :=
| KeyUse (usedAt : Z) (tenantId : js_string) (ip : string)
| Registration (userId email : js_string) (usedAt : Z).

(** A stored registration key. [rk_used_logs = None] is a stored value
    that is not an array. *)
Record RegistrationKey := {
  rk_id : js_string;
  rk_key_hash : js_string;
  rk_tenant_id : option js_string;
  rk_account_type : AccountType;
  rk_uses_allowed : Z;
  rk_uses_left : Z;
  rk_single_use : bool;
  rk_expires_at : option Z;
  rk_metadata : js_string;
  rk_created_by : js_string;
  rk_used_logs : option (list UsedLog);
  rk_revoked : bool
}.

(** The object [generateKey] hands to [database.createRegistrationKey]. *)
Record KeyData := {
  kd_keyHash : js_string;
  kd_tenantId : option js_string;
  kd_accountType : AccountType;
  kd_usesAllowed : Z;
  kd_usesLeft : Z;
  kd_singleUse : bool;
  kd_expiresAt : option Z;
  kd_metadata : js_string;
  kd_createdBy : js_string;
  kd_usedLogs : list UsedLog;
  kd_revoked : bool
}.

Record User := {
  user_id : js_string;
  user_email : js_string;
  user_password : js_string;
  user_name : js_string;
  user_accountType : AccountType;
  user_tenantId : js_string;
  user_isActive : bool;
  user_mustChangePassword : bool;
  user_lastLogin : option Z
}.

(** The object [registerUser] hands to [database.createUser]. *)
Record UserData := {
  ud_email : js_string;
  ud_password : js_string;
  ud_name : js_string;
  ud_accountType : AccountType;
  ud_tenantId : js_string;
  ud_isActive : bool;
  ud_mustChangePassword : bool
}.

(** A user record with the [password] attribute removed. *)
Record UserWithoutPassword := {
  pub_id : js_string;
  pub_email : js_string;
  pub_name : js_string;
  pub_accountType : AccountType;
  pub_tenantId : js_string;
  pub_isActive : bool;
  pub_mustChangePassword : bool;
  pub_lastLogin : option Z
}.

Definition without_password (u : User) : UserWithoutPassword :=
  {| pub_id := user_id u; pub_email := user_email u; pub_name := user_name u;
     pub_accountType := user_accountType u; pub_tenantId := user_tenantId u;
     pub_isActive := user_isActive u;
     pub_mustChangePassword := user_mustChangePassword u;
     pub_lastLogin := user_lastLogin u |}.

Record Tenant := {
  tenant_id : js_string;
  tenant_name : js_string
}.

Record RefreshToken := {
  rt_id : js_string;
  rt_tokenHash : js_string;
  rt_userId : js_string;
  rt_expiresAt : Z;
  rt_isActive : bool
}.

(** The object [generateTokens] hands to [database.createRefreshToken]. *)
Record RefreshTokenData := {
  rtd_tokenHash : js_string;
  rtd_userId : js_string;
  rtd_expiresAt : Z;
  rtd_isActive : bool
}.

(** What [generateTokens] reads of its argument, a user or an admin
    record: admins carry a [role], users a tenant and an account tier. *)
Record Identity := {
  id_id : js_string;
  id_email : js_string;
  id_name : js_string;
  id_role : option js_string;
  id_tenantId : option js_string;
  id_accountType : option AccountType
}.

Definition identity_of_user (u : User) : Identity :=
  {| id_id := user_id u; id_email := user_email u; id_name := user_name u;
     id_role := None; id_tenantId := Some (user_tenantId u);
     id_accountType := Some (user_accountType u) |}.

(** The claims signed into a token. *)
Record Payload := {
  p_userId : js_string;
  p_email : js_string;
  p_name : js_string;
  p_role : option js_string;
  p_tenantId : option js_string;
  p_accountType : option AccountType
}.

Record SignOptions := {
  so_expiresIn : js_string;
  so_issuer : js_string;
  so_audience : js_string
}.

Record VerifyOptions := {
  vo_issuer : js_string;
  vo_audience : js_string
}.

Record Tokens := {
  accessToken : js_string;
  refreshToken : js_string
}.

(* ================================================================== *)
(** * The world and the monad of service methods *)
(* ================================================================== *)

(** A thrown value: an [Error] object with its message, or anything else. *)
Inductive Exn :=
| Error (message : string)
| NonError.

Inductive Result (A : Type) :=
| Ok (a : A)
| Throw (e : Exn).

Arguments Ok {A} a.
Arguments Throw {A} e.

Inductive ConsoleLine :=
| Log (text : string)
| LogError (text : string) (error : option Exn).

(** Modelled from the spec: the persistence collaborator
    ([../config/database], not part of the sources at hand), as the tables
    of the entities of the data model and the counter its identifiers are
    allocated from. *)
Record Database := {
  tbl_users : list User;
  tbl_tenants : list Tenant;
  tbl_registrationKeys : list RegistrationKey;
  tbl_refreshTokens : list RefreshToken;
  nextId : N
}.

(** [outcomes] scripts the storage layer: the n-th storage call from now
    fails with [e] when the n-th entry is [Some e]; past the end of the
    script every call goes through. *)
Record World := {
  database : Database;
  outcomes : list (option Exn);
  clock : Z;
  entropy : N;
  console : list ConsoleLine
}.

Definition M (A : Type) : Type := World -> Result A * World.

Definition ret {A} (a : A) : M A := fun w => (Ok a, w).

Definition throw {A} (e : Exn) : M A := fun w => (Throw e, w).

Definition bind {A B} (c : M A) (k : A -> M B) : M B :=
  fun w =>
    match c w with
    | (Ok a, w') => k a w'
    | (Throw e, w') => (Throw e, w')
    end.

(** [try { c } catch (error) { h error }] *)
Definition try_catch {A} (c : M A) (h : Exn -> M A) : M A :=
  fun w =>
    match c w with
    | (Ok a, w') => (Ok a, w')
    | (Throw e, w') => h e w'
    end.

Declare Scope service_scope.
Delimit Scope service_scope with service.
Notation "x <- c ;; k" := (bind c (fun x => k))
  (at level 100, c at next level, right associativity) : service_scope.
Notation "c ;; k" := (bind c (fun _ => k))
  (at level 100, right associativity) : service_scope.
Local Open Scope service_scope.

Definition with_database (d : Database) (w : World) : World :=
  {| database := d; outcomes := outcomes w; clock := clock w;
     entropy := entropy w; console := console w |}.

Definition with_outcomes (o : list (option Exn)) (w : World) : World :=
  {| database := database w; outcomes := o; clock := clock w;
     entropy := entropy w; console := console w |}.

Definition with_clock (c : Z) (w : World) : World :=
  {| database := database w; outcomes := outcomes w; clock := c;
     entropy := entropy w; console := console w |}.

(** [console.log(text, ...)] *)
Definition console_log (text : string) : M unit :=
  fun w =>
    (Ok tt,
     {| database := database w; outcomes := outcomes w; clock := clock w;
        entropy := entropy w; console := console w ++ [Log text] |}).

(** [console.error(text, error)] *)
Definition console_error (text : string) (error : option Exn) : M unit :=
  fun w =>
    (Ok tt,
     {| database := database w; outcomes := outcomes w; clock := clock w;
        entropy := entropy w;
        console := console w ++ [LogError text error] |}).

(** [new Date()] *)
Definition new_Date : M Z := fun w => (Ok (clock w), w).

(** A draw from the entropy the random generators consume. *)
Definition draw : M N :=
  fun w =>
    (Ok (entropy w),
     {| database := database w; outcomes := outcomes w; clock := clock w;
        entropy := N.succ (entropy w); console := console w |}).

(** One awaited call of the storage layer: it fails as scripted, or runs
    the operation on the tables. *)
Definition storage {A} (op : Database -> A * Database) : M A :=
  fun w =>
    match outcomes w with
    | Some e :: rest => (Throw e, with_outcomes rest w)
    | None :: rest =>
        let (a, d) := op (database w) in
        (Ok a, with_database d (with_outcomes rest w))
    | [] =>
        let (a, d) := op (database w) in (Ok a, with_database d w)
    end.

(* ================================================================== *)
(** * The storage operations *)
(* ================================================================== *)

Definition fresh_id (n : N) : js_string :=
  js (NilEmpty.string_of_uint (N.to_uint n)).

Definition key_row (i : js_string) (k : KeyData) : RegistrationKey :=
  {| rk_id := i; rk_key_hash := kd_keyHash k; rk_tenant_id := kd_tenantId k;
     rk_account_type := kd_accountType k;
     rk_uses_allowed := kd_usesAllowed k; rk_uses_left := kd_usesLeft k;
     rk_single_use := kd_singleUse k; rk_expires_at := kd_expiresAt k;
     rk_metadata := kd_metadata k; rk_created_by := kd_createdBy k;
     rk_used_logs := Some (kd_usedLogs k); rk_revoked := kd_revoked k |}.

(** Modelled from the spec: [database.createRegistrationKey] persists one
    new key record. *)
Definition db_createRegistrationKey (k : KeyData) (d : Database)
  : unit * Database :=
  (tt,
   {| tbl_users := tbl_users d; tbl_tenants := tbl_tenants d;
      tbl_registrationKeys :=
        tbl_registrationKeys d ++ [key_row (fresh_id (nextId d)) k];
      tbl_refreshTokens := tbl_refreshTokens d; nextId := N.succ (nextId d) |}).

(** Modelled from the spec: [database.getAllRegistrationKeys] lists the
    stored keys. *)
Definition db_getAllRegistrationKeys (d : Database)
  : list RegistrationKey * Database :=
  (tbl_registrationKeys d, d).

Definition set_key_usage (uses_left : Z) (used_logs : list UsedLog)
  (k : RegistrationKey) : RegistrationKey :=
  {| rk_id := rk_id k; rk_key_hash := rk_key_hash k;
     rk_tenant_id := rk_tenant_id k; rk_account_type := rk_account_type k;
     rk_uses_allowed := rk_uses_allowed k; rk_uses_left := uses_left;
     rk_single_use := rk_single_use k; rk_expires_at := rk_expires_at k;
     rk_metadata := rk_metadata k; rk_created_by := rk_created_by k;
     rk_used_logs := Some used_logs; rk_revoked := rk_revoked k |}.

(** Modelled from the spec: [database.updateRegistrationKey(id, fields)]
    (and [updateRegistrationKeyUsage], its name in the auth service)
    overwrites the remaining uses and the usage log of the key [id] with
    the values it is given. *)
Definition db_updateRegistrationKey (i : js_string) (uses_left : Z)
  (used_logs : list UsedLog) (d : Database) : unit * Database :=
  (tt,
   {| tbl_users := tbl_users d; tbl_tenants := tbl_tenants d;
      tbl_registrationKeys :=
        map (fun k => if js_eqb (rk_id k) i
                      then set_key_usage uses_left used_logs k else k)
            (tbl_registrationKeys d);
      tbl_refreshTokens := tbl_refreshTokens d; nextId := nextId d |}).

Definition set_key_revoked (k : RegistrationKey) : RegistrationKey :=
  {| rk_id := rk_id k; rk_key_hash := rk_key_hash k;
     rk_tenant_id := rk_tenant_id k; rk_account_type := rk_account_type k;
     rk_uses_allowed := rk_uses_allowed k; rk_uses_left := rk_uses_left k;
     rk_single_use := rk_single_use k; rk_expires_at := rk_expires_at k;
     rk_metadata := rk_metadata k; rk_created_by := rk_created_by k;
     rk_used_logs := rk_used_logs k; rk_revoked := true |}.

(** Modelled from the spec: [database.revokeRegistrationKey] sets
    [revoked = true]. *)
Definition db_revokeRegistrationKey (i : js_string) (d : Database)
  : unit * Database :=
  (tt,
   {| tbl_users := tbl_users d; tbl_tenants := tbl_tenants d;
      tbl_registrationKeys :=
        map (fun k => if js_eqb (rk_id k) i then set_key_revoked k else k)
            (tbl_registrationKeys d);
      tbl_refreshTokens := tbl_refreshTokens d; nextId := nextId d |}).

(** Whether a key has passed its expiry at the instant [now]:
    [expires_at && now > expires_at]. *)
Definition expired (now : Z) (k : RegistrationKey) : bool :=
  match rk_expires_at k with
  | Some e => e <? now
  | None => false
  end.

(** Modelled from the spec: [database.findValidRegistrationKeys] loads the
    keys that are not revoked, not expired and have uses remaining. *)
Definition db_findValidRegistrationKeys (now : Z) (d : Database)
  : list RegistrationKey * Database :=
  (filter (fun k => negb (rk_revoked k) && negb (expired now k)
                    && (0 <? rk_uses_left k))%bool
          (tbl_registrationKeys d),
   d).

(** Modelled from the spec: [database.findUserByEmail] looks the user up
    by email. *)
Definition db_findUserByEmail (e : js_string) (d : Database)
  : option User * Database :=
  (find (fun u => js_eqb (user_email u) e) (tbl_users d), d).

Definition set_last_login (now : Z) (u : User) : User :=
  {| user_id := user_id u; user_email := user_email u;
     user_password := user_password u; user_name := user_name u;
     user_accountType := user_accountType u;
     user_tenantId := user_tenantId u; user_isActive := user_isActive u;
     user_mustChangePassword := user_mustChangePassword u;
     user_lastLogin := Some now |}.

(** Modelled from the spec: [database.updateUserLastLogin] stamps the
    last-login instant of the user. *)
Definition db_updateUserLastLogin (now : Z) (i : js_string) (d : Database)
  : unit * Database :=
  (tt,
   {| tbl_users := map (fun u => if js_eqb (user_id u) i
                             then set_last_login now u else u) (tbl_users d);
      tbl_tenants := tbl_tenants d; tbl_registrationKeys := tbl_registrationKeys d;
      tbl_refreshTokens := tbl_refreshTokens d; nextId := nextId d |}).

Definition user_row (i : js_string) (u : UserData) : User :=
  {| user_id := i; user_email := ud_email u; user_password := ud_password u;
     user_name := ud_name u; user_accountType := ud_accountType u;
     user_tenantId := ud_tenantId u; user_isActive := ud_isActive u;
     user_mustChangePassword := ud_mustChangePassword u;
     user_lastLogin := None |}.

(** Modelled from the spec: [database.createUser] persists the user and
    returns the stored record. *)
Definition db_createUser (u : UserData) (d : Database) : User * Database :=
  let row := user_row (fresh_id (nextId d)) u in
  (row,
   {| tbl_users := tbl_users d ++ [row]; tbl_tenants := tbl_tenants d;
      tbl_registrationKeys := tbl_registrationKeys d;
      tbl_refreshTokens := tbl_refreshTokens d; nextId := N.succ (nextId d) |}).

(** Modelled from the spec: [database.getAllTenants] lists the tenants. *)
Definition db_getAllTenants (d : Database) : list Tenant * Database :=
  (tbl_tenants d, d).

Definition token_row (i : js_string) (t : RefreshTokenData) : RefreshToken :=
  {| rt_id := i; rt_tokenHash := rtd_tokenHash t; rt_userId := rtd_userId t;
     rt_expiresAt := rtd_expiresAt t; rt_isActive := rtd_isActive t |}.

(** Modelled from the spec: [database.createRefreshToken] adds a record and
    never overwrites prior ones. *)
Definition db_createRefreshToken (t : RefreshTokenData) (d : Database)
  : unit * Database :=
  (tt,
   {| tbl_users := tbl_users d; tbl_tenants := tbl_tenants d;
      tbl_registrationKeys := tbl_registrationKeys d;
      tbl_refreshTokens := tbl_refreshTokens d ++ [token_row (fresh_id (nextId d)) t];
      nextId := N.succ (nextId d) |}).

(** Modelled from the spec: [database.getActiveRefreshTokensForUser] lists
    the refresh-token records of the user whose [isActive] flag is set. *)
Definition db_getActiveRefreshTokensForUser (u : js_string) (d : Database)
  : list RefreshToken * Database :=
  (filter (fun t => rt_isActive t && js_eqb (rt_userId t) u)%bool
          (tbl_refreshTokens d),
   d).

Definition deactivate (t : RefreshToken) : RefreshToken :=
  {| rt_id := rt_id t; rt_tokenHash := rt_tokenHash t;
     rt_userId := rt_userId t; rt_expiresAt := rt_expiresAt t;
     rt_isActive := false |}.

(** Modelled from the spec: [database.revokeRefreshTokenById] invalidates
    one record. *)
Definition db_revokeRefreshTokenById (i : js_string) (d : Database)
  : unit * Database :=
  (tt,
   {| tbl_users := tbl_users d; tbl_tenants := tbl_tenants d;
      tbl_registrationKeys := tbl_registrationKeys d;
      tbl_refreshTokens :=
        map (fun t => if js_eqb (rt_id t) i then deactivate t else t)
            (tbl_refreshTokens d);
      nextId := nextId d |}).

(** Modelled from the spec: [database.revokeAllUserTokens] deactivates all
    refresh tokens of the user. *)
Definition db_revokeAllUserTokens (u : js_string) (d : Database)
  : unit * Database :=
  (tt,
   {| tbl_users := tbl_users d; tbl_tenants := tbl_tenants d;
      tbl_registrationKeys := tbl_registrationKeys d;
      tbl_refreshTokens :=
        map (fun t => if js_eqb (rt_userId t) u then deactivate t else t)
            (tbl_refreshTokens d);
      nextId := nextId d |}).

(* ================================================================== *)
(** * The platform: external libraries and process environment *)
(* ================================================================== *)

(** [bcrypt.hash] salts its result: the salt is read from the entropy of
    the world. [jwt.sign] stamps the token with the current instant;
    [jwt.verify] answers [None] where the library throws. The service
    modules import [bcrypt] and [bcryptjs], two implementations of the one
    algorithm; both hash and compare the first 72 bytes of their data and
    ignore the rest, which the class leaves to its instances.
    [LocalTZA t isUTC] is the offset, in milliseconds, of the local time of
    the host from UTC: at the instant [t] when [isUTC] holds, at the local
    time [t] otherwise. It is the abstract operation of that name through
    which a [Date] of ECMAScript reads and writes local time. *)
Class Platform := {
  bcrypt_hash : N -> js_string -> Z -> js_string;
  bcrypt_compare : js_string -> js_string -> bool;
  LocalTZA : Z -> bool -> Z;
  randomBytes_hex : N -> Z -> js_string;
  jwt_sign : Payload -> js_string -> SignOptions -> Z -> js_string;
  jwt_verify : js_string -> js_string -> VerifyOptions -> Z -> option Payload;
  JWT_ACCESS_SECRET : option js_string;
  JWT_REFRESH_SECRET : option js_string;
  JWT_ACCESS_EXPIRES : option js_string;
  JWT_REFRESH_EXPIRES : option js_string;
  NODE_ENV : option js_string
}.

(** [value || fallback] on a possibly missing string. *)
Definition or_string (value : option js_string) (fallback : js_string)
  : js_string :=
  match value with
  | Some (c :: s) => c :: s
  | _ => fallback
  end.

(** [value || fallback] on a possibly missing number: zero is falsy. *)
Definition or_number (value : option Z) (fallback : Z) : Z :=
  match value with
  | Some 0 => fallback
  | Some n => n
  | None => fallback
  end.

(** [value ?? fallback] *)
Definition nullish {A} (value : option A) (fallback : A) : A :=
  match value with
  | Some v => v
  | None => fallback
  end.

(** The message of a caught value:
    [error instanceof Error ? error.message : 'Unknown error']. *)
Definition message_of (error : Exn) : string :=
  match error with
  | Error m => m
  | NonError => "Unknown error"
  end.

(* ================================================================== *)
(** * RegistrationKeyService *)
(* ================================================================== *)

Record CreateKeyRequest := {
  ckr_tenantId : option js_string;
  ckr_accountType : AccountType;
  ckr_usesAllowed : option Z;
  ckr_expiresAt : option Z;
  ckr_singleUse : option bool;
  ckr_metadata : option js_string
}.

Definition msg_tenant_required : string :=
  "tenantId é obrigatório para gerar chave de registro".
Definition msg_not_found : string := "Chave de registro inválida".
Definition msg_revoked : string := "Chave de registro foi revogada".
Definition msg_expired : string := "Chave de registro expirada".
Definition msg_exhausted : string :=
  "Chave de registro esgotou os usos permitidos".
Definition msg_tenant_mismatch : string :=
  "Chave de registro não pertence ao tenant especificado".

(** [!request.tenantId || request.tenantId.trim() === ''] *)
Definition tenantId_is_empty (t : option js_string) : bool :=
  match t with
  | None => true
  | Some s => (negb (truthy_string s) || js_eqb (trim s) [])%bool
  end.

(** [a !== b] between a possibly null stored tenant and a string. *)
Definition tenant_differs (stored : option js_string) (t : js_string) : bool :=
  match stored with
  | Some s => negb (js_eqb s t)
  | None => true
  end.

Section Services.

Context {P : Platform}.

Definition generateKey (request : CreateKeyRequest) (createdBy : js_string)
  : M js_string :=
  try_catch
    (console_log "Generating registration key with request:" ;;
     (if tenantId_is_empty (ckr_tenantId request)
      then throw (Error msg_tenant_required) else ret tt) ;;
     seed <- draw ;;
     let key := randomBytes_hex seed 32 in
     salt <- draw ;;
     let keyHash := bcrypt_hash salt key 12 in
     console_log "Generated key hash, creating database record..." ;;
     let keyData :=
       {| kd_keyHash := keyHash;
          kd_tenantId := ckr_tenantId request;
          kd_accountType := ckr_accountType request;
          kd_usesAllowed := or_number (ckr_usesAllowed request) 1;
          kd_usesLeft := or_number (ckr_usesAllowed request) 1;
          kd_singleUse := nullish (ckr_singleUse request) true;
          kd_expiresAt := ckr_expiresAt request;
          kd_metadata := or_string (ckr_metadata request) (js "{}");
          kd_createdBy := createdBy;
          kd_usedLogs := [];
          kd_revoked := false |} in
     console_log "Creating key with data:" ;;
     storage (db_createRegistrationKey keyData) ;;
     console_log "Registration key created successfully" ;;
     ret key)
    (fun error =>
       console_error "Error in generateKey:" (Some error) ;;
       throw (Error ("Failed to generate registration key: "
                     ++ message_of error))).

Definition listKeys (tenantId : option js_string)
  : M (list RegistrationKey) :=
  data <- storage db_getAllRegistrationKeys ;;
  match tenantId with
  | Some (c :: s) =>
      ret (filter (fun key => negb (tenant_differs (rk_tenant_id key) (c :: s)))
                  data)
  | _ => ret data
  end.

Definition revokeKey (keyId : js_string) : M unit :=
  storage (db_revokeRegistrationKey keyId).

(** The first stored key whose hash the plaintext matches: the loop over
    [keys] with its [break]. *)
Definition matching (plainKey : js_string) (keys : list RegistrationKey)
  : option RegistrationKey :=
  find (fun key => bcrypt_compare plainKey (rk_key_hash key)) keys.

(** [Array.isArray(logs) ? [...logs, entry] : [entry]] *)
Definition appended (logs : option (list UsedLog)) (entry : UsedLog)
  : list UsedLog :=
  match logs with
  | Some l => l ++ [entry]
  | None => [entry]
  end.

Definition validateAndConsumeKey (plainKey tenantId : js_string)
  : M (AccountType * option js_string) :=
  try_catch
    (console_log "Validating registration key for tenant:" ;;
     keys <- storage db_getAllRegistrationKeys ;;
     match matching plainKey keys with
     | None => throw (Error msg_not_found)
     | Some matchingKey =>
         if rk_revoked matchingKey then throw (Error msg_revoked) else
         now <- new_Date ;;
         if expired now matchingKey then throw (Error msg_expired) else
         if rk_uses_left matchingKey <=? 0
         then throw (Error msg_exhausted) else
         if tenant_differs (rk_tenant_id matchingKey) tenantId
         then throw (Error msg_tenant_mismatch) else
         usedAt <- new_Date ;;
         let usedLog := KeyUse usedAt tenantId "system" in
         let updatedUsedLogs := appended (rk_used_logs matchingKey) usedLog in
         storage (db_updateRegistrationKey (rk_id matchingKey)
                    (rk_uses_left matchingKey - 1) updatedUsedLogs) ;;
         console_log "Registration key validated and consumed successfully" ;;
         ret (rk_account_type matchingKey, rk_tenant_id matchingKey)
     end)
    (fun error =>
       console_error "Error validating registration key:" (Some error) ;;
       throw error).

(** ** The two awaited storage calls of [validateAndConsumeKey]

    Between the [await] that reads the keys and the [await] that writes the
    decremented counter, other requests run. The method is cut there:
    [readKey] is it up to the last check, [writeKey] is the rest, and each
    runs under the method's [catch]. *)

Definition logged_rethrow {A} (c : M A) : M A :=
  try_catch c
    (fun error =>
       console_error "Error validating registration key:" (Some error) ;;
       throw error).

Definition readKey (plainKey tenantId : js_string) : M RegistrationKey :=
  logged_rethrow
    (console_log "Validating registration key for tenant:" ;;
     keys <- storage db_getAllRegistrationKeys ;;
     match matching plainKey keys with
     | None => throw (Error msg_not_found)
     | Some matchingKey =>
         if rk_revoked matchingKey then throw (Error msg_revoked) else
         now <- new_Date ;;
         if expired now matchingKey then throw (Error msg_expired) else
         if rk_uses_left matchingKey <=? 0
         then throw (Error msg_exhausted) else
         if tenant_differs (rk_tenant_id matchingKey) tenantId
         then throw (Error msg_tenant_mismatch) else
         ret matchingKey
     end).

Definition writeKey (matchingKey : RegistrationKey) (tenantId : js_string)
  : M (AccountType * option js_string) :=
  logged_rethrow
    (usedAt <- new_Date ;;
     let usedLog := KeyUse usedAt tenantId "system" in
     let updatedUsedLogs := appended (rk_used_logs matchingKey) usedLog in
     storage (db_updateRegistrationKey (rk_id matchingKey)
                (rk_uses_left matchingKey - 1) updatedUsedLogs) ;;
     console_log "Registration key validated and consumed successfully" ;;
     ret (rk_account_type matchingKey, rk_tenant_id matchingKey)).

(** A request in flight: not started, between its two storage calls
    (holding the key record it read), or finished. *)
Inductive Consumption :=
| Arrived (plainKey tenantId : js_string)
| Holding (matchingKey : RegistrationKey) (tenantId : js_string)
| Settled (outcome : Result (AccountType * option js_string)).

(** One request advances to its next [await]. *)
Definition advance (c : Consumption) (w : World) : Consumption * World :=
  match c with
  | Arrived plainKey tenantId =>
      match readKey plainKey tenantId w with
      | (Ok matchingKey, w') => (Holding matchingKey tenantId, w')
      | (Throw e, w') => (Settled (Throw e), w')
      end
  | Holding matchingKey tenantId =>
      match writeKey matchingKey tenantId w with
      | (r, w') => (Settled r, w')
      end
  | Settled r => (Settled r, w)
  end.

Fixpoint advance_nth (n : nat) (cs : list Consumption) (w : World)
  : list Consumption * World :=
  match cs, n with
  | [], _ => ([], w)
  | c :: cs', O => let (c', w') := advance c w in (c' :: cs', w')
  | c :: cs', S n' =>
      let (cs'', w') := advance_nth n' cs' w in (c :: cs'', w')
  end.

(** The event loop runs the requests in the order of [schedule]: each entry
    names the request that advances next. *)
Fixpoint interleave (schedule : list nat) (cs : list Consumption) (w : World)
  : list Consumption * World :=
  match schedule with
  | [] => (cs, w)
  | n :: schedule' =>
      let (cs', w') := advance_nth n cs w in interleave schedule' cs' w'
  end.



(** The value a call threw, if it threw. *)
Definition failure {A} (r : Result A) : option Exn :=
  match r with
  | Ok _ => None
  | Throw e => Some e
  end.


End Services.

(* ================================================================== *)
(** * AuthService *)
(* ================================================================== *)

Definition msg_invalid_credentials : string := "Invalid credentials".
Definition msg_deactivated : string := "Account is deactivated".
Definition msg_invalid_refresh : string := "Invalid or expired refresh token".
Definition msg_invalid_registration_key : string :=
  "Invalid or expired registration key".

(** The milliseconds of a day. *)
Definition msPerDay : Z := 86400000.

Section Auth.

Context {P : Platform}.

(** [LocalTime] and [UTC] of ECMAScript: from an instant to the local
    time of the host, and back. *)
Definition LocalTime (t : Z) : Z := t + LocalTZA t true.

Definition UTC (t : Z) : Z := t - LocalTZA t false.

(** [d.setDate(d.getDate() + days)] on a date of time value [t].
    [getDate] reads the day of the month in local time; [setDate] writes
    it in local time and keeps the local time of day, a day past the end
    of the month running on into the next month. So the local time moves
    by [days] whole days, and the date becomes the instant at which the
    host shows that local time. On a host set to UTC this is
    [t + days * msPerDay]; where the offset of the host changes in
    between (daylight saving) it differs from that by the change. Time
    values stay within the range of valid dates. *)
Definition setDate_getDate_plus (days t : Z) : Z :=
  UTC (LocalTime t + days * msPerDay).

Definition accessTokenSecret : js_string :=
  or_string JWT_ACCESS_SECRET (js "dev-secret-change-in-production").

Definition refreshTokenSecret : js_string :=
  or_string JWT_REFRESH_SECRET (js "dev-refresh-secret-change-in-production").

Definition verify_options : VerifyOptions :=
  {| vo_issuer := js "legalsaas"; vo_audience := js "legalsaas-users" |}.

Definition hashPassword (password : js_string) : M js_string :=
  salt <- draw ;;
  ret (bcrypt_hash salt password 12).

Definition verifyPassword (password hash : js_string) : M bool :=
  ret (bcrypt_compare password hash).

(** The claims [generateTokens] signs for a user or an admin. *)
Definition token_payload (user : Identity) : Payload :=
  let is_admin := truthy (id_role user) in
  {| p_userId := id_id user;
     p_email := id_email user;
     p_name := id_name user;
     p_role := if is_admin then id_role user else None;
     p_tenantId := if is_admin then None else id_tenantId user;
     p_accountType := if is_admin then None else id_accountType user |}.

Definition access_options : SignOptions :=
  {| so_expiresIn := or_string JWT_ACCESS_EXPIRES (js "24h");
     so_issuer := js "legalsaas";
     so_audience := js "legalsaas-users" |}.

Definition refresh_options : SignOptions :=
  {| so_expiresIn := or_string JWT_REFRESH_EXPIRES (js "7d");
     so_issuer := js "legalsaas";
     so_audience := js "legalsaas-users" |}.

Definition generateTokens (user : Identity) : M Tokens :=
  let payload := token_payload user in
  now <- new_Date ;;
  let accessToken := jwt_sign payload accessTokenSecret access_options now in
  let refreshToken :=
    jwt_sign payload refreshTokenSecret refresh_options now in
  salt <- draw ;;
  let tokenHash := bcrypt_hash salt refreshToken 10 in
  today <- new_Date ;;
  let expiresAt := setDate_getDate_plus 7 today in
  try_catch
    (storage (db_createRefreshToken
                {| rtd_tokenHash := tokenHash;
                   rtd_userId := id_id user;
                   rtd_expiresAt := expiresAt;
                   rtd_isActive := true |}))
    (fun error => console_error "Error storing refresh token:" (Some error)) ;;
  ret {| accessToken := accessToken; refreshToken := refreshToken |}.

Definition verifyAccessToken (token : js_string) : M Payload :=
  try_catch
    (now <- new_Date ;;
     match jwt_verify token accessTokenSecret verify_options now with
     | Some decoded => ret decoded
     | None => throw (Error "JsonWebTokenError")
     end)
    (fun _ => throw (Error "Invalid or expired access token")).

Definition verifyRefreshToken (token : js_string) : M Payload :=
  try_catch
    (now <- new_Date ;;
     match jwt_verify token refreshTokenSecret verify_options now with
     | None => throw (Error "JsonWebTokenError")
     | Some decoded =>
         let userId := p_userId decoded in
         userTokens <- storage (db_getActiveRefreshTokensForUser userId) ;;
         let isValidToken :=
           existsb (fun storedToken =>
                      bcrypt_compare token (rt_tokenHash storedToken))
                   userTokens in
         if negb isValidToken
         then throw (Error "Refresh token not found or expired")
         else ret decoded
     end)
    (fun _ => throw (Error msg_invalid_refresh)).

Definition refreshTokens (refreshToken : js_string) : M (User * Tokens) :=
  decoded <- verifyRefreshToken refreshToken ;;
  found <- storage (db_findUserByEmail (p_email decoded)) ;;
  match found with
  | None => throw (Error "User not found or inactive")
  | Some user =>
      if negb (user_isActive user)
      then throw (Error "User not found or inactive") else
      let userId := p_userId decoded in
      userTokens <- storage (db_getActiveRefreshTokensForUser userId) ;;
      match find (fun storedToken =>
                    bcrypt_compare refreshToken (rt_tokenHash storedToken))
                 userTokens with
      | Some storedToken =>
          storage (db_revokeRefreshTokenById (rt_id storedToken))
      | None => ret tt
      end ;;
      tokens <- generateTokens (identity_of_user user) ;;
      ret (user, tokens)
  end.

(** The refresh token a rotation handed out, if it succeeded. *)
Definition issued (r : Result (User * Tokens)) : option js_string :=
  match r with
  | Ok (_, tokens) => Some (refreshToken tokens)
  | Throw _ => None
  end.

Definition revokeAllTokens (userId : js_string) (isAdmin : bool) : M unit :=
  try_catch
    (if isAdmin
     then console_log "Revoking admin tokens for user:"
     else storage (db_revokeAllUserTokens userId))
    (fun error => console_error "Error revoking tokens:" (Some error)).

Definition loginUser (email password : js_string)
  : M (UserWithoutPassword * Tokens) :=
  found <- storage (db_findUserByEmail email) ;;
  match found with
  | None => throw (Error msg_invalid_credentials)
  | Some user =>
      if negb (user_isActive user) then throw (Error msg_deactivated) else
      isValidPassword <- verifyPassword password (user_password user) ;;
      if negb isValidPassword
      then throw (Error msg_invalid_credentials) else
      now <- new_Date ;;
      storage (db_updateUserLastLogin now (user_id user)) ;;
      tokens <- generateTokens (identity_of_user user) ;;
      ret (without_password user, tokens)
  end.

(** [if (process.env.NODE_ENV === 'development') { c }] *)
Definition when_development (c : M unit) : M unit :=
  match NODE_ENV with
  | Some env => if js_eqb env (js "development") then c else ret tt
  | None => ret tt
  end.

Definition registerUser (email password name key : js_string)
  : M (UserWithoutPassword * Tokens * bool) :=
  now <- new_Date ;;
  validKeys <- storage (db_findValidRegistrationKeys now) ;;
  when_development (console_log "Found valid registration keys:") ;;
  match find (fun validKey =>
                truthy_string (rk_key_hash validKey)
                && bcrypt_compare key (rk_key_hash validKey))%bool
             validKeys with
  | None => throw (Error msg_invalid_registration_key)
  | Some registrationKey =>
      when_development (console_log "Key match found for ID:") ;;
      console_log "Valid registration key found:" ;;
      match rk_tenant_id registrationKey with
      | Some (c :: s) =>
          let keyTenant := c :: s in
          existingUser <- storage (db_findUserByEmail email) ;;
          match existingUser with
          | Some _ => throw (Error "User already exists with this email")
          | None =>
              hashedPassword <- hashPassword password ;;
              let isNewTenant := false in
              allTenants <- storage db_getAllTenants ;;
              match find (fun t => js_eqb (tenant_id t) keyTenant)
                         allTenants with
              | None => throw (Error "Associated tenant not found")
              | Some tenant =>
                  console_log "Using tenant:" ;;
                  let userData :=
                    {| ud_email := email;
                       ud_password := hashedPassword;
                       ud_name := name;
                       ud_accountType := rk_account_type registrationKey;
                       ud_tenantId := tenant_id tenant;
                       ud_isActive := true;
                       ud_mustChangePassword := false |} in
                  console_log "Creating user with data:" ;;
                  user <- storage (db_createUser userData) ;;
                  console_log "User created:" ;;
                  usedAt <- new_Date ;;
                  storage (db_updateRegistrationKey
                             (rk_id registrationKey)
                             (rk_uses_left registrationKey - 1)
                             (nullish (rk_used_logs registrationKey) []
                              ++ [Registration (user_id user)
                                    (user_email user) usedAt])) ;;
                  console_log
                    "Registration key usage updated successfully for ID:" ;;
                  tokens <- generateTokens (identity_of_user user) ;;
                  ret (without_password user, tokens, isNewTenant)
              end
          end
      | _ =>
          console_error "Registration key missing required tenantId:" None ;;
          throw (Error "Invalid registration key - missing tenant association")
      end
  end.

End Auth.

(* ================================================================== *)
(** * A test double of the platform, and sample worlds *)
(* ================================================================== *)

(** [string] of an instant, in decimal. *)
Definition decimal (z : Z) : js_string :=
  js (NilEmpty.string_of_int (Z.to_int z)).

Fixpoint split_on (sep : code_unit) (s cur : js_string) : list js_string :=
  match s with
  | [] => [rev cur]
  | c :: s' =>
      if N.eqb c sep then rev cur :: split_on sep s' []
      else split_on sep s' (c :: cur)
  end.

(** The double hashes by prefixing the salt and compares exactly; it signs
    by joining the secret, the user id, the email and the instant with
    bars, and verifies by taking the token apart again. Its host is set
    to UTC. *)
Definition test_platform : Platform :=
  {| bcrypt_hash := fun salt data _ => salt :: data;
     bcrypt_compare := fun data hash => js_eqb data (tl hash);
     LocalTZA := fun _ _ => 0;
     randomBytes_hex := fun seed _ => js "key-" ++ fresh_id seed;
     jwt_sign := fun payload secret _ now =>
       secret ++ js "|" ++ p_userId payload ++ js "|" ++ p_email payload
       ++ js "|" ++ decimal now;
     jwt_verify := fun token secret _ _ =>
       match split_on 124%N token [] with
       | [s; u; e; _] =>
           if js_eqb s secret then
             Some {| p_userId := u; p_email := e; p_name := [];
                     p_role := None; p_tenantId := None;
                     p_accountType := None |}
           else None
       | _ => None
       end;
     JWT_ACCESS_SECRET := Some (js "access");
     JWT_REFRESH_SECRET := Some (js "refresh");
     JWT_ACCESS_EXPIRES := None;
     JWT_REFRESH_EXPIRES := None;
     NODE_ENV := Some (js "test") |}.

(** The header of a JSON Web Token signed with HS256. *)
Definition jwt_header : js_string :=
  js "eyJhbGciOiJIUzI1NiIsInR5cCI6IkpXVCJ9".

(** A double nearer to the libraries in what the rotation of refresh
    tokens rests on. Its [bcrypt] hashes and compares the first 72 bytes
    of its data, as [bcrypt] and [bcryptjs] do. Its tokens start as a
    signed JSON Web Token does, with the header and then the claims in
    the order [generateTokens] lists them; the instant of issue and the
    signature, for which the secret stands, come after those. *)
Definition truncating_platform : Platform :=
  {| bcrypt_hash := fun salt data _ => salt :: firstn 72 data;
     bcrypt_compare := fun data hash => js_eqb (firstn 72 data) (tl hash);
     LocalTZA := fun _ _ => 0;
     randomBytes_hex := fun seed _ => js "key-" ++ fresh_id seed;
     jwt_sign := fun payload secret _ now =>
       jwt_header ++ js "|" ++ p_userId payload ++ js "|" ++ p_email payload
       ++ js "|" ++ decimal now ++ js "|" ++ secret;
     jwt_verify := fun token secret _ _ =>
       match split_on 124%N token [] with
       | [h; u; e; _; s] =>
           if (js_eqb h jwt_header && js_eqb s secret)%bool then
             Some {| p_userId := u; p_email := e; p_name := [];
                     p_role := None; p_tenantId := None;
                     p_accountType := None |}
           else None
       | _ => None
       end;
     JWT_ACCESS_SECRET := Some (js "access");
     JWT_REFRESH_SECRET := Some (js "refresh");
     JWT_ACCESS_EXPIRES := None;
     JWT_REFRESH_EXPIRES := None;
     NODE_ENV := Some (js "test") |}.

(** The instant at which daylight saving time began in New York in 2026:
    8 March, 7:00 UTC, when the local clocks went from 2:00 to 3:00. *)
Definition spring_forward : Z := 1772953200000.

(** The first double on a host in New York around that instant: local
    time is five hours behind UTC before it and four hours after; a local
    time that the change skipped is read with the offset before it. *)
Definition new_york_platform : Platform :=
  {| bcrypt_hash := bcrypt_hash (Platform := test_platform);
     bcrypt_compare := bcrypt_compare (Platform := test_platform);
     LocalTZA := fun t isUTC =>
       if isUTC
       then if t <? spring_forward then -5 * 3600000 else -4 * 3600000
       else if t <? spring_forward - 4 * 3600000
            then -5 * 3600000 else -4 * 3600000;
     randomBytes_hex := randomBytes_hex (Platform := test_platform);
     jwt_sign := jwt_sign (Platform := test_platform);
     jwt_verify := jwt_verify (Platform := test_platform);
     JWT_ACCESS_SECRET := Some (js "access");
     JWT_REFRESH_SECRET := Some (js "refresh");
     JWT_ACCESS_EXPIRES := None;
     JWT_REFRESH_EXPIRES := None;
     NODE_ENV := Some (js "test") |}.

Definition world_of (d : Database) (script : list (option Exn)) : World :=
  {| database := d; outcomes := script; clock := 1000; entropy := 7%N;
     console := [] |}.

Definition tenant_a : Tenant :=
  {| tenant_id := js "tenant-a"; tenant_name := js "Alfa Advogados" |}.

Definition tenant_b : Tenant :=
  {| tenant_id := js "tenant-b"; tenant_name := js "Beta Advogados" |}.

(** A key of tenant A for the plaintext [key-1]. *)
Definition sample_key (uses_left : Z) (expires_at : option Z) (revoked : bool)
  : RegistrationKey :=
  {| rk_id := js "k1";
     rk_key_hash := bcrypt_hash (Platform := test_platform) 3%N (js "key-1") 12;
     rk_tenant_id := Some (js "tenant-a");
     rk_account_type := COMPOSTA;
     rk_uses_allowed := 1;
     rk_uses_left := uses_left;
     rk_single_use := true;
     rk_expires_at := expires_at;
     rk_metadata := js "{}";
     rk_created_by := js "admin";
     rk_used_logs := Some [];
     rk_revoked := revoked |}.

Definition key_world (k : RegistrationKey) : World :=
  world_of
    {| tbl_users := []; tbl_tenants := [tenant_a; tenant_b];
       tbl_registrationKeys := [k]; tbl_refreshTokens := [];
       nextId := 1%N |} [].

(** A request for a single-use key of tenant A. *)
Definition sample_request (usesAllowed : option Z) : CreateKeyRequest :=
  {| ckr_tenantId := Some (js "tenant-a");
     ckr_accountType := COMPOSTA;
     ckr_usesAllowed := usesAllowed;
     ckr_expiresAt := None;
     ckr_singleUse := None;
     ckr_metadata := None |}.

Definition tenants_only : Database :=
  {| tbl_users := []; tbl_tenants := [tenant_a; tenant_b];
     tbl_registrationKeys := []; tbl_refreshTokens := []; nextId := 1%N |}.


Definition ana : User :=
  {| user_id := js "u1";
     user_email := js "ana@x.com";
     user_password :=
       bcrypt_hash (Platform := test_platform) 5%N (js "correct horse") 12;
     user_name := js "Ana";
     user_accountType := COMPOSTA;
     user_tenantId := js "tenant-a";
     user_isActive := true;
     user_mustChangePassword := false;
     user_lastLogin := None |}.

Definition users_only : Database :=
  {| tbl_users := [ana]; tbl_tenants := [tenant_a];
     tbl_registrationKeys := []; tbl_refreshTokens := []; nextId := 1%N |}.

(** Ana signed in once; [script] is what the storage layer does next. *)
Definition signed_in (script : list (option Exn)) : World :=
  with_outcomes script
    (snd (loginUser (P := test_platform) (js "ana@x.com")
            (js "correct horse") (world_of users_only []))).

(** The refresh token the sign-in handed out. *)
Definition ana_refresh_token : js_string :=
  js "refresh|u1|ana@x.com|1000".

(** A user whose id is a UUID, as the store assigns them. *)
Definition carla : User :=
  {| user_id := js "7b0e6c1a-3f52-4d8e-9a41-5c2d7e9f0b13";
     user_email := js "carla@example.com";
     user_password :=
       bcrypt_hash (Platform := truncating_platform) 5%N
         (js "correct horse") 12;
     user_name := js "Carla";
     user_accountType := COMPOSTA;
     user_tenantId := js "tenant-a";
     user_isActive := true;
     user_mustChangePassword := false;
     user_lastLogin := None |}.

(** Carla signed in once, at the instant 1000, on the truncating
    double. *)
Definition carla_signed_in : World :=
  snd (loginUser (P := truncating_platform) (js "carla@example.com")
         (js "correct horse")
         (world_of
            {| tbl_users := [carla]; tbl_tenants := [tenant_a];
               tbl_registrationKeys := []; tbl_refreshTokens := [];
               nextId := 1%N |} [])).

(** The refresh token a sign-in or a rotation hands Carla at the instant
    [now]. *)
Definition carla_token (now : Z) : js_string :=
  jwt_header ++ js "|7b0e6c1a-3f52-4d8e-9a41-5c2d7e9f0b13|carla@example.com|"
  ++ decimal now ++ js "|refresh".

(** The world after Carla presented the token of her sign-in to
    [refreshTokens] at the instant 2000, seen at the instant 3000. *)
Definition carla_rotated : World :=
  with_clock 3000
    (snd (refreshTokens (P := truncating_platform) (carla_token 1000)
            (with_clock 2000 carla_signed_in))).

Definition composta_caller : AuthenticatedRequest :=
  {| req_user :=
       Some {| au_userId := js "u1"; au_tenantId := Some (js "tenant-a");
               au_accountType := Some COMPOSTA |};
     req_params := [] |}.

(* ================================================================== *)
(** * Observations on worlds, and proof steps *)
(* ================================================================== *)

(** The next storage call of the world goes through. *)
Definition answers (w : World) : Prop :=
  match outcomes w with
  | Some _ :: _ => False
  | _ => True
  end.

(** What [validateAndConsumeKey] answers once the keys were read: the
    verdict of the first failing check, in the order of the source. *)
Definition first_failure (now : Z) (tenantId : js_string)
  (found : option RegistrationKey) : option string :=
  match found with
  | None => Some msg_not_found
  | Some k =>
      if rk_revoked k then Some msg_revoked
      else if expired now k then Some msg_expired
      else if rk_uses_left k <=? 0 then Some msg_exhausted
      else if tenant_differs (rk_tenant_id k) tenantId
           then Some msg_tenant_mismatch
      else None
  end.



Section Observations.

Context {P : Platform}.

(** The stored records that vouch for a token of the user. *)
Definition vouched (token userId : js_string) (d : Database) : bool :=
  existsb (fun storedToken => bcrypt_compare token (rt_tokenHash storedToken))
          (fst (db_getActiveRefreshTokensForUser userId d)).

(** The refresh-token table after a rotation that revoked [storedToken]
    and stored the hash of [issued] for [userId]. *)
Definition rotated (w : World) (storedToken : RefreshToken)
  (issued userId : js_string) : list RefreshToken :=
  map (fun t => if js_eqb (rt_id t) (rt_id storedToken)
                then deactivate t else t)
      (tbl_refreshTokens (database w))
  ++ [token_row (fresh_id (nextId (database w)))
        {| rtd_tokenHash := bcrypt_hash (entropy w) issued 10;
           rtd_userId := userId;
           rtd_expiresAt := setDate_getDate_plus 7 (clock w);
           rtd_isActive := true |}].

End Observations.

(** One step of a service method on a world that is a variable. *)
Ltac step_monad :=
  unfold bind, try_catch, ret, throw, console_log, console_error, new_Date,
    draw;
  cbn [fst snd database outcomes clock entropy console with_database
       with_outcomes with_clock].

(** The same on a world whose fields are known. *)
Ltac run_world :=
  cbv beta iota zeta delta
    [bind try_catch ret throw console_log console_error new_Date draw storage
     with_database with_outcomes with_clock database outcomes clock entropy
     console fst snd negb].

(* ================================================================== *)
(** * Further methods of the key service *)
(* ================================================================== *)

(** The summary [getKeyUsage] returns. The creation instant, which the
    store assigns and the row model does not carry, is left out. *)
Record KeyUsage := {
  ku_id : js_string;
  ku_accountType : AccountType;
  ku_usesAllowed : Z;
  ku_usesLeft : Z;
  ku_usedLogs : option (list UsedLog);
  ku_revoked : bool;
  ku_expiresAt : option Z
}.

Definition usage_of (key : RegistrationKey) : KeyUsage :=
  {| ku_id := rk_id key;
     ku_accountType := rk_account_type key;
     ku_usesAllowed := rk_uses_allowed key;
     ku_usesLeft := rk_uses_left key;
     ku_usedLogs := rk_used_logs key;
     ku_revoked := rk_revoked key;
     ku_expiresAt := rk_expires_at key |}.

Definition getKeyUsage (keyId : js_string) : M KeyUsage :=
  keys <- storage db_getAllRegistrationKeys ;;
  match find (fun k => js_eqb (rk_id k) keyId) keys with
  | None => throw (Error "Key not found")
  | Some key => ret (usage_of key)
  end.

(** The number of entries of a usage log; a value that is not an array
    counts as empty, as [validateAndConsumeKey] treats it. *)
Definition log_length (logs : option (list UsedLog)) : nat :=
  match logs with
  | Some l => List.length l
  | None => 0%nat
  end.

(** A service method relates the tables before it to the tables after it
    by [R], whatever the world it runs in. *)
Definition keeps (R : Database -> Database -> Prop) {A} (c : M A) : Prop :=
  forall w, R (database w) (database (snd (c w))).

(** The tables a method of the key service has no business with. *)
Definition same_accounts (d d' : Database) : Prop :=
  tbl_users d' = tbl_users d
  /\ tbl_tenants d' = tbl_tenants d
  /\ tbl_refreshTokens d' = tbl_refreshTokens d.

(** The tables a sign-in or a token operation has no business with. *)
Definition same_keys_and_tenants (d d' : Database) : Prop :=
  tbl_registrationKeys d' = tbl_registrationKeys d
  /\ tbl_tenants d' = tbl_tenants d.

Definition same_tenants (d d' : Database) : Prop :=
  tbl_tenants d' = tbl_tenants d.

Definition simples_caller : AuthenticatedRequest :=
  {| req_user :=
       Some {| au_userId := js "u2"; au_tenantId := Some (js "tenant-a");
               au_accountType := Some SIMPLES |};
     req_params := [("tenantId"%string, js "tenant-b")] |}.

(** The object [generateKey] builds for a request, given the hash of the
    key it drew. *)
Definition stored_key_data (request : CreateKeyRequest)
  (createdBy keyHash : js_string) : KeyData :=
  {| kd_keyHash := keyHash;
     kd_tenantId := ckr_tenantId request;
     kd_accountType := ckr_accountType request;
     kd_usesAllowed := or_number (ckr_usesAllowed request) 1;
     kd_usesLeft := or_number (ckr_usesAllowed request) 1;
     kd_singleUse := nullish (ckr_singleUse request) true;
     kd_expiresAt := ckr_expiresAt request;
     kd_metadata := or_string (ckr_metadata request) (js "{}");
     kd_createdBy := createdBy;
     kd_usedLogs := [];
     kd_revoked := false |}.

(** A world with the two sample tenants and no key, and a key row as the
    store holds it after [generateKey] for [sample_request]. *)
Definition fresh_world : World := world_of tenants_only [].

Definition fresh_key_row (usesAllowed : option Z) : RegistrationKey :=
  key_row (js "1")
    (stored_key_data (sample_request usesAllowed) (js "admin")
       (bcrypt_hash (Platform := test_platform) 8%N (js "key-7") 12)).

Section FurtherObservations.

Context {P : Platform}.

(** The pair [generateTokens] signs for an identity at an instant. *)
Definition signed_tokens (user : Identity) (now : Z) : Tokens :=
  {| accessToken :=
       jwt_sign (token_payload user) accessTokenSecret access_options now;
     refreshToken :=
       jwt_sign (token_payload user) refreshTokenSecret refresh_options now |}.

(** The refresh-token record [generateTokens] stores in the world [w]
    for the identity [userId] and the refresh token [issued]. *)
Definition issued_record (w : World) (userId issued : js_string)
  : RefreshToken :=
  token_row (fresh_id (nextId (database w)))
    {| rtd_tokenHash := bcrypt_hash (entropy w) issued 10;
       rtd_userId := userId;
       rtd_expiresAt := setDate_getDate_plus 7 (clock w);
       rtd_isActive := true |}.

(** The user record [registerUser] creates in the world [w] with the key
    [k] of the tenant [tenant]. *)
Definition registered_user (w : World) (email password name : js_string)
  (k : RegistrationKey) (tenant : Tenant) : User :=
  user_row (fresh_id (nextId (database w)))
    {| ud_email := email;
       ud_password := bcrypt_hash (entropy w) password 12;
       ud_name := name;
       ud_accountType := rk_account_type k;
       ud_tenantId := tenant_id tenant;
       ud_isActive := true;
       ud_mustChangePassword := false |}.

(** The key [registerUser] picks for a plaintext: the first of the valid
    keys whose stored hash is present and matches. *)
Definition valid_match (key : js_string) (w : World)
  : option RegistrationKey :=
  find (fun validKey =>
          truthy_string (rk_key_hash validKey)
          && bcrypt_compare key (rk_key_hash validKey))%bool
       (fst (db_findValidRegistrationKeys (clock w) (database w))).

End FurtherObservations.

(** Ana's account after it was deactivated. *)
Definition ana_deactivated : User :=
  {| user_id := user_id ana; user_email := user_email ana;
     user_password := user_password ana; user_name := user_name ana;
     user_accountType := user_accountType ana;
     user_tenantId := user_tenantId ana; user_isActive := false;
     user_mustChangePassword := user_mustChangePassword ana;
     user_lastLogin := user_lastLogin ana |}.

Definition deactivated_world : World :=
  world_of
    {| tbl_users := [ana_deactivated]; tbl_tenants := [tenant_a];
       tbl_registrationKeys := [];
       tbl_refreshTokens := tbl_refreshTokens (database (signed_in []));
       nextId := 2%N |} [].

(** The world with the fresh single-use key and Ana's account. *)
Definition onboarding_world : World :=
  world_of
    {| tbl_users := [ana]; tbl_tenants := [tenant_a; tenant_b];
       tbl_registrationKeys := [fresh_key_row (Some 1)];
       tbl_refreshTokens := []; nextId := 2%N |} [].

(* ================================================================== *)
(** * The tenant-schema script *)
(* ================================================================== *)

(** [id.replace(/-/g, '')] *)
Definition without_hyphens (id : js_string) : js_string :=
  filter (fun c => negb (N.eqb c 45)) id.

(** The template [tenant_${tenant.id.replace(/-/g, '')}]. *)
Definition schemaName (id : js_string) : js_string :=
  js "tenant_" ++ without_hyphens id.






Definition and_then {S A B} (c : S -> Result A * S)
  (k : A -> S -> Result B * S) : S -> Result B * S :=
  fun s =>
    match c s with
    | (Ok a, s') => k a s'
    | (Throw e, s') => (Throw e, s')
    end.

(** [try { c } catch (error) { h error } finally { f }] *)
Definition try_catch_finally {S} (c : S -> Result unit * S)
  (h : Exn -> S -> Result unit * S) (f : S -> Result unit * S)
  : S -> Result unit * S :=
  fun s =>
    match c s with
    | (Ok a, s') => f s'
    | (Throw e, s') =>
        match h e s' with
        | (Ok _, s'') => f s''
        | (Throw e', s'') =>
            match f s'' with
            | (Ok _, s3) => (Throw e', s3)
            | (Throw e'', s3) => (Throw e'', s3)
            end
        end
    end.



















(* ------------------------------------------------------------------ *)
(** ** The client: the session provider and the routes *)

Module Client.

(** [interface User] of [useAuth.tsx]. *)
Record User := {
  id : js_string;
  email : js_string;
  name : js_string;
  accountType : AccountType;
  tenantId : js_string;
  tenantName : js_string
}.

(** What lies outside the provider, as the provider meets it: the
    [localStorage] of the browser and the [apiService] module. Nothing is
    assumed of them: each call may throw or reject, and may change the
    state [O] outside the provider. [apiService_getProfile] answers the
    [user] of its response, [None] for [null] or [undefined]. *)
Class Outside (O : Type) := {
  localStorage_getItem : string -> O -> Result (option js_string) * O;
  apiService_setToken : js_string -> O -> Result unit * O;
  apiService_clearToken : O -> Result unit * O;
  apiService_getProfile : O -> Result (option User) * O;
  apiService_logout : O -> Result unit * O
}.

(** The two pieces of state of [AuthProvider], the state outside it and
    the errors printed on the console. *)
Record Session (O : Type) := {
  user : option User;
  isLoading : bool;
  outside : O;
  errors : list (string * Exn)
}.

Arguments user {O} _.
Arguments isLoading {O} _.
Arguments outside {O} _.
Arguments errors {O} _.

(** [useState<User | null>(null)] and [useState(true)] *)
Definition mounted {O} (o : O) : Session O :=
  {| user := None; isLoading := true; outside := o; errors := [] |}.

Section Provider.

Context {O : Type} {browser : Outside O}.

Definition setUser (u : option User) (s : Session O)
  : Result unit * Session O :=
  (Ok tt,
   {| user := u; isLoading := isLoading s; outside := outside s;
      errors := errors s |}).

Definition setIsLoading (b : bool) (s : Session O)
  : Result unit * Session O :=
  (Ok tt,
   {| user := user s; isLoading := b; outside := outside s;
      errors := errors s |}).

Definition console_error (text : string) (error : Exn) (s : Session O)
  : Result unit * Session O :=
  (Ok tt,
   {| user := user s; isLoading := isLoading s; outside := outside s;
      errors := errors s ++ [(text, error)] |}).

(** A call to the browser or to [apiService]. *)
Definition call {A} (op : O -> Result A * O) (s : Session O)
  : Result A * Session O :=
  let (r, o) := op (outside s) in
  (r,
   {| user := user s; isLoading := isLoading s; outside := o;
      errors := errors s |}).

(** [checkAuthStatus]: [!token] holds of [null] and of the empty
    string. *)
Definition checkAuthStatus : Session O -> Result unit * Session O :=
  try_catch_finally
    (and_then (call (localStorage_getItem "access_token")) (fun token =>
     match token with
     | None | Some [] => setIsLoading false
     | Some token =>
         and_then (call (apiService_setToken token)) (fun _ =>
         and_then (call apiService_getProfile) (fun response_user =>
         setUser response_user))
     end))
    (fun error =>
       and_then (console_error "Auth check failed:" error) (fun _ =>
       call apiService_clearToken))
    (setIsLoading false).

(** [logout] *)
Definition logout : Session O -> Result unit * Session O :=
  try_catch_finally
    (call apiService_logout)
    (fun error => console_error "Logout error:" error)
    (and_then (call apiService_clearToken) (fun _ => setUser None)).

(** [isAuthenticated: !!user] *)
Definition isAuthenticated (s : Session O) : bool :=
  match user s with
  | Some _ => true
  | None => false
  end.

End Provider.

(** The pages that [App.tsx] shows inside [DashboardLayout]. *)
Inductive Page :=
| Dashboard | CRM | Projects | Tasks | CashFlow | Billing | Receivables
| Publications | PublicationDetail | Settings | Notifications.

(** The [Route] of [AppRoutes] that the router picks for the location:
    [/login], [/], the route of a page, or [*]. *)
Inductive Route :=
| login_route
| root_route
| page_route (p : Page)
| any_route.

Inductive Element :=
| Spinner
| Login
| Navigate (to : string)
| InDashboardLayout (p : Page)
| NotFound.

Section Routes.

Context {O : Type}.

(** [ProtectedRoute] *)
Definition ProtectedRoute (s : Session O) (children : Element) : Element :=
  if isLoading s then Spinner
  else if negb (isAuthenticated s) then Navigate "/login"
  else children.

(** [AppRoutes] *)
Definition AppRoutes (s : Session O) (matched : Route) : Element :=
  if isLoading s then Spinner
  else
    match matched with
    | login_route =>
        if negb (isAuthenticated s) then Login else Navigate "/dashboard"
    | root_route =>
        Navigate (if isAuthenticated s then "/dashboard" else "/login")
    | page_route p => ProtectedRoute s (InDashboardLayout p)
    | any_route => NotFound
    end.

End Routes.

(** A browser that is offline: the stored token is all there is outside,
    and every request is rejected. *)
Definition offline : Outside (option js_string) :=
  {| localStorage_getItem := fun _ o => (Ok o, o);
     apiService_setToken := fun _ o => (Ok tt, o);
     apiService_clearToken := fun o => (Ok tt, o);
     apiService_getProfile := fun o => (Throw (Error "Network Error"), o);
     apiService_logout := fun o => (Throw (Error "Network Error"), o) |}.

Definition maria : User :=
  {| id := js "u-7"; email := js "maria@example.com"; name := js "Maria";
     accountType := COMPOSTA; tenantId := js "t-1";
     tenantName := js "Silva Advogados" |}.

Definition signed_in : Session (option js_string) :=
  {| user := Some maria; isLoading := false;
     outside := Some (js "eyJhbGciOi"); errors := [] |}.

End Client.

(* ================================================================== *)
(** * Facts about strings and tiers *)
(* ================================================================== *)

Lemma js_eqb_refl (s : js_string) : js_eqb s s = true.
Proof.
  induction s as [|c s IH]; simpl; [reflexivity|].
  now rewrite N.eqb_refl, IH.
Qed.

Lemma js_eqb_eq (a b : js_string) : js_eqb a b = true <-> a = b.
Proof.
  split.
  - revert b. induction a as [|x a IH]; intros [|y b] H; simpl in H;
      try discriminate; [reflexivity|].
    apply andb_true_iff in H. destruct H as [Hxy Hab].
    apply N.eqb_eq in Hxy. apply IH in Hab. now subst.
  - intros ->. apply js_eqb_refl.
Qed.

Lemma js_eqb_neq (a b : js_string) : js_eqb a b = false <-> a <> b.
Proof.
  split.
  - intros H E. apply js_eqb_eq in E. congruence.
  - intros H. destruct (js_eqb a b) eqn:E; [|reflexivity].
    apply js_eqb_eq in E. contradiction.
Qed.

Lemma trimStart_nil_iff (s : js_string) :
  trimStart s = [] <-> forallb is_white_space s = true.
Proof.
  induction s as [|c s IH]; simpl; [tauto|].
  destruct (is_white_space c); simpl; [exact IH|].
  split; discriminate.
Qed.

(** [s.trim() === ''] exactly when [s] consists of white space only. *)
Lemma trim_nil_iff (s : js_string) :
  trim s = [] <-> forallb is_white_space s = true.
Proof.
  unfold trim, trimEnd. split.
  - intros H. apply trimStart_nil_iff.
    destruct (trimStart s) as [|c r] eqn:E; [reflexivity|].
    exfalso.
    assert (Hr : trimStart (rev (c :: r)) = []).
    { rewrite <- (rev_involutive (trimStart (rev (c :: r)))), H.
      reflexivity. }
    apply trimStart_nil_iff in Hr. rewrite forallb_forall in Hr.
    assert (Hc : is_white_space c = true).
    { apply Hr. apply -> in_rev. now left. }
    destruct s as [|x s]; simpl in E; [discriminate|].
    clear - E Hc. revert x E. induction s as [|y s IH]; intros x E.
    + simpl in E. destruct (is_white_space x) eqn:Hx; [discriminate|].
      injection E as -> _. congruence.
    + simpl in E. destruct (is_white_space x) eqn:Hx.
      * apply (IH y). exact E.
      * injection E as -> _. congruence.
  - intros H. apply trimStart_nil_iff in H. rewrite H. reflexivity.
Qed.

Lemma tenantId_is_empty_iff (t : option js_string) :
  tenantId_is_empty t = true <->
  t = None \/ exists s, t = Some s /\ forallb is_white_space s = true.
Proof.
  destruct t as [s|]; simpl.
  - rewrite orb_true_iff. split.
    + intros [H|H]; right; exists s; split; try reflexivity.
      * destruct s; [reflexivity|discriminate].
      * apply trim_nil_iff. now apply js_eqb_eq.
    + intros [H|[s' [E H]]]; [discriminate|]. injection E as <-.
      right. apply js_eqb_eq. now apply trim_nil_iff.
  - split; [now left|reflexivity].
Qed.

Lemma AccountType_eqb_eq (a b : AccountType) :
  AccountType_eqb a b = true <-> a = b.
Proof. destruct a, b; simpl; split; congruence. Qed.

Lemma includes_In (types : list AccountType) (t : AccountType) :
  includes types t = true <-> In t types.
Proof.
  unfold includes. rewrite existsb_exists. split.
  - intros [x [Hx E]]. apply AccountType_eqb_eq in E. now subst.
  - intros H. exists t. split; [exact H|]. now apply AccountType_eqb_eq.
Qed.

(* ================================================================== *)
(** * The guards *)
(* ================================================================== *)

(** C7. [requireAccountTypes allowed] calls [next()] exactly for a request
    that carries an identity whose account tier is in [allowed]; an
    identity of a tier outside [allowed] is answered 403 with the required
    list and the caller's tier; a request without identity is answered 401.
    In particular [requireAccountTypes [GERENCIAL]] answers a COMPOSTA
    caller with [required: [GERENCIAL], current: COMPOSTA]. *)
Theorem requireAccountTypes_decides
  (allowed : list AccountType) (req : AuthenticatedRequest) :
  (requireAccountTypes allowed req = Next <->
   exists user t,
     req_user req = Some user /\ au_accountType user = Some t /\ In t allowed)
  /\ (forall user t,
        req_user req = Some user -> au_accountType user = Some t ->
        ~ In t allowed ->
        requireAccountTypes allowed req =
        Respond 403
          (RequiredBody "Acesso negado para este tipo de conta" allowed t))
  /\ (req_user req = None ->
      requireAccountTypes allowed req =
      Respond 401
        (ErrorBody "Usuário não autenticado ou tipo de conta não identificado"))
  /\ requireAccountTypes [GERENCIAL] composta_caller =
     Respond 403
       (RequiredBody "Acesso negado para este tipo de conta"
          [GERENCIAL] COMPOSTA).
Proof.
  unfold requireAccountTypes. repeat split.
  - destruct (req_user req) as [user|]; [|discriminate].
    destruct (au_accountType user) as [t|] eqn:Et; [|discriminate].
    destruct (includes allowed t) eqn:Ei; simpl; [|discriminate].
    intros _. exists user, t. repeat split; trivial. now apply includes_In.
  - intros [user [t [-> [-> Hin]]]].
    apply includes_In in Hin. now rewrite Hin.
  - intros user t -> -> Hout.
    destruct (includes allowed t) eqn:Ei; simpl; [|reflexivity].
    apply includes_In in Ei. contradiction.
  - intros ->. reflexivity.
Qed.

(** [requireAccountTypes_decides] on a sample input. *)
Lemma requireAccountTypes_decides_witness :
  requireAccountTypes [GERENCIAL] composta_caller =
  Respond 403
    (RequiredBody "Acesso negado para este tipo de conta" [GERENCIAL] COMPOSTA).
Proof.
  apply (proj1 (proj2 (requireAccountTypes_decides [GERENCIAL]
                         composta_caller))
           {| au_userId := js "u1"; au_tenantId := Some (js "tenant-a");
              au_accountType := Some COMPOSTA |} COMPOSTA).
  - reflexivity.
  - reflexivity.
  - simpl. intros [H|[]]. discriminate.
Defined.

(** C8. For a caller of tier [t], [canViewCashFlow] of
    [getDashboardPermissions t] is true exactly when [requireCashFlowAccess]
    lets the caller through, which is exactly when [t] is at least
    COMPOSTA; [canViewSettings] is true exactly when
    [requireSettingsAccess] lets the caller through, which is exactly when
    [t] is GERENCIAL. *)
Theorem dashboard_permissions_match_guards
  (t : AccountType) (req : AuthenticatedRequest) :
  caller_of_tier t req ->
  (canViewCashFlow (getDashboardPermissions t) = true <->
   requireCashFlowAccess req = Next)
  /\ (requireCashFlowAccess req = Next <-> spec_cash_flow_policy t)
  /\ (canViewSettings (getDashboardPermissions t) = true <->
      requireSettingsAccess req = Next)
  /\ (requireSettingsAccess req = Next <-> spec_settings_policy t).
Proof.
  intros [user [Hu Ht]].
  unfold requireCashFlowAccess, requireSettingsAccess, requireAccountTypes,
    spec_cash_flow_policy, spec_settings_policy.
  rewrite Hu, Ht.
  destruct t; simpl; repeat split; intros; try congruence; try lia.
Qed.

(** [dashboard_permissions_match_guards] on a sample input. *)
Lemma dashboard_permissions_match_guards_witness :
  caller_of_tier COMPOSTA composta_caller
  /\ (canViewCashFlow (getDashboardPermissions COMPOSTA) = true <->
      requireCashFlowAccess composta_caller = Next).
Proof.
  assert (H : caller_of_tier COMPOSTA composta_caller).
  { eexists. split; reflexivity. }
  split; [exact H|].
  exact (proj1 (dashboard_permissions_match_guards H)).
Defined.

(** C10. For a request whose identity has a non-empty [tenantId],
    [validateTenantAccess] calls [next()] whenever the path has no
    [tenantId] parameter; the comparison is made only for a path that
    supplies one, and then [next()] is called exactly when it equals the
    caller's tenant. *)
Theorem validateTenantAccess_without_path_tenant
  (req : AuthenticatedRequest) (user : AuthUser) (tenant : js_string) :
  req_user req = Some user ->
  au_tenantId user = Some tenant ->
  tenant <> [] ->
  (param "tenantId" (req_params req) = None ->
   validateTenantAccess req = Next)
  /\ (forall pathTenantId,
        param "tenantId" (req_params req) = Some pathTenantId ->
        pathTenantId <> [] ->
        (validateTenantAccess req = Next <-> pathTenantId = tenant)).
Proof.
  intros Hu Ht Hne. unfold validateTenantAccess. rewrite Hu, Ht.
  destruct tenant as [|c tenant]; [contradiction|]. simpl.
  split.
  - intros ->. reflexivity.
  - intros p -> Hp. destruct p as [|x p]; [contradiction|].
    cbn [truthy_string andb].
    destruct (js_eqb (x :: p) (c :: tenant)) eqn:E; cbn [negb].
    + apply js_eqb_eq in E. tauto.
    + apply js_eqb_neq in E. split; [discriminate|contradiction].
Qed.

(** [validateTenantAccess_without_path_tenant] on a sample input. *)
Lemma validateTenantAccess_without_path_tenant_witness :
  validateTenantAccess composta_caller = Next.
Proof.
  apply (proj1 (@validateTenantAccess_without_path_tenant composta_caller
                  {| au_userId := js "u1"; au_tenantId := Some (js "tenant-a");
                     au_accountType := Some COMPOSTA |}
                  (js "tenant-a") eq_refl eq_refl
                  ltac:(discriminate))).
  reflexivity.
Defined.

(* ================================================================== *)
(** * Facts about the monad and the storage layer *)
(* ================================================================== *)

Lemma storage_answers {A} (op : Database -> A * Database) (w : World) :
  answers w ->
  storage op w =
  (Ok (fst (op (database w))),
   with_database (snd (op (database w)))
     (with_outcomes (tl (outcomes w)) w)).
Proof.
  unfold answers, storage. intros H.
  destruct (outcomes w) as [|[e|] rest] eqn:Ho; [|contradiction|];
    destruct (op (database w)) as [a d]; simpl; [|reflexivity].
  unfold with_database, with_outcomes. simpl. now rewrite Ho.
Qed.


Lemma messages_distinct :
  NoDup [msg_revoked; msg_expired; msg_exhausted; msg_tenant_mismatch;
         msg_not_found].
Proof.
  repeat constructor; simpl; intuition discriminate.
Qed.

(* ================================================================== *)
(** * RegistrationKeyService: the checks of [validateAndConsumeKey] *)
(* ================================================================== *)

Section KeyFacts.

Context {P : Platform}.

Lemma validateAndConsumeKey_failure
  (w : World) (plainKey tenantId : js_string) (m : string) :
  answers w ->
  first_failure (clock w) tenantId
    (matching plainKey (tbl_registrationKeys (database w))) = Some m ->
  fst (validateAndConsumeKey plainKey tenantId w) = Throw (Error m)
  /\ database (snd (validateAndConsumeKey plainKey tenantId w)) = database w
  /\ outcomes (snd (validateAndConsumeKey plainKey tenantId w)) =
     tl (outcomes w)
  /\ clock (snd (validateAndConsumeKey plainKey tenantId w)) = clock w.
Proof.
  intros Ha Hf. unfold validateAndConsumeKey. step_monad.
  rewrite storage_answers by exact Ha.
  unfold db_getAllRegistrationKeys. step_monad.
  unfold first_failure in Hf.
  destruct (matching plainKey (tbl_registrationKeys (database w)))
    as [k|]; step_monad.
  - destruct (rk_revoked k); step_monad.
    { injection Hf as <-. repeat split. }
    destruct (expired (clock w) k); step_monad.
    { injection Hf as <-. repeat split. }
    destruct (rk_uses_left k <=? 0); step_monad.
    { injection Hf as <-. repeat split. }
    destruct (tenant_differs (rk_tenant_id k) tenantId); step_monad.
    { injection Hf as <-. repeat split. }
    discriminate.
  - injection Hf as <-. repeat split.
Qed.

Lemma validateAndConsumeKey_success
  (w : World) (plainKey tenantId : js_string) (k : RegistrationKey) :
  outcomes w = [] ->
  matching plainKey (tbl_registrationKeys (database w)) = Some k ->
  first_failure (clock w) tenantId (Some k) = None ->
  let r := validateAndConsumeKey plainKey tenantId w in
  fst r = Ok (rk_account_type k, rk_tenant_id k)
  /\ outcomes (snd r) = []
  /\ clock (snd r) = clock w
  /\ database (snd r) =
     snd (db_updateRegistrationKey (rk_id k) (rk_uses_left k - 1)
            (appended (rk_used_logs k) (KeyUse (clock w) tenantId "system"))
            (database w)).
Proof.
  intros Ho Hm Hf. unfold validateAndConsumeKey. step_monad.
  assert (Ha : answers w) by (unfold answers; now rewrite Ho).
  rewrite storage_answers by exact Ha.
  unfold db_getAllRegistrationKeys. step_monad.
  rewrite Hm. unfold first_failure in Hf.
  destruct (rk_revoked k); [discriminate|]. step_monad.
  destruct (expired (clock w) k); [discriminate|].
  destruct (rk_uses_left k <=? 0); [discriminate|].
  destruct (tenant_differs (rk_tenant_id k) tenantId); [discriminate|].
  step_monad. unfold storage. cbn [with_database with_outcomes outcomes].
  rewrite Ho. cbn. repeat split.
Qed.

End KeyFacts.

Section KeyTheorems.

Context {P : Platform}.

Lemma tenant_differs_iff (stored : option js_string) (t : js_string) :
  tenant_differs stored t = true <-> stored <> Some t.
Proof.
  destruct stored as [s|]; simpl.
  - rewrite negb_true_iff, js_eqb_neq. split; congruence.
  - split; [discriminate|reflexivity].
Qed.


(** C2. Once the keys were read, [validateAndConsumeKey] finds the first
    key whose hash matches and checks, in this order: not revoked, not
    expired, uses left, tenant equal to the requested one. No match and
    each failed check have their own message, the five are pairwise
    different, and a revoked key is refused whatever its counter and
    expiry. *)
Theorem validateAndConsumeKey_checks_in_order
  (w : World) (plainKey tenantId : js_string) :
  answers w ->
  let found := matching plainKey (tbl_registrationKeys (database w)) in
  let outcome := fst (validateAndConsumeKey plainKey tenantId w) in
  (found = None -> outcome = Throw (Error msg_not_found))
  /\ (forall k, found = Some k ->
        rk_revoked k = true -> outcome = Throw (Error msg_revoked))
  /\ (forall k, found = Some k ->
        rk_revoked k = false -> expired (clock w) k = true ->
        outcome = Throw (Error msg_expired))
  /\ (forall k, found = Some k ->
        rk_revoked k = false -> expired (clock w) k = false ->
        rk_uses_left k <= 0 -> outcome = Throw (Error msg_exhausted))
  /\ (forall k, found = Some k ->
        rk_revoked k = false -> expired (clock w) k = false ->
        0 < rk_uses_left k -> rk_tenant_id k <> Some tenantId ->
        outcome = Throw (Error msg_tenant_mismatch))
  /\ NoDup [msg_revoked; msg_expired; msg_exhausted; msg_tenant_mismatch;
            msg_not_found].
Proof.
  intros Ha found outcome. subst found outcome.
  repeat split; try exact messages_distinct.
  - intros Hf. apply validateAndConsumeKey_failure; trivial.
    now rewrite Hf.
  - intros k Hf Hr. apply validateAndConsumeKey_failure; trivial.
    rewrite Hf. simpl. now rewrite Hr.
  - intros k Hf Hr He. apply validateAndConsumeKey_failure; trivial.
    rewrite Hf. simpl. now rewrite Hr, He.
  - intros k Hf Hr He Hu. apply validateAndConsumeKey_failure; trivial.
    rewrite Hf. simpl. rewrite Hr, He.
    now rewrite (proj2 (Z.leb_le _ _) Hu).
  - intros k Hf Hr He Hu Ht. apply validateAndConsumeKey_failure; trivial.
    rewrite Hf. simpl. rewrite Hr, He.
    rewrite (proj2 (Z.leb_gt _ _) Hu).
    now rewrite (proj2 (tenant_differs_iff _ _) Ht).
Qed.


(** C3, as amended. [generateKey] with a missing or all-white-space
    [tenantId] fails with the validation message behind the prefix of its
    [catch] and persists nothing. Otherwise, when the store takes the
    record, it adds exactly one key record, whose [usesLeft] is
    [usesAllowed] when that is given and not zero and 1 otherwise, whose
    [revoked] is false and whose usage log is empty, and it returns the
    plaintext whose hash the record holds. *)
Theorem generateKey_persists_one_key
  (w : World) (request : CreateKeyRequest) (createdBy : js_string) :
  let r := generateKey request createdBy w in
  ((ckr_tenantId request = None
    \/ exists s, ckr_tenantId request = Some s
                 /\ forallb is_white_space s = true) ->
   fst r = Throw (Error ("Failed to generate registration key: "
                         ++ msg_tenant_required))
   /\ database (snd r) = database w)
  /\ ((exists s c, ckr_tenantId request = Some s /\ In c s
                   /\ is_white_space c = false) ->
      answers w ->
      exists key row,
        fst r = Ok key
        /\ tbl_registrationKeys (database (snd r)) =
           tbl_registrationKeys (database w) ++ [row]
        /\ tbl_users (database (snd r)) = tbl_users (database w)
        /\ tbl_tenants (database (snd r)) = tbl_tenants (database w)
        /\ tbl_refreshTokens (database (snd r)) =
           tbl_refreshTokens (database w)
        /\ rk_key_hash row = bcrypt_hash (N.succ (entropy w)) key 12
        /\ rk_tenant_id row = ckr_tenantId request
        /\ (forall n, ckr_usesAllowed request = Some n -> n <> 0 ->
            rk_uses_left row = n)
        /\ (ckr_usesAllowed request = None
            \/ ckr_usesAllowed request = Some 0 -> rk_uses_left row = 1)
        /\ rk_revoked row = false
        /\ rk_used_logs row = Some []).
Proof.
  intros r. subst r. split.
  - intros He. apply tenantId_is_empty_iff in He.
    unfold generateKey. step_monad. rewrite He. step_monad.
    split; reflexivity.
  - intros [s [c [Hs [Hin Hc]]]] Ha.
    assert (He : tenantId_is_empty (ckr_tenantId request) = false).
    { destruct (tenantId_is_empty (ckr_tenantId request)) eqn:E;
        [|reflexivity].
      apply tenantId_is_empty_iff in E.
      destruct E as [E|[s' [E Hall]]]; [congruence|].
      rewrite Hs in E. injection E as <-.
      rewrite forallb_forall in Hall. apply Hall in Hin. congruence. }
    unfold generateKey. step_monad. rewrite He. step_monad.
    rewrite storage_answers by exact Ha. step_monad.
    unfold db_createRegistrationKey. step_monad.
    do 2 eexists. split; [reflexivity|].
    cbn [tbl_registrationKeys tbl_users tbl_tenants tbl_refreshTokens].
    split; [reflexivity|]. cbn [key_row rk_key_hash rk_tenant_id rk_uses_left
      rk_revoked rk_used_logs kd_keyHash kd_tenantId kd_usesLeft kd_revoked
      kd_usedLogs].
    repeat split.
    + intros n -> Hn. destruct n; simpl; congruence.
    + intros [->| ->]; reflexivity.
Qed.

End KeyTheorems.

(* ================================================================== *)
(** * RegistrationKeyService: consumption, in sequence and interleaved *)
(* ================================================================== *)

Section Consumption.

Context {P : Platform}.

(** A request that runs alone through its two steps is one call of
    [validateAndConsumeKey]. *)
Lemma advance_alone (w : World) (plainKey tenantId : js_string) :
  (let (c, w') := advance (Arrived plainKey tenantId) w in advance c w') =
  (Settled (fst (validateAndConsumeKey plainKey tenantId w)),
   snd (validateAndConsumeKey plainKey tenantId w)).
Proof.
  unfold advance, readKey, writeKey, logged_rethrow, validateAndConsumeKey.
  step_monad.
  match goal with
  | |- context [storage db_getAllRegistrationKeys ?w0] =>
      destruct (storage db_getAllRegistrationKeys w0) as [[keys|e] w1]
  end; step_monad; [|reflexivity].
  destruct (matching plainKey keys) as [k|]; step_monad; [|reflexivity].
  destruct (rk_revoked k); step_monad; [reflexivity|].
  destruct (expired (clock w1) k); step_monad; [reflexivity|].
  destruct (rk_uses_left k <=? 0); step_monad; [reflexivity|].
  destruct (tenant_differs (rk_tenant_id k) tenantId); step_monad;
    [reflexivity|].
  match goal with
  | |- context [storage ?op ?w0] =>
      destruct (storage op w0) as [[u|e] w2]
  end; step_monad; reflexivity.
Qed.

Lemma matching_after_update
  (plainKey : js_string) (keys : list RegistrationKey) (k : RegistrationKey)
  (uses_left : Z) (logs : list UsedLog) :
  matching plainKey keys = Some k ->
  matching plainKey
    (map (fun x => if js_eqb (rk_id x) (rk_id k)
                   then set_key_usage uses_left logs x else x) keys) =
  Some (set_key_usage uses_left logs k).
Proof.
  unfold matching. induction keys as [|x keys IH]; simpl; [discriminate|].
  destruct (bcrypt_compare plainKey (rk_key_hash x)) eqn:Ex.
  - intros E. injection E as ->. rewrite js_eqb_refl. simpl. now rewrite Ex.
  - intros E. destruct (js_eqb (rk_id x) (rk_id k)); simpl; rewrite Ex;
      now apply IH.
Qed.








End Consumption.

(* ================================================================== *)
(** * AuthService: tokens and sign-in *)
(* ================================================================== *)

Lemma with_database_same (w : World) : with_database (database w) w = w.
Proof. now destruct w. Qed.

Lemma fst_bind_throw {A B} (c : M A) (k : A -> M B) (w : World) (e : Exn) :
  fst (c w) = Throw e -> fst (bind c k w) = Throw e.
Proof.
  unfold bind. destruct (c w) as [[a|e'] w']; simpl; congruence.
Qed.

Lemma existsb_filter_false {A} (f g : A -> bool) (l : list A) :
  (forall x, In x l -> f x = true -> g x = false) ->
  existsb f (filter g l) = false.
Proof.
  intros H. induction l as [|x l IH]; simpl; [reflexivity|].
  destruct (g x) eqn:Eg; simpl.
  - destruct (f x) eqn:Ef.
    + rewrite (H x (or_introl eq_refl) Ef) in Eg. discriminate.
    + apply IH. intros y Hy. apply H. now right.
  - apply IH. intros y Hy. apply H. now right.
Qed.

Lemma existsb_find_some {A} (f : A -> bool) (l : list A) :
  existsb f l = true -> exists x, find f l = Some x.
Proof.
  induction l as [|x l IH]; simpl; [discriminate|].
  destruct (f x); [eauto|exact IH].
Qed.

Section AuthFacts.

Context {P : Platform}.

Lemma verifyRefreshToken_available (w : World) (token : js_string) :
  outcomes w = [] ->
  verifyRefreshToken token w =
  (match jwt_verify token refreshTokenSecret verify_options (clock w) with
   | None => Throw (Error msg_invalid_refresh)
   | Some decoded =>
       if vouched token (p_userId decoded) (database w) then Ok decoded
       else Throw (Error msg_invalid_refresh)
   end, w).
Proof.
  intros Ho. unfold verifyRefreshToken, vouched. step_monad.
  destruct (jwt_verify token refreshTokenSecret verify_options (clock w))
    as [d|]; step_monad; [|reflexivity].
  unfold storage. rewrite Ho.
  unfold db_getActiveRefreshTokensForUser. step_monad.
  rewrite with_database_same.
  match goal with |- context [existsb ?f ?l] => destruct (existsb f l) end;
    reflexivity.
Qed.

Lemma refreshTokens_available
  (w w' : World) (token : js_string) (user : User) (tokens : Tokens) :
  outcomes w = [] ->
  refreshTokens token w = (Ok (user, tokens), w') ->
  exists storedToken,
    In storedToken (tbl_refreshTokens (database w))
    /\ rt_isActive storedToken = true
    /\ bcrypt_compare token (rt_tokenHash storedToken) = true
    /\ tbl_refreshTokens (database w') =
       rotated w storedToken (refreshToken tokens) (user_id user)
    /\ outcomes w' = [].
Proof.
  intros Ho H. unfold refreshTokens in H. unfold bind at 1 in H.
  rewrite verifyRefreshToken_available in H by exact Ho.
  destruct (jwt_verify token refreshTokenSecret verify_options (clock w))
    as [d|]; [|discriminate].
  destruct (vouched token (p_userId d) (database w)) eqn:Ev; [|discriminate].
  unfold vouched in Ev. apply existsb_find_some in Ev.
  destruct Ev as [st Hst].
  destruct w as [db o c en con]. simpl in Ho. subst o.
  revert H. run_world. unfold db_findUserByEmail. run_world.
  destruct (find (fun u => js_eqb (user_email u) (p_email d)) (tbl_users db))
    as [u|]; run_world; [|discriminate].
  destruct (user_isActive u); run_world; [|discriminate].
  unfold db_getActiveRefreshTokensForUser in *. run_world.
  simpl in Hst. rewrite Hst. run_world.
  unfold generateTokens, db_revokeRefreshTokenById, db_createRefreshToken.
  run_world.
  intros H. injection H as <- <- <-.
  exists st. apply find_some in Hst. destruct Hst as [Hin Hc].
  apply filter_In in Hin. destruct Hin as [Hin Hact].
  apply andb_true_iff in Hact. destruct Hact as [Hact _].
  repeat split; trivial.
Qed.

End AuthFacts.

Section AuthTheorems.

Context {P : Platform}.

(** Where [bcrypt.compare] accepts the presented token against the hash
    of the token issued in its place, as it does for two tokens that
    agree on the 72 bytes it reads, the presented token still verifies
    after [refreshTokens] succeeded with it. *)
Lemma refreshTokens_leaves_the_token_vouched
  (w w' : World) (token : js_string) (user : User) (tokens : Tokens) :
  outcomes w = [] ->
  (forall salt,
     bcrypt_compare token (bcrypt_hash salt (refreshToken tokens) 10) = true) ->
  refreshTokens token w = (Ok (user, tokens), w') ->
  forall now decoded,
    jwt_verify token refreshTokenSecret verify_options now = Some decoded ->
    p_userId decoded = user_id user ->
    fst (verifyRefreshToken token (with_clock now w')) = Ok decoded.
Proof.
  intros Ho Hsame Hrun now d Hj Hd.
  destruct (@refreshTokens_available _ w w' token user tokens Ho Hrun)
    as [st [Hin [Hact [Hc [Htbl Ho']]]]].
  rewrite verifyRefreshToken_available by exact Ho'.
  cbn [fst clock with_clock database]. rewrite Hj.
  unfold vouched, db_getActiveRefreshTokensForUser. cbn [fst].
  rewrite Htbl. unfold rotated. rewrite filter_app, existsb_app.
  cbn [filter token_row rt_isActive rt_userId rtd_isActive rtd_userId andb].
  rewrite Hd, js_eqb_refl.
  cbn [existsb token_row rt_tokenHash rtd_tokenHash]. rewrite Hsame.
  now rewrite orb_true_r.
Qed.

(** C5. [loginUser] for an email that no stored user has and [loginUser]
    with a wrong password for the email of an active stored user both
    fail, and with the same error value, [Error "Invalid credentials"]. *)
Theorem loginUser_errors_identical
  (w1 w2 : World) (email1 password1 email2 wrongPassword : js_string)
  (user : User) :
  answers w1 -> answers w2 ->
  (forall u, In u (tbl_users (database w1)) -> user_email u <> email1) ->
  fst (db_findUserByEmail email2 (database w2)) = Some user ->
  user_isActive user = true ->
  bcrypt_compare wrongPassword (user_password user) = false ->
  fst (loginUser email1 password1 w1) = Throw (Error msg_invalid_credentials)
  /\ fst (loginUser email2 wrongPassword w2) =
     Throw (Error msg_invalid_credentials)
  /\ fst (loginUser email1 password1 w1) =
     fst (loginUser email2 wrongPassword w2).
Proof.
  intros Ha1 Ha2 Habsent Hfound Hactive Hwrong.
  assert (H1 : fst (loginUser email1 password1 w1) =
               Throw (Error msg_invalid_credentials)).
  { unfold loginUser. step_monad. rewrite storage_answers by exact Ha1.
    unfold db_findUserByEmail. step_monad.
    destruct (find (fun u => js_eqb (user_email u) email1)
                   (tbl_users (database w1))) as [u|] eqn:E;
      [|reflexivity].
    apply find_some in E. destruct E as [Hin E].
    apply js_eqb_eq in E. now apply Habsent in Hin. }
  assert (H2 : fst (loginUser email2 wrongPassword w2) =
               Throw (Error msg_invalid_credentials)).
  { unfold loginUser. step_monad. rewrite storage_answers by exact Ha2.
    step_monad. rewrite Hfound. rewrite Hactive.
    unfold verifyPassword. step_monad. rewrite Hwrong. reflexivity. }
  rewrite H1, H2. repeat split.
Qed.

(** C9. [generateTokens] returns the signed pair whatever the store does
    with the refresh-token record, and [revokeAllTokens] returns normally
    whatever the store does; a storage failure in either leaves the tables
    as they were and is written to the console. The admin branch of
    [revokeAllTokens] makes no storage call at all. *)
Theorem bookkeeping_failures_are_swallowed
  (w : World) (user : Identity) (userId : js_string) (isAdmin : bool) :
  fst (generateTokens user w) =
  Ok {| accessToken :=
          jwt_sign (token_payload user) accessTokenSecret access_options
            (clock w);
        refreshToken :=
          jwt_sign (token_payload user) refreshTokenSecret refresh_options
            (clock w) |}
  /\ (forall e rest,
        outcomes w = Some e :: rest ->
        database (snd (generateTokens user w)) = database w
        /\ console (snd (generateTokens user w)) =
           console w ++ [LogError "Error storing refresh token:" (Some e)])
  /\ fst (revokeAllTokens userId isAdmin w) = Ok tt
  /\ (forall e rest,
        outcomes w = Some e :: rest -> isAdmin = false ->
        database (snd (revokeAllTokens userId isAdmin w)) = database w
        /\ console (snd (revokeAllTokens userId isAdmin w)) =
           console w ++ [LogError "Error revoking tokens:" (Some e)])
  /\ (isAdmin = true ->
      database (snd (revokeAllTokens userId isAdmin w)) = database w
      /\ outcomes (snd (revokeAllTokens userId isAdmin w)) = outcomes w).
Proof.
  split; [|split; [|split; [|split]]].
  - unfold generateTokens. step_monad. unfold storage. step_monad.
    destruct (outcomes w) as [|[e|] rest]; reflexivity.
  - intros e rest Ho. unfold generateTokens. step_monad.
    unfold storage. step_monad. rewrite Ho. split; reflexivity.
  - unfold revokeAllTokens. step_monad. destruct isAdmin; step_monad;
      [reflexivity|].
    unfold storage. destruct (outcomes w) as [|[e|] rest]; reflexivity.
  - intros e rest Ho ->. unfold revokeAllTokens. step_monad.
    unfold storage. rewrite Ho. split; reflexivity.
  - intros ->. split; reflexivity.
Qed.

End AuthTheorems.

(* ================================================================== *)
(** * The services on the sample worlds *)
(* ================================================================== *)



(** [validateAndConsumeKey_checks_in_order] on a sample input. *)
Lemma validateAndConsumeKey_checks_in_order_witness :
  rk_uses_left (sample_key 1 None true) = 1
  /\ expired 1000 (sample_key 1 None true) = false
  /\ fst (validateAndConsumeKey (P := test_platform) (js "key-1")
            (js "tenant-a") (key_world (sample_key 1 None true))) =
     Throw (Error msg_revoked).
Proof.
  split; [reflexivity|]. split; [reflexivity|].
  apply (proj1 (proj2
    (@validateAndConsumeKey_checks_in_order test_platform
       (key_world (sample_key 1 None true)) (js "key-1") (js "tenant-a") I))
    (sample_key 1 None true)).
  - reflexivity.
  - reflexivity.
Defined.

(** C3, as stated, fails: a request with [usesAllowed = 0] stores a key
    with one use left, where [usesAllowed ?? 1] is 0. *)
Lemma zero_uses_allowed_is_stored_as_one :
  fst (generateKey (P := test_platform) (sample_request (Some 0))
         (js "admin") (world_of tenants_only [])) = Ok (js "key-7")
  /\ map rk_uses_left
       (tbl_registrationKeys
          (database
             (snd (generateKey (P := test_platform) (sample_request (Some 0))
                     (js "admin") (world_of tenants_only []))))) = [1]
  /\ nullish (ckr_usesAllowed (sample_request (Some 0))) 1 = 0.
Proof.
  repeat split.
Qed.

(** [generateKey_persists_one_key] on a sample input. *)
Lemma generateKey_persists_one_key_witness :
  exists key row,
    fst (generateKey (P := test_platform) (sample_request (Some 3))
           (js "admin") (world_of tenants_only [])) = Ok key
    /\ tbl_registrationKeys
         (database
            (snd (generateKey (P := test_platform) (sample_request (Some 3))
                    (js "admin") (world_of tenants_only [])))) = [row]
    /\ rk_uses_left row = 3.
Proof.
  destruct (proj2
    (@generateKey_persists_one_key test_platform (world_of tenants_only [])
       (sample_request (Some 3)) (js "admin")))
    as [key [row [H1 [H2 [_ [_ [_ [_ [_ [H3 _]]]]]]]]]].
  - exists (js "tenant-a"), 116%N. repeat split. simpl. tauto.
  - exact I.
  - exists key, row. split; [exact H1|]. split; [exact H2|].
    apply (H3 3); [reflexivity|discriminate].
Defined.



(** C4. The rotation that [refreshTokens] attempts misses, on the
    truncating double as with the libraries. Carla signs in and is handed
    a refresh token. [refreshTokens] with it succeeds, revokes its record
    and issues another token, whose record is the only active one. That
    token and the presented one agree on their first 72 bytes, which is
    all [bcrypt.compare] reads: the presented token verifies again, and a
    second [refreshTokens] with it succeeds as well. *)
Theorem rotated_refresh_token_is_accepted_again :
  issued
    (fst (refreshTokens (P := truncating_platform) (carla_token 1000)
            (with_clock 2000 carla_signed_in))) =
  Some (carla_token 2000)
  /\ carla_token 2000 <> carla_token 1000
  /\ firstn 72 (carla_token 2000) = firstn 72 (carla_token 1000)
  /\ map rt_isActive (tbl_refreshTokens (database carla_rotated)) =
     [false; true]
  /\ failure
       (fst (verifyRefreshToken (P := truncating_platform)
               (carla_token 1000) carla_rotated)) = None
  /\ issued
       (fst (refreshTokens (P := truncating_platform) (carla_token 1000)
               carla_rotated)) =
     Some (carla_token 3000)
  /\ map rt_isActive
       (tbl_refreshTokens
          (database
             (snd (refreshTokens (P := truncating_platform)
                     (carla_token 1000) carla_rotated)))) =
     [false; false; true].
Proof.
  split; [vm_compute; reflexivity|].
  split; [vm_compute; discriminate|].
  repeat split; vm_compute; reflexivity.
Qed.

(** [loginUser_errors_identical] on a sample input. *)
Lemma loginUser_errors_identical_witness :
  fst (loginUser (P := test_platform) (js "bob@x.com") (js "guess")
         (world_of users_only [])) =
  fst (loginUser (P := test_platform) (js "ana@x.com") (js "guess")
         (world_of users_only [])).
Proof.
  refine (proj2 (proj2
    (@loginUser_errors_identical test_platform (world_of users_only [])
       (world_of users_only []) (js "bob@x.com") (js "guess")
       (js "ana@x.com") (js "guess") ana I I _ _ _ _))).
  - intros u [<-|[]]. discriminate.
  - reflexivity.
  - reflexivity.
  - reflexivity.
Defined.

(** [bookkeeping_failures_are_swallowed] on a sample input. *)
Lemma bookkeeping_failures_are_swallowed_witness :
  failure
    (fst (generateTokens (P := test_platform) (identity_of_user ana)
            (world_of users_only [Some (Error "connection lost")]))) = None
  /\ console
       (snd (generateTokens (P := test_platform) (identity_of_user ana)
               (world_of users_only [Some (Error "connection lost")]))) =
     [LogError "Error storing refresh token:"
        (Some (Error "connection lost"))]
  /\ console
       (snd (revokeAllTokens (js "u1") false
               (world_of users_only [Some (Error "connection lost")]))) =
     [LogError "Error revoking tokens:" (Some (Error "connection lost"))].
Proof.
  pose proof (@bookkeeping_failures_are_swallowed test_platform
                (world_of users_only [Some (Error "connection lost")])
                (identity_of_user ana) (js "u1") false)
    as [H1 [H2 [_ [H4 _]]]].
  split; [now rewrite H1|]. split.
  - exact (proj2 (H2 (Error "connection lost") [] eq_refl)).
  - exact (proj2 (H4 (Error "connection lost") [] eq_refl eq_refl)).
Defined.

(* ================================================================== *)
(** * More on the guards *)
(* ================================================================== *)

(** X1. [forbidAccountTypes forbidden] calls [next()] exactly for a
    request whose identity has a tier outside [forbidden]; a tier in the
    list is answered 403 with the forbidden list and the caller's tier;
    a request without identity, or whose identity has no tier, is
    answered 401. *)
Theorem forbidAccountTypes_decides
  (forbidden : list AccountType) (req : AuthenticatedRequest) :
  (forbidAccountTypes forbidden req = Next <->
   exists user t,
     req_user req = Some user /\ au_accountType user = Some t
     /\ ~ In t forbidden)
  /\ (forall user t,
        req_user req = Some user -> au_accountType user = Some t ->
        In t forbidden ->
        forbidAccountTypes forbidden req =
        Respond 403
          (ForbiddenBody "Acesso negado para este tipo de conta"
             forbidden t))
  /\ ((req_user req = None
       \/ exists user, req_user req = Some user
                       /\ au_accountType user = None) ->
      forbidAccountTypes forbidden req =
      Respond 401
        (ErrorBody
           "Usuário não autenticado ou tipo de conta não identificado")).
Proof.
  unfold forbidAccountTypes. repeat split.
  - destruct (req_user req) as [user|]; [|discriminate].
    destruct (au_accountType user) as [t|] eqn:Et; [|discriminate].
    destruct (includes forbidden t) eqn:Ei; [discriminate|].
    intros _. exists user, t. repeat split; trivial.
    intros Hin. apply includes_In in Hin. congruence.
  - intros [user [t [-> [-> Hout]]]].
    destruct (includes forbidden t) eqn:Ei; [|reflexivity].
    apply includes_In in Ei. contradiction.
  - intros user t -> -> Hin. apply includes_In in Hin. now rewrite Hin.
  - intros [->|[user [-> ->]]]; reflexivity.
Qed.

(** [forbidAccountTypes_decides] on a sample input. *)
Lemma forbidAccountTypes_decides_witness :
  forbidAccountTypes [SIMPLES] composta_caller = Next.
Proof.
  apply (proj1 (forbidAccountTypes_decides [SIMPLES] composta_caller)).
  exists {| au_userId := js "u1"; au_tenantId := Some (js "tenant-a");
            au_accountType := Some COMPOSTA |}, COMPOSTA.
  repeat split. simpl. intros [H|[]]. discriminate.
Defined.

(** X2. On every request, allowing a list and forbidding the same list
    never both call [next()], and for a caller with a tier exactly one of
    them does. Forbidding SIMPLES lets through exactly the requests
    [requireCashFlowAccess] lets through, and forbidding SIMPLES and
    COMPOSTA exactly those [requireSettingsAccess] lets through. With an
    empty list [requireAccountTypes] lets nobody through. *)
Theorem forbid_is_the_complement_of_require
  (types : list AccountType) (req : AuthenticatedRequest) :
  ~ (requireAccountTypes types req = Next
     /\ forbidAccountTypes types req = Next)
  /\ ((exists user t, req_user req = Some user
                      /\ au_accountType user = Some t) ->
      requireAccountTypes types req = Next
      \/ forbidAccountTypes types req = Next)
  /\ (forbidAccountTypes [SIMPLES] req = Next <->
      requireCashFlowAccess req = Next)
  /\ (forbidAccountTypes [SIMPLES; COMPOSTA] req = Next <->
      requireSettingsAccess req = Next)
  /\ requireAccountTypes [] req <> Next.
Proof.
  unfold requireCashFlowAccess, requireSettingsAccess, requireAccountTypes,
    forbidAccountTypes.
  destruct (req_user req) as [user|].
  2: { repeat split; try discriminate; try tauto.
       - intros [H _]. discriminate.
       - intros [user [t [H _]]]. discriminate. }
  destruct (au_accountType user) as [t|] eqn:Et.
  2: { repeat split; try discriminate; try tauto.
       - intros [H _]. discriminate.
       - intros [u [t [Hu Ht]]]. injection Hu as <-. congruence. }
  repeat split.
  - destruct (includes types t); simpl; intros [H1 H2]; discriminate.
  - intros _. destruct (includes types t); simpl; tauto.
  - destruct t; simpl; congruence.
  - destruct t; simpl; congruence.
  - destruct t; simpl; congruence.
  - destruct t; simpl; congruence.
  - simpl. discriminate.
Qed.

(** [forbid_is_the_complement_of_require] on a sample input. *)
Lemma forbid_is_the_complement_of_require_witness :
  requireAccountTypes [GERENCIAL] composta_caller = Next
  \/ forbidAccountTypes [GERENCIAL] composta_caller = Next.
Proof.
  apply (proj1 (proj2
    (forbid_is_the_complement_of_require [GERENCIAL] composta_caller))).
  do 2 eexists. split; reflexivity.
Defined.

(** X3. The whole decision of [validateTenantAccess]: it calls [next()]
    exactly when the request has an identity with a non-empty tenant and
    the path's [tenantId] is missing, empty or equal to that tenant; it
    answers 401 exactly when the identity or its tenant is missing or
    empty; otherwise it answers 403 with the caller's tenant and the
    requested one. *)
Theorem validateTenantAccess_decides (req : AuthenticatedRequest) :
  (validateTenantAccess req = Next <->
   exists user tenant,
     req_user req = Some user /\ au_tenantId user = Some tenant
     /\ tenant <> []
     /\ (truthy (param "tenantId" (req_params req)) = false
         \/ param "tenantId" (req_params req) = Some tenant))
  /\ (validateTenantAccess req =
      Respond 401
        (ErrorBody "Usuário não autenticado ou tenant não identificado") <->
      req_user req = None
      \/ exists user, req_user req = Some user
                      /\ truthy (au_tenantId user) = false)
  /\ (forall user tenant pathTenantId,
        req_user req = Some user -> au_tenantId user = Some tenant ->
        tenant <> [] ->
        param "tenantId" (req_params req) = Some pathTenantId ->
        pathTenantId <> [] -> pathTenantId <> tenant ->
        validateTenantAccess req =
        Respond 403
          (TenantBody "Acesso negado: tenant não autorizado" tenant
             pathTenantId)).
Proof.
  unfold validateTenantAccess.
  destruct (req_user req) as [user|] eqn:Eu.
  2: { repeat split; try discriminate; try tauto.
       intros [u [t [H _]]]. discriminate. }
  assert (Hsame : forall u, Some user = Some u -> u = user)
    by (intros u H; now injection H).
  destruct (au_tenantId user) as [[|c tenant]|] eqn:Et;
    cbn [truthy truthy_string negb].
  - split; [|split].
    + split; [discriminate|].
      intros [u [t [Hu [Ht [Hne _]]]]]. apply Hsame in Hu. subst u.
      rewrite Et in Ht. injection Ht as <-. contradiction.
    + split; [|reflexivity]. intros _. right. exists user. now rewrite Et.
    + intros u t p Hu Ht Hne. apply Hsame in Hu. subst u.
      rewrite Et in Ht. injection Ht as <-. contradiction.
  - assert (Hno401 :
              ~ (Some user = None
                 \/ exists u, Some user = Some u
                              /\ truthy (au_tenantId u) = false)).
    { intros [H|[u [Hu Ht]]]; [discriminate|]. apply Hsame in Hu. subst u.
      rewrite Et in Ht. discriminate. }
    destruct (param "tenantId" (req_params req)) as [[|x p]|] eqn:Ep;
      cbn [truthy truthy_string andb].
    + split; [|split].
      * split; [|reflexivity]. intros _.
        exists user, (c :: tenant). repeat split; trivial; try discriminate.
        now left.
      * split; [discriminate|]. intros H. contradiction.
      * intros u t q _ _ _ Hq Hne. injection Hq as <-. contradiction.
    + destruct (js_eqb (x :: p) (c :: tenant)) eqn:E; cbn [negb].
      * apply js_eqb_eq in E. split; [|split].
        -- split; [|reflexivity]. intros _.
           exists user, (c :: tenant). repeat split; trivial;
             try discriminate. right. now rewrite E.
        -- split; [discriminate|]. intros H. contradiction.
        -- intros u t q Hu Ht _ Hq _ Hd. apply Hsame in Hu. subst u.
           rewrite Et in Ht. injection Ht as <-. congruence.
      * apply js_eqb_neq in E. split; [|split].
        -- split; [discriminate|].
           intros [u [t [Hu [Ht [_ [H|H]]]]]]; [discriminate|].
           apply Hsame in Hu. subst u. rewrite Et in Ht.
           injection Ht as <-. congruence.
        -- split; [discriminate|]. intros H. contradiction.
        -- intros u t q Hu Ht _ Hq _ _. apply Hsame in Hu. subst u.
           rewrite Et in Ht. injection Ht as <-. injection Hq as <-.
           reflexivity.
    + split; [|split].
      * split; [|reflexivity]. intros _.
        exists user, (c :: tenant). repeat split; trivial; try discriminate.
        now left.
      * split; [discriminate|]. intros H. contradiction.
      * intros u t q _ _ _ Hq. discriminate.
  - split; [|split].
    + split; [discriminate|].
      intros [u [t [Hu [Ht _]]]]. apply Hsame in Hu. subst u. congruence.
    + split; [|reflexivity]. intros _. right. exists user. now rewrite Et.
    + intros u t p Hu Ht. apply Hsame in Hu. subst u. congruence.
Qed.

(** [validateTenantAccess_decides] on a sample input. *)
Lemma validateTenantAccess_decides_witness :
  validateTenantAccess simples_caller =
  Respond 403
    (TenantBody "Acesso negado: tenant não autorizado" (js "tenant-a")
       (js "tenant-b")).
Proof.
  apply (proj2 (proj2 (validateTenantAccess_decides simples_caller))
           {| au_userId := js "u2"; au_tenantId := Some (js "tenant-a");
              au_accountType := Some SIMPLES |});
    try reflexivity; discriminate.
Defined.

(** X4. The dashboard permissions grow with the tier: a flag a tier has,
    every higher tier has; the cash-flow flag equals the
    financial-charts flag and the all-modules flag equals the settings
    flag. *)
Theorem dashboard_permissions_grow_with_tier (t t' : AccountType) :
  tier_rank t <= tier_rank t' ->
  (canViewFinancialCharts (getDashboardPermissions t) = true ->
   canViewFinancialCharts (getDashboardPermissions t') = true)
  /\ (canViewCashFlow (getDashboardPermissions t) = true ->
      canViewCashFlow (getDashboardPermissions t') = true)
  /\ (canViewSettings (getDashboardPermissions t) = true ->
      canViewSettings (getDashboardPermissions t') = true)
  /\ (canViewAllModules (getDashboardPermissions t) = true ->
      canViewAllModules (getDashboardPermissions t') = true)
  /\ canViewCashFlow (getDashboardPermissions t) =
     canViewFinancialCharts (getDashboardPermissions t)
  /\ canViewAllModules (getDashboardPermissions t) =
     canViewSettings (getDashboardPermissions t).
Proof.
  destruct t, t'; simpl; intros H; repeat split; try congruence; lia.
Qed.

(** [dashboard_permissions_grow_with_tier] on a sample input. *)
Lemma dashboard_permissions_grow_with_tier_witness :
  canViewCashFlow (getDashboardPermissions GERENCIAL) = true.
Proof.
  apply (proj1 (proj2
    (@dashboard_permissions_grow_with_tier COMPOSTA GERENCIAL
       ltac:(simpl; lia)))).
  reflexivity.
Defined.

(* ================================================================== *)
(** * More on the key service *)
(* ================================================================== *)

Lemma find_app_none {A} (f : A -> bool) (l l' : list A) :
  (forall x, In x l -> f x = false) -> find f (l ++ l') = find f l'.
Proof.
  intros H. induction l as [|x l IH]; simpl; [reflexivity|].
  rewrite (H x (or_introl eq_refl)). apply IH. intros y Hy. apply H.
  now right.
Qed.

Lemma find_none_iff {A} (f : A -> bool) (l : list A) :
  find f l = None <-> forall x, In x l -> f x = false.
Proof.
  split; [apply find_none|].
  intros H. induction l as [|x l IH]; simpl; [reflexivity|].
  rewrite (H x (or_introl eq_refl)). apply IH. intros y Hy. apply H.
  now right.
Qed.

Lemma outcomes_nil_answers (w : World) : outcomes w = [] -> answers w.
Proof. unfold answers. now intros ->. Qed.

Section MoreOnKeys.

Context {P : Platform}.

Lemma matching_map (plainKey : js_string) (f : RegistrationKey -> RegistrationKey)
  (keys : list RegistrationKey) :
  (forall x, rk_key_hash (f x) = rk_key_hash x) ->
  matching plainKey (map f keys) = option_map f (matching plainKey keys).
Proof.
  intros Hf. unfold matching. induction keys as [|x keys IH]; simpl;
    [reflexivity|].
  rewrite Hf. destruct (bcrypt_compare plainKey (rk_key_hash x));
    [reflexivity|exact IH].
Qed.

Lemma generateKey_available
  (w : World) (request : CreateKeyRequest) (createdBy : js_string) :
  outcomes w = [] ->
  tenantId_is_empty (ckr_tenantId request) = false ->
  let r := generateKey request createdBy w in
  fst r = Ok (randomBytes_hex (entropy w) 32)
  /\ outcomes (snd r) = []
  /\ clock (snd r) = clock w
  /\ database (snd r) =
     snd (db_createRegistrationKey
            (stored_key_data request createdBy
               (bcrypt_hash (N.succ (entropy w))
                  (randomBytes_hex (entropy w) 32) 12))
            (database w)).
Proof.
  intros Ho He. destruct w as [d o c en con]. simpl in Ho. subst o.
  unfold generateKey. run_world. rewrite He. run_world.
  unfold db_createRegistrationKey. repeat split.
Qed.

(** X5. [getKeyUsage] answers with the summary of a stored key of the
    requested id, which it finds whenever one is stored; when no stored
    key has that id it fails with [Key not found]; and it leaves the
    tables as they are, also when the store fails. *)
Theorem getKeyUsage_finds_by_id (w : World) (keyId : js_string) :
  database (snd (getKeyUsage keyId w)) = database w
  /\ (answers w ->
      ((forall k, In k (tbl_registrationKeys (database w)) ->
                  rk_id k <> keyId) ->
       fst (getKeyUsage keyId w) = Throw (Error "Key not found"))
      /\ ((exists k, In k (tbl_registrationKeys (database w))
                     /\ rk_id k = keyId) ->
          exists k, In k (tbl_registrationKeys (database w))
                    /\ rk_id k = keyId
                    /\ fst (getKeyUsage keyId w) = Ok (usage_of k))).
Proof.
  split.
  - unfold getKeyUsage, storage, db_getAllRegistrationKeys. step_monad.
    destruct (outcomes w) as [|[e|] rest]; step_monad; try reflexivity;
      destruct (find (fun k => js_eqb (rk_id k) keyId)
                  (tbl_registrationKeys (database w))); reflexivity.
  - intros Ha. unfold getKeyUsage. step_monad.
    rewrite storage_answers by exact Ha.
    unfold db_getAllRegistrationKeys. step_monad.
    destruct (find (fun k => js_eqb (rk_id k) keyId)
                (tbl_registrationKeys (database w))) as [k|] eqn:E.
    + apply find_some in E. destruct E as [Hin E]. apply js_eqb_eq in E.
      split.
      * intros Hnone. now apply Hnone in Hin.
      * intros _. exists k. repeat split; trivial.
    + split; [reflexivity|].
      intros [k [Hin Hid]]. apply find_none with (x := k) in E; trivial.
      apply js_eqb_neq in E. contradiction.
Qed.

(** X6. With a non-empty tenant id [listKeys] returns exactly the stored
    keys bound to that tenant; with a missing or an empty tenant id it
    returns every stored key, of whatever tenant. It leaves the tables as
    they are. *)
Theorem listKeys_by_tenant (w : World) (tenantId : option js_string) :
  database (snd (listKeys tenantId w)) = database w
  /\ (answers w ->
      (truthy tenantId = false ->
       fst (listKeys tenantId w) = Ok (tbl_registrationKeys (database w)))
      /\ (forall t, tenantId = Some t -> t <> [] ->
          exists keys,
            fst (listKeys tenantId w) = Ok keys
            /\ forall k,
                 In k keys <->
                 In k (tbl_registrationKeys (database w))
                 /\ rk_tenant_id k = Some t)).
Proof.
  split.
  - unfold listKeys, storage, db_getAllRegistrationKeys. step_monad.
    destruct (outcomes w) as [|[e|] rest]; step_monad; try reflexivity;
      destruct tenantId as [[|c s]|]; reflexivity.
  - intros Ha. unfold listKeys. step_monad.
    rewrite storage_answers by exact Ha.
    unfold db_getAllRegistrationKeys. step_monad. split.
    + destruct tenantId as [[|c s]|]; simpl; intros H;
        try discriminate; reflexivity.
    + intros t -> Hne. destruct t as [|c s]; [contradiction|].
      eexists. split; [reflexivity|].
      intros k. rewrite filter_In. rewrite negb_true_iff.
      split; intros [Hin Ht]; split; trivial.
      * destruct (rk_tenant_id k) as [s'|]; simpl in Ht; [|discriminate].
        apply negb_false_iff, js_eqb_eq in Ht. now subst.
      * rewrite Ht. unfold tenant_differs. now rewrite js_eqb_refl.
Qed.

(** X7. After [revokeKey] for the key a plaintext matches, on an
    available store, [validateAndConsumeKey] refuses that plaintext with
    the revocation error for every tenant, whatever uses the key has
    left; keys of other ids are as before; and revoking a second time
    changes nothing. *)
Theorem revokeKey_blocks_the_key
  (w : World) (plainKey : js_string) (k : RegistrationKey) :
  outcomes w = [] ->
  matching plainKey (tbl_registrationKeys (database w)) = Some k ->
  let w1 := snd (revokeKey (rk_id k) w) in
  (forall tenantId,
     fst (validateAndConsumeKey plainKey tenantId w1) =
     Throw (Error msg_revoked))
  /\ (forall x, In x (tbl_registrationKeys (database w)) ->
                rk_id x <> rk_id k ->
                In x (tbl_registrationKeys (database w1)))
  /\ database (snd (revokeKey (rk_id k) w1)) = database w1.
Proof.
  intros Ho Hm w1. subst w1.
  destruct w as [d o c en con]. cbn [outcomes database] in Ho, Hm. subst o.
  unfold revokeKey. run_world. unfold db_revokeRegistrationKey.
  cbn [fst snd tbl_registrationKeys tbl_users tbl_tenants
       tbl_refreshTokens nextId].
  split; [|split].
  - intros tenantId. apply validateAndConsumeKey_failure; [exact I|].
    cbn [database tbl_registrationKeys clock].
    rewrite matching_map, Hm.
    + cbn [option_map first_failure]. rewrite js_eqb_refl. reflexivity.
    + intros x. destruct (js_eqb (rk_id x) (rk_id k)); reflexivity.
  - intros x Hin Hid. apply in_map_iff. exists x. split; [|exact Hin].
    apply js_eqb_neq in Hid. now rewrite Hid.
  - f_equal. rewrite map_map. apply map_ext. intros x.
    destruct (js_eqb (rk_id x) (rk_id k)) eqn:E.
    + cbn [set_key_revoked rk_id]. rewrite E. reflexivity.
    + now rewrite E.
Qed.

End MoreOnKeys.

(** [getKeyUsage_finds_by_id] on a sample input. *)
Lemma getKeyUsage_finds_by_id_witness :
  fst (getKeyUsage (js "k9") (key_world (sample_key 1 None false))) =
  Throw (Error "Key not found").
Proof.
  apply (proj1 (proj2
    (getKeyUsage_finds_by_id (key_world (sample_key 1 None false))
       (js "k9")) I)).
  intros k [<-|[]]. discriminate.
Defined.

(** [listKeys_by_tenant] on a sample input. *)
Lemma listKeys_by_tenant_witness :
  fst (listKeys (Some []) (key_world (sample_key 1 None false))) =
  Ok [sample_key 1 None false].
Proof.
  apply (proj1 (proj2
    (listKeys_by_tenant (key_world (sample_key 1 None false)) (Some [])) I)).
  reflexivity.
Defined.

(** [revokeKey_blocks_the_key] on a sample input. *)
Lemma revokeKey_blocks_the_key_witness :
  fst (validateAndConsumeKey (P := test_platform) (js "key-1")
         (js "tenant-a")
         (snd (revokeKey (js "k1") (key_world (sample_key 5 None false))))) =
  Throw (Error msg_revoked).
Proof.
  apply (proj1
    (@revokeKey_blocks_the_key test_platform
       (key_world (sample_key 5 None false)) (js "key-1")
       (sample_key 5 None false) eq_refl eq_refl)).
Defined.

(* ================================================================== *)
(** * Consuming and generating keys *)
(* ================================================================== *)

Lemma log_length_appended (logs : option (list UsedLog)) (entry : UsedLog) :
  log_length (Some (appended logs entry)) = S (log_length logs).
Proof.
  destruct logs as [l|]; simpl; [|reflexivity].
  rewrite length_app. simpl. lia.
Qed.

Section ConsumeAndGenerate.

Context {P : Platform}.

(** X8. A successful [validateAndConsumeKey] (available store, valid key
    of the requested tenant) returns the key's tier and the requested
    tenant, takes exactly one use from the key it matched, appends one
    entry for the requested tenant to its usage log, and leaves alone
    every key of another id, the key's hash, tenant, expiry and
    revocation flag, and the other tables. When only the write of the
    counter fails, the call throws the storage error and the tables are
    as before. *)
Theorem validateAndConsumeKey_takes_one_use
  (w : World) (plainKey tenantId : js_string) (k : RegistrationKey) :
  matching plainKey (tbl_registrationKeys (database w)) = Some k ->
  rk_revoked k = false ->
  expired (clock w) k = false ->
  0 < rk_uses_left k ->
  rk_tenant_id k = Some tenantId ->
  (outcomes w = [] ->
   let r := validateAndConsumeKey plainKey tenantId w in
   fst r = Ok (rk_account_type k, Some tenantId)
   /\ (exists k',
         matching plainKey (tbl_registrationKeys (database (snd r))) =
         Some k'
         /\ rk_uses_left k' = rk_uses_left k - 1
         /\ rk_used_logs k' =
            Some (appended (rk_used_logs k)
                    (KeyUse (clock w) tenantId "system"))
         /\ log_length (rk_used_logs k') = S (log_length (rk_used_logs k))
         /\ rk_id k' = rk_id k /\ rk_key_hash k' = rk_key_hash k
         /\ rk_tenant_id k' = rk_tenant_id k
         /\ rk_expires_at k' = rk_expires_at k
         /\ rk_revoked k' = rk_revoked k)
   /\ (forall x, In x (tbl_registrationKeys (database w)) ->
                 rk_id x <> rk_id k ->
                 In x (tbl_registrationKeys (database (snd r))))
   /\ same_accounts (database w) (database (snd r)))
  /\ (forall e rest,
        outcomes w = None :: Some e :: rest ->
        fst (validateAndConsumeKey plainKey tenantId w) = Throw e
        /\ database (snd (validateAndConsumeKey plainKey tenantId w)) =
           database w).
Proof.
  intros Hm Hr He Hu Ht.
  assert (Hf : first_failure (clock w) tenantId (Some k) = None).
  { unfold first_failure. rewrite Hr, He, Ht.
    rewrite (proj2 (Z.leb_gt _ _) Hu). simpl. now rewrite js_eqb_refl. }
  split.
  - intros Ho r. subst r.
    destruct (@validateAndConsumeKey_success _ w plainKey tenantId k
                Ho Hm Hf) as [H1 [H2 [H3 H4]]].
    rewrite H1, H4, Ht.
    cbn [db_updateRegistrationKey snd tbl_registrationKeys].
    split; [reflexivity|]. split; [|split].
    + eexists. split; [now apply matching_after_update|].
      cbn [set_key_usage rk_uses_left rk_used_logs rk_id rk_key_hash
           rk_tenant_id rk_expires_at rk_revoked].
      rewrite log_length_appended. repeat split. exact Ht.
    + intros x Hin Hid. apply in_map_iff. exists x. split; [|exact Hin].
      apply js_eqb_neq in Hid. now rewrite Hid.
    + repeat split.
  - intros e rest Ho. clear Hf.
    destruct w as [d o c en con]. cbn [outcomes database clock] in *.
    subst o. unfold validateAndConsumeKey. run_world.
    unfold db_getAllRegistrationKeys. run_world. rewrite Hm. run_world.
    rewrite Hr. run_world. rewrite He.
    rewrite (proj2 (Z.leb_gt _ _) Hu). rewrite Ht.
    unfold tenant_differs. rewrite js_eqb_refl. run_world.
    split; reflexivity.
Qed.


(** X10. The plaintext [generateKey] returns is accepted: when the store
    is available, the request names a non-blank tenant, does not expire
    before now and does not allow a negative number of uses,
    [bcrypt.compare] matches the new plaintext with its own hash and with
    no hash stored before, then [validateAndConsumeKey] with that
    plaintext and that tenant succeeds and grants the requested tier. *)
Theorem generated_key_is_accepted
  (w : World) (request : CreateKeyRequest) (createdBy tenantId : js_string) :
  outcomes w = [] ->
  ckr_tenantId request = Some tenantId ->
  tenantId_is_empty (Some tenantId) = false ->
  (forall n, ckr_usesAllowed request = Some n -> 0 <= n) ->
  (forall e, ckr_expiresAt request = Some e -> clock w <= e) ->
  (forall salt,
     bcrypt_compare (randomBytes_hex (entropy w) 32)
       (bcrypt_hash salt (randomBytes_hex (entropy w) 32) 12) = true) ->
  (forall x, In x (tbl_registrationKeys (database w)) ->
             bcrypt_compare (randomBytes_hex (entropy w) 32)
               (rk_key_hash x) = false) ->
  exists key,
    fst (generateKey request createdBy w) = Ok key
    /\ fst (validateAndConsumeKey key tenantId
              (snd (generateKey request createdBy w))) =
       Ok (ckr_accountType request, Some tenantId).
Proof.
  intros Ho Ht Hne Huses Hexp Hown Hnew.
  destruct (@generateKey_available _ w request createdBy Ho)
    as [H1 [H2 [H3 H4]]]; [now rewrite Ht|].
  exists (randomBytes_hex (entropy w) 32). split; [exact H1|].
  set (key := randomBytes_hex (entropy w) 32) in *.
  set (row := key_row (fresh_id (nextId (database w)))
                (stored_key_data request createdBy
                   (bcrypt_hash (N.succ (entropy w)) key 12))).
  assert (Hm : matching key
                 (tbl_registrationKeys
                    (database (snd (generateKey request createdBy w)))) =
               Some row).
  { rewrite H4. cbn [db_createRegistrationKey snd tbl_registrationKeys].
    unfold matching. rewrite find_app_none by exact Hnew.
    cbn [find]. fold row.
    assert (E : rk_key_hash row = bcrypt_hash (N.succ (entropy w)) key 12)
      by reflexivity.
    rewrite E, Hown. reflexivity. }
  assert (Hf : first_failure
                 (clock (snd (generateKey request createdBy w))) tenantId
                 (Some row) = None).
  { rewrite H3. unfold first_failure, expired.
    cbn [row key_row stored_key_data rk_revoked kd_revoked rk_expires_at
         kd_expiresAt rk_uses_left kd_usesLeft rk_tenant_id kd_tenantId].
    assert (Hu : (or_number (ckr_usesAllowed request) 1 <=? 0) = false).
    { apply Z.leb_gt. destruct (ckr_usesAllowed request) as [n|] eqn:E;
        simpl; [|lia].
      specialize (Huses n eq_refl). destruct n; simpl; lia. }
    rewrite Hu, Ht. unfold tenant_differs. rewrite js_eqb_refl.
    destruct (ckr_expiresAt request) as [e|] eqn:E; [|reflexivity].
    specialize (Hexp e eq_refl).
    rewrite (proj2 (Z.ltb_ge _ _) Hexp). reflexivity. }
  destruct (@validateAndConsumeKey_success _
              (snd (generateKey request createdBy w)) key tenantId row
              H2 Hm Hf) as [R1 _].
  rewrite R1. cbn [row key_row stored_key_data rk_account_type
                     kd_accountType rk_tenant_id kd_tenantId].
  now rewrite Ht.
Qed.

(** X11. When the store fails to take the record, [generateKey] fails
    with the prefix of its [catch] followed by the message of the storage
    error, or by [Unknown error] for a thrown value that is not an
    [Error], persists nothing and writes the failure to the console. *)
Theorem generateKey_reports_storage_failure
  (w : World) (request : CreateKeyRequest) (createdBy : js_string)
  (e : Exn) (rest : list (option Exn)) :
  tenantId_is_empty (ckr_tenantId request) = false ->
  outcomes w = Some e :: rest ->
  fst (generateKey request createdBy w) =
  Throw (Error ("Failed to generate registration key: " ++ message_of e))
  /\ (e = NonError ->
      fst (generateKey request createdBy w) =
      Throw (Error "Failed to generate registration key: Unknown error"))
  /\ database (snd (generateKey request createdBy w)) = database w
  /\ In (LogError "Error in generateKey:" (Some e))
        (console (snd (generateKey request createdBy w))).
Proof.
  intros He Ho. unfold generateKey. step_monad. rewrite He. step_monad.
  unfold storage. step_monad. rewrite Ho. step_monad.
  repeat split.
  - intros ->. reflexivity.
  - apply in_or_app. right. now left.
Qed.

(** X12. [generateKey] stores a negative [usesAllowed] as it is given:
    the plaintext it returns is then refused with the exhaustion error on
    its first presentation. *)
Theorem negative_uses_allowed_makes_a_dead_key
  (w : World) (request : CreateKeyRequest) (createdBy tenantId : js_string)
  (n : Z) :
  outcomes w = [] ->
  ckr_tenantId request = Some tenantId ->
  tenantId_is_empty (Some tenantId) = false ->
  ckr_usesAllowed request = Some n -> n < 0 ->
  (forall e, ckr_expiresAt request = Some e -> clock w <= e) ->
  (forall salt,
     bcrypt_compare (randomBytes_hex (entropy w) 32)
       (bcrypt_hash salt (randomBytes_hex (entropy w) 32) 12) = true) ->
  (forall x, In x (tbl_registrationKeys (database w)) ->
             bcrypt_compare (randomBytes_hex (entropy w) 32)
               (rk_key_hash x) = false) ->
  exists key,
    fst (generateKey request createdBy w) = Ok key
    /\ map rk_uses_left
         (tbl_registrationKeys
            (database (snd (generateKey request createdBy w)))) =
       map rk_uses_left (tbl_registrationKeys (database w)) ++ [n]
    /\ fst (validateAndConsumeKey key tenantId
              (snd (generateKey request createdBy w))) =
       Throw (Error msg_exhausted).
Proof.
  intros Ho Ht Hne Hn Hneg Hexp Hown Hnew.
  destruct (@generateKey_available _ w request createdBy Ho)
    as [H1 [H2 [H3 H4]]]; [now rewrite Ht|].
  exists (randomBytes_hex (entropy w) 32). split; [exact H1|].
  set (key := randomBytes_hex (entropy w) 32) in *.
  set (row := key_row (fresh_id (nextId (database w)))
                (stored_key_data request createdBy
                   (bcrypt_hash (N.succ (entropy w)) key 12))).
  assert (Hrow : rk_uses_left row = n).
  { cbn [row key_row stored_key_data rk_uses_left kd_usesLeft].
    rewrite Hn. destruct n; simpl; lia. }
  split.
  { rewrite H4. cbn [db_createRegistrationKey snd tbl_registrationKeys].
    rewrite map_app. cbn [map]. fold row. now rewrite Hrow. }
  apply validateAndConsumeKey_failure.
  { now apply outcomes_nil_answers. }
  rewrite H3, H4. cbn [db_createRegistrationKey snd tbl_registrationKeys].
  unfold matching. rewrite find_app_none by exact Hnew.
  cbn [find]. fold row.
  assert (E : rk_key_hash row = bcrypt_hash (N.succ (entropy w)) key 12)
    by reflexivity.
  rewrite E, Hown. unfold first_failure, expired. rewrite Hrow.
  cbn [row key_row stored_key_data rk_revoked kd_revoked rk_expires_at
       kd_expiresAt].
  rewrite (proj2 (Z.leb_le n 0)) by lia.
  destruct (ckr_expiresAt request) as [e|] eqn:Ee; [|reflexivity].
  specialize (Hexp e eq_refl).
  rewrite (proj2 (Z.ltb_ge _ _) Hexp). reflexivity.
Qed.

End ConsumeAndGenerate.

(** [validateAndConsumeKey_takes_one_use] on a sample input. *)
Lemma validateAndConsumeKey_takes_one_use_witness :
  fst (validateAndConsumeKey (P := test_platform) (js "key-1")
         (js "tenant-a") (key_world (sample_key 2 None false))) =
  Ok (COMPOSTA, Some (js "tenant-a")).
Proof.
  refine (proj1 (proj1
    (@validateAndConsumeKey_takes_one_use test_platform
       (key_world (sample_key 2 None false)) (js "key-1") (js "tenant-a")
       (sample_key 2 None false) eq_refl eq_refl eq_refl _ eq_refl)
    eq_refl)).
  simpl. lia.
Defined.


(** [generated_key_is_accepted] on a sample input. *)
Lemma generated_key_is_accepted_witness :
  exists key,
    fst (generateKey (P := test_platform) (sample_request (Some 1))
           (js "admin") fresh_world) = Ok key
    /\ fst (validateAndConsumeKey (P := test_platform) key (js "tenant-a")
              (snd (generateKey (P := test_platform)
                      (sample_request (Some 1)) (js "admin") fresh_world))) =
       Ok (COMPOSTA, Some (js "tenant-a")).
Proof.
  apply (@generated_key_is_accepted test_platform fresh_world
           (sample_request (Some 1)) (js "admin") (js "tenant-a")).
  - reflexivity.
  - reflexivity.
  - reflexivity.
  - intros n H. injection H as <-. lia.
  - intros e H. discriminate.
  - intros salt. reflexivity.
  - intros x [].
Defined.

(** [generateKey_reports_storage_failure] on a sample input. *)
Lemma generateKey_reports_storage_failure_witness :
  fst (generateKey (P := test_platform) (sample_request (Some 1))
         (js "admin") (world_of tenants_only [Some NonError])) =
  Throw (Error "Failed to generate registration key: Unknown error").
Proof.
  exact (proj1
    (@generateKey_reports_storage_failure test_platform
       (world_of tenants_only [Some NonError]) (sample_request (Some 1))
       (js "admin") NonError [] eq_refl eq_refl)).
Defined.

(** [negative_uses_allowed_makes_a_dead_key] on a sample input. *)
Lemma negative_uses_allowed_makes_a_dead_key_witness :
  exists key,
    fst (generateKey (P := test_platform) (sample_request (Some (-2)))
           (js "admin") fresh_world) = Ok key
    /\ map rk_uses_left
         (tbl_registrationKeys
            (database
               (snd (generateKey (P := test_platform)
                       (sample_request (Some (-2))) (js "admin")
                       fresh_world)))) = [-2]
    /\ fst (validateAndConsumeKey (P := test_platform) key (js "tenant-a")
              (snd (generateKey (P := test_platform)
                      (sample_request (Some (-2))) (js "admin")
                      fresh_world))) =
       Throw (Error msg_exhausted).
Proof.
  apply (@negative_uses_allowed_makes_a_dead_key test_platform fresh_world
           (sample_request (Some (-2))) (js "admin") (js "tenant-a") (-2)).
  - reflexivity.
  - reflexivity.
  - reflexivity.
  - reflexivity.
  - lia.
  - intros e H. discriminate.
  - intros salt. reflexivity.
  - intros x [].
Defined.

(* ================================================================== *)
(** * More on tokens *)
(* ================================================================== *)

Section MoreOnTokens.

Context {P : Platform}.

Lemma vouched_record (token userId : js_string) (d : Database) :
  vouched token userId d = true <->
  exists r, In r (tbl_refreshTokens d)
            /\ rt_isActive r = true /\ rt_userId r = userId
            /\ bcrypt_compare token (rt_tokenHash r) = true.
Proof.
  unfold vouched, db_getActiveRefreshTokensForUser. cbn [fst].
  rewrite existsb_exists. split.
  - intros [r [Hin Hc]]. apply filter_In in Hin. destruct Hin as [Hin Hf].
    apply andb_true_iff in Hf. destruct Hf as [Ha Hu].
    apply js_eqb_eq in Hu. exists r. repeat split; trivial.
  - intros [r [Hin [Ha [Hu Hc]]]]. exists r. split; [|exact Hc].
    apply filter_In. split; [exact Hin|]. rewrite Ha, Hu.
    now rewrite js_eqb_refl.
Qed.

Lemma verifyRefreshToken_cases (w w' : World) (token : js_string)
  (r : Result Payload) :
  verifyRefreshToken token w = (r, w') ->
  database w' = database w
  /\ (r = Throw (Error msg_invalid_refresh)
      \/ exists d, r = Ok d
                   /\ jwt_verify token refreshTokenSecret verify_options
                        (clock w) = Some d
                   /\ vouched token (p_userId d) (database w) = true).
Proof.
  unfold verifyRefreshToken, vouched. step_monad.
  destruct (jwt_verify token refreshTokenSecret verify_options (clock w))
    as [d|]; step_monad.
  2: { intros E. injection E as <- <-. split; [reflexivity|now left]. }
  unfold storage, db_getActiveRefreshTokensForUser. step_monad.
  destruct (outcomes w) as [|[e|] rest]; step_monad.
  - match goal with |- context [existsb ?f ?l] =>
      destruct (existsb f l) eqn:Ex end; step_monad;
      intros E; injection E as <- <-; (split; [reflexivity|]);
      [right; exists d; repeat split; trivial | now left].
  - intros E. injection E as <- <-. split; [reflexivity|now left].
  - match goal with |- context [existsb ?f ?l] =>
      destruct (existsb f l) eqn:Ex end; step_monad;
      intros E; injection E as <- <-; (split; [reflexivity|]);
      [right; exists d; repeat split; trivial | now left].
Qed.

(** X13. [verifyRefreshToken] accepts a token only when the signature
    check decodes it and an active stored record of the decoded user
    holds a hash it matches; every refusal, whatever its cause (signature,
    no such record, storage failure), is the one error
    [Invalid or expired refresh token]; and the tables are never
    changed. *)
Theorem verifyRefreshToken_accepts_only_vouched_tokens
  (w : World) (token : js_string) :
  database (snd (verifyRefreshToken token w)) = database w
  /\ (fst (verifyRefreshToken token w) = Throw (Error msg_invalid_refresh)
      \/ exists decoded, fst (verifyRefreshToken token w) = Ok decoded)
  /\ (forall decoded,
        fst (verifyRefreshToken token w) = Ok decoded ->
        jwt_verify token refreshTokenSecret verify_options (clock w) =
        Some decoded
        /\ exists r,
             In r (tbl_refreshTokens (database w))
             /\ rt_isActive r = true
             /\ rt_userId r = p_userId decoded
             /\ bcrypt_compare token (rt_tokenHash r) = true).
Proof.
  destruct (verifyRefreshToken token w) as [r w'] eqn:E.
  apply verifyRefreshToken_cases in E. destruct E as [Hd Hr].
  cbn [fst snd]. split; [exact Hd|]. split.
  - destruct Hr as [->|[d [-> _]]]; eauto.
  - intros decoded ->. destruct Hr as [H|[d [H [Hj Hv]]]];
      [discriminate|].
    injection H as <-. split; [exact Hj|]. now apply vouched_record.
Qed.

Lemma verifyAccessToken_run (w : World) (token : js_string) :
  verifyAccessToken token w =
  (match jwt_verify token accessTokenSecret verify_options (clock w) with
   | Some decoded => Ok decoded
   | None => Throw (Error "Invalid or expired access token")
   end, w).
Proof.
  unfold verifyAccessToken. step_monad.
  destruct (jwt_verify token accessTokenSecret verify_options (clock w));
    reflexivity.
Qed.

Lemma revokeAllTokens_clock (w : World) (userId : js_string) (isAdmin : bool) :
  clock (snd (revokeAllTokens userId isAdmin w)) = clock w.
Proof.
  unfold revokeAllTokens. step_monad. destruct isAdmin; step_monad;
    [reflexivity|].
  unfold storage. destruct (outcomes w) as [|[e|] rest]; reflexivity.
Qed.

(** X14. [verifyAccessToken] consults the signature check only: it makes
    no storage call and changes nothing, so an access token that verified
    before [revokeAllTokens] verifies after it just the same. Its only
    error is [Invalid or expired access token]. *)
Theorem access_token_outlives_revocation
  (w : World) (token userId : js_string) (isAdmin : bool) :
  snd (verifyAccessToken token w) = w
  /\ fst (verifyAccessToken token
            (snd (revokeAllTokens userId isAdmin w))) =
     fst (verifyAccessToken token w)
  /\ (forall decoded,
        fst (verifyAccessToken token w) = Ok decoded <->
        jwt_verify token accessTokenSecret verify_options (clock w) =
        Some decoded)
  /\ (forall e, fst (verifyAccessToken token w) = Throw e ->
                e = Error "Invalid or expired access token").
Proof.
  rewrite !verifyAccessToken_run. cbn [fst snd].
  rewrite revokeAllTokens_clock.
  destruct (jwt_verify token accessTokenSecret verify_options (clock w))
    as [d|]; repeat split; try congruence; try discriminate.
Qed.

(** X15. After [revokeAllTokens userId false] on a store that answers,
    no refresh-token record of that user is active, so
    [verifyRefreshToken] refuses, at every later instant, every token
    that decodes to that user; the records of other users are as
    before. *)
Theorem revokeAllTokens_signs_the_user_out
  (w : World) (userId : js_string) :
  answers w ->
  let w1 := snd (revokeAllTokens userId false w) in
  (forall r, In r (tbl_refreshTokens (database w1)) ->
             rt_userId r = userId -> rt_isActive r = false)
  /\ (forall token now,
        (forall decoded,
           jwt_verify token refreshTokenSecret verify_options now =
           Some decoded -> p_userId decoded = userId) ->
        fst (verifyRefreshToken token (with_clock now w1)) =
        Throw (Error msg_invalid_refresh))
  /\ (forall r, In r (tbl_refreshTokens (database w)) ->
                rt_userId r <> userId ->
                In r (tbl_refreshTokens (database w1))).
Proof.
  intros Ha w1.
  assert (Ht : tbl_refreshTokens (database w1) =
               map (fun t => if js_eqb (rt_userId t) userId
                             then deactivate t else t)
                   (tbl_refreshTokens (database w))).
  { subst w1. unfold revokeAllTokens. step_monad.
    rewrite storage_answers by exact Ha. reflexivity. }
  assert (Hdead : forall r, In r (tbl_refreshTokens (database w1)) ->
                            rt_userId r = userId -> rt_isActive r = false).
  { rewrite Ht. intros r Hr Hu. apply in_map_iff in Hr.
    destruct Hr as [r0 [<- Hr0]].
    destruct (js_eqb (rt_userId r0) userId) eqn:E; [reflexivity|].
    apply js_eqb_neq in E. contradiction. }
  split; [exact Hdead|]. split.
  - intros token now Hdec.
    destruct (verifyRefreshToken token (with_clock now w1)) as [r w2] eqn:E.
    apply verifyRefreshToken_cases in E. cbn [fst].
    destruct E as [_ [->|[d [-> [Hj Hv]]]]]; [reflexivity|].
    exfalso. cbn [clock with_clock database] in Hj, Hv.
    apply vouched_record in Hv. destruct Hv as [r [Hin [Hact [Hu _]]]].
    rewrite (Hdead r Hin) in Hact; [discriminate|].
    rewrite Hu. now apply Hdec.
  - rewrite Ht. intros r Hin Hne. apply in_map_iff. exists r.
    split; [|exact Hin]. apply js_eqb_neq in Hne. now rewrite Hne.
Qed.

(** X20. [generateTokens] never overwrites or removes a stored
    refresh-token record, whatever the store does: the table afterwards
    is the table before, followed, when the store takes it, by one
    active record of the identity that holds the hash of the refresh
    token returned. The record expires seven days later by the local
    calendar of the host, at the same local time of day; that is
    [7 * msPerDay] after the current instant exactly when the host has
    the same offset from UTC at both ends. The other tables are
    untouched. *)
Theorem generateTokens_keeps_prior_records (w : World) (user : Identity) :
  let r := generateTokens user w in
  (exists added,
     tbl_refreshTokens (database (snd r)) =
     tbl_refreshTokens (database w) ++ added
     /\ (List.length added <= 1)%nat)
  /\ tbl_users (database (snd r)) = tbl_users (database w)
  /\ same_keys_and_tenants (database w) (database (snd r))
  /\ (answers w ->
      exists tokens row,
        fst r = Ok tokens
        /\ tbl_refreshTokens (database (snd r)) =
           tbl_refreshTokens (database w) ++ [row]
        /\ rt_isActive row = true
        /\ rt_userId row = id_id user
        /\ rt_expiresAt row = UTC (LocalTime (clock w) + 7 * msPerDay)
        /\ (rt_expiresAt row = clock w + 7 * msPerDay <->
            LocalTZA (LocalTime (clock w) + 7 * msPerDay) false =
            LocalTZA (clock w) true)
        /\ rt_tokenHash row =
           bcrypt_hash (entropy w) (refreshToken tokens) 10).
Proof.
  intros r. subst r. unfold generateTokens. step_monad.
  unfold storage, db_createRefreshToken. step_monad.
  destruct (outcomes w) as [|[e|] rest] eqn:Ho; step_monad.
  - cbn [tbl_refreshTokens tbl_users]. repeat split.
    + eexists. split; [reflexivity|]. simpl. lia.
    + intros _. do 2 eexists.
      do 5 (split; [reflexivity|]). split; [|reflexivity].
      cbn [token_row rt_expiresAt rtd_expiresAt].
      unfold setDate_getDate_plus, UTC, LocalTime. split; lia.
  - repeat split.
    + exists []. rewrite app_nil_r. split; [reflexivity|]. simpl. lia.
    + unfold answers. rewrite Ho. contradiction.
  - cbn [tbl_refreshTokens tbl_users]. repeat split.
    + eexists. split; [reflexivity|]. simpl. lia.
    + intros _. do 2 eexists.
      do 5 (split; [reflexivity|]). split; [|reflexivity].
      cbn [token_row rt_expiresAt rtd_expiresAt].
      unfold setDate_getDate_plus, UTC, LocalTime. split; lia.
Qed.

End MoreOnTokens.

(** [verifyRefreshToken_accepts_only_vouched_tokens] on a sample input. *)
Lemma verifyRefreshToken_accepts_only_vouched_tokens_witness :
  exists r,
    In r (tbl_refreshTokens (database (signed_in [])))
    /\ rt_isActive r = true
    /\ rt_userId r = js "u1"
    /\ bcrypt_compare (Platform := test_platform) ana_refresh_token
         (rt_tokenHash r) = true.
Proof.
  exact (proj2
    (proj2 (proj2
       (@verifyRefreshToken_accepts_only_vouched_tokens test_platform
          (signed_in []) ana_refresh_token))
       {| p_userId := js "u1"; p_email := js "ana@x.com"; p_name := [];
          p_role := None; p_tenantId := None; p_accountType := None |}
       eq_refl)).
Defined.

(** [access_token_outlives_revocation] on a sample input. *)
Lemma access_token_outlives_revocation_witness :
  fst (verifyAccessToken (P := test_platform) (js "access|u1|ana@x.com|1000")
         (snd (revokeAllTokens (js "u1") false (signed_in [])))) =
  Ok {| p_userId := js "u1"; p_email := js "ana@x.com"; p_name := [];
        p_role := None; p_tenantId := None; p_accountType := None |}.
Proof.
  rewrite (proj1 (proj2
    (@access_token_outlives_revocation test_platform (signed_in [])
       (js "access|u1|ana@x.com|1000") (js "u1") false))).
  reflexivity.
Defined.

(** [revokeAllTokens_signs_the_user_out] on a sample input. *)
Lemma revokeAllTokens_signs_the_user_out_witness :
  fst (verifyRefreshToken (P := test_platform) ana_refresh_token
         (with_clock 2000
            (snd (revokeAllTokens (js "u1") false (signed_in []))))) =
  Throw (Error msg_invalid_refresh).
Proof.
  apply (proj1 (proj2
    (@revokeAllTokens_signs_the_user_out test_platform (signed_in [])
       (js "u1") I))).
  intros decoded H. vm_compute in H. injection H as <-. reflexivity.
Defined.

(** [generateTokens_keeps_prior_records] on a sample input. *)
Lemma generateTokens_keeps_prior_records_witness :
  exists tokens row,
    fst (generateTokens (P := new_york_platform) (identity_of_user ana)
           (with_clock 1772712000000 (signed_in []))) = Ok tokens
    /\ tbl_refreshTokens
         (database
            (snd (generateTokens (P := new_york_platform)
                    (identity_of_user ana)
                    (with_clock 1772712000000 (signed_in []))))) =
       tbl_refreshTokens (database (signed_in [])) ++ [row]
    /\ rt_isActive row = true
    /\ rt_expiresAt row = 1772712000000 + 7 * msPerDay - 3600000.
Proof.
  destruct (proj2 (proj2 (proj2
    (@generateTokens_keeps_prior_records new_york_platform
       (with_clock 1772712000000 (signed_in []))
       (identity_of_user ana)))) I)
    as [tokens [row [H1 [H2 [H3 [_ [H5 _]]]]]]].
  exists tokens, row. split; [exact H1|]. split; [exact H2|].
  split; [exact H3|]. rewrite H5. reflexivity.
Defined.

(* ================================================================== *)
(** * More on sign-in and rotation *)
(* ================================================================== *)

Section MoreOnSignIn.

Context {P : Platform}.

Lemma loginUser_available
  (w : World) (email password : js_string) (user : User) :
  outcomes w = [] ->
  fst (db_findUserByEmail email (database w)) = Some user ->
  user_isActive user = true ->
  bcrypt_compare password (user_password user) = true ->
  let r := loginUser email password w in
  fst r =
  Ok (without_password user, signed_tokens (identity_of_user user) (clock w))
  /\ outcomes (snd r) = []
  /\ tbl_users (database (snd r)) =
     map (fun u => if js_eqb (user_id u) (user_id user)
                   then set_last_login (clock w) u else u)
         (tbl_users (database w))
  /\ tbl_refreshTokens (database (snd r)) =
     tbl_refreshTokens (database w)
     ++ [issued_record w (user_id user)
           (refreshToken (signed_tokens (identity_of_user user) (clock w)))]
  /\ same_keys_and_tenants (database w) (database (snd r)).
Proof.
  intros Ho Hf Ha Hc r. subst r.
  destruct w as [d o c en con]. cbn [outcomes database clock] in *. subst o.
  unfold loginUser, verifyPassword. run_world.
  unfold db_findUserByEmail in *. cbn [fst] in Hf. run_world.
  rewrite Hf. run_world. rewrite Ha. run_world. rewrite Hc. run_world.
  unfold generateTokens. run_world. repeat split.
Qed.

(** X16. For a stored user whose account is deactivated [loginUser]
    fails with [Account is deactivated] whatever password is presented,
    the right one included: the check comes before the password
    comparison. Nothing is stored. *)
Theorem loginUser_refuses_deactivated_account
  (w : World) (email password : js_string) (user : User) :
  answers w ->
  fst (db_findUserByEmail email (database w)) = Some user ->
  user_isActive user = false ->
  fst (loginUser email password w) = Throw (Error msg_deactivated)
  /\ database (snd (loginUser email password w)) = database w
  /\ msg_deactivated <> msg_invalid_credentials.
Proof.
  intros Ha Hf Hi. unfold loginUser. step_monad.
  rewrite storage_answers by exact Ha. step_monad. rewrite Hf, Hi.
  repeat split. discriminate.
Qed.

(** X17. [loginUser] with the email of an active stored user and a
    password that [bcrypt.compare] accepts, on an available store:
    returns the user (with the last-login instant it had before this
    call) and a signed token pair, stamps the last login of that user
    with the current instant, leaves the other users alone and appends
    one active refresh-token record; the refresh token it returns then
    passes [verifyRefreshToken] whenever the signature check decodes it
    to that user and [bcrypt.compare] matches it with its own hash. *)
Theorem loginUser_signs_in
  (w : World) (email password : js_string) (user : User) :
  outcomes w = [] ->
  fst (db_findUserByEmail email (database w)) = Some user ->
  user_isActive user = true ->
  bcrypt_compare password (user_password user) = true ->
  let r := loginUser email password w in
  let tokens := signed_tokens (identity_of_user user) (clock w) in
  fst r = Ok (without_password user, tokens)
  /\ pub_lastLogin (without_password user) = user_lastLogin user
  /\ (forall u, In u (tbl_users (database (snd r))) ->
                user_id u = user_id user ->
                user_lastLogin u = Some (clock w))
  /\ (forall u, In u (tbl_users (database w)) ->
                user_id u <> user_id user ->
                In u (tbl_users (database (snd r))))
  /\ (forall now decoded,
        jwt_verify (refreshToken tokens) refreshTokenSecret verify_options
          now = Some decoded ->
        p_userId decoded = user_id user ->
        (forall salt,
           bcrypt_compare (refreshToken tokens)
             (bcrypt_hash salt (refreshToken tokens) 10) = true) ->
        fst (verifyRefreshToken (refreshToken tokens)
               (with_clock now (snd r))) = Ok decoded).
Proof.
  intros Ho Hf Ha Hc r tokens. subst r tokens.
  destruct (@loginUser_available w email password user Ho Hf Ha Hc)
    as [H1 [H2 [H3 [H4 _]]]].
  split; [exact H1|]. split; [reflexivity|]. split; [|split].
  - rewrite H3. intros u Hu Hid. apply in_map_iff in Hu.
    destruct Hu as [u0 [<- Hu0]].
    destruct (js_eqb (user_id u0) (user_id user)) eqn:E; [reflexivity|].
    apply js_eqb_neq in E. contradiction.
  - rewrite H3. intros u Hu Hid. apply in_map_iff. exists u.
    split; [|exact Hu]. apply js_eqb_neq in Hid. now rewrite Hid.
  - intros now decoded Hj Hd Hown.
    rewrite verifyRefreshToken_available by exact H2.
    cbn [fst clock with_clock database]. rewrite Hj.
    assert (Hv : vouched
                   (refreshToken
                      (signed_tokens (identity_of_user user) (clock w)))
                   (p_userId decoded)
                   (database (snd (loginUser email password w))) = true).
    { apply vouched_record. eexists. split.
      - rewrite H4. apply in_or_app. right. left. reflexivity.
      - cbn [issued_record token_row rt_isActive rt_userId rt_tokenHash
             rtd_isActive rtd_userId rtd_tokenHash].
        repeat split; [now rewrite Hd|apply Hown]. }
    now rewrite Hv.
Qed.

Lemma refreshTokens_accepted
  (w : World) (token : js_string) (decoded : Payload) :
  outcomes w = [] ->
  jwt_verify token refreshTokenSecret verify_options (clock w) =
  Some decoded ->
  vouched token (p_userId decoded) (database w) = true ->
  refreshTokens token w =
  (let found := fst (db_findUserByEmail (p_email decoded) (database w)) in
   match found with
   | None => (Throw (Error "User not found or inactive"), w)
   | Some user =>
       if user_isActive user then
         bind
           (bind
              (storage
                 (db_getActiveRefreshTokensForUser (p_userId decoded)))
              (fun userTokens =>
                 match find (fun storedToken =>
                               bcrypt_compare token
                                 (rt_tokenHash storedToken))
                            userTokens with
                 | Some storedToken =>
                     storage (db_revokeRefreshTokenById (rt_id storedToken))
                 | None => ret tt
                 end))
           (fun _ =>
              bind (generateTokens (identity_of_user user))
                   (fun tokens => ret (user, tokens))) w
       else (Throw (Error "User not found or inactive"), w)
   end).
Proof.
  intros Ho Hj Hv. unfold refreshTokens. unfold bind at 1.
  rewrite verifyRefreshToken_available by exact Ho. rewrite Hj, Hv.
  unfold bind at 1. unfold storage at 1. rewrite Ho.
  unfold db_findUserByEmail. cbn [fst snd].
  rewrite with_database_same.
  destruct (find (fun u => js_eqb (user_email u) (p_email decoded))
              (tbl_users (database w))) as [user|]; [|reflexivity].
  destruct (user_isActive user); [|reflexivity].
  cbn [negb]. unfold bind. 
  destruct (storage (db_getActiveRefreshTokensForUser (p_userId decoded)) w)
    as [[l|e] w1]; [|reflexivity].
  destruct (match find (fun storedToken =>
                          bcrypt_compare token (rt_tokenHash storedToken))
                       l with
            | Some storedToken =>
                storage (db_revokeRefreshTokenById (rt_id storedToken))
            | None => ret tt
            end w1) as [[u|e] w2]; reflexivity.
Qed.

(** X18. [refreshTokens] with a token that verifies, for a user who was
    deleted or deactivated since: fails with [User not found or inactive]
    and revokes nothing, so the presented token's record stays active. *)
Theorem refreshTokens_refuses_inactive_user
  (w : World) (token : js_string) (decoded : Payload) :
  outcomes w = [] ->
  jwt_verify token refreshTokenSecret verify_options (clock w) =
  Some decoded ->
  vouched token (p_userId decoded) (database w) = true ->
  (forall user,
     fst (db_findUserByEmail (p_email decoded) (database w)) = Some user ->
     user_isActive user = false) ->
  fst (refreshTokens token w) = Throw (Error "User not found or inactive")
  /\ database (snd (refreshTokens token w)) = database w
  /\ vouched token (p_userId decoded)
       (database (snd (refreshTokens token w))) = true.
Proof.
  intros Ho Hj Hv Hin.
  rewrite (@refreshTokens_accepted w token decoded Ho Hj Hv). cbn zeta.
  destruct (fst (db_findUserByEmail (p_email decoded) (database w)))
    as [user|] eqn:E.
  - rewrite (Hin user eq_refl). repeat split. exact Hv.
  - repeat split. exact Hv.
Qed.

(** X19. A successful [refreshTokens] (available store) returns the
    stored record of the user who has the email the token decodes to,
    password hash included, and that user is active; the tokens it
    returns are signed for that record at the current instant. *)
Theorem refreshTokens_returns_the_stored_record
  (w w' : World) (token : js_string) (user : User) (tokens : Tokens) :
  outcomes w = [] ->
  refreshTokens token w = (Ok (user, tokens), w') ->
  In user (tbl_users (database w))
  /\ user_isActive user = true
  /\ (exists decoded,
        jwt_verify token refreshTokenSecret verify_options (clock w) =
        Some decoded
        /\ user_email user = p_email decoded)
  /\ tokens = signed_tokens (identity_of_user user) (clock w).
Proof.
  intros Ho H.
  destruct (verifyRefreshToken token w) as [r0 w0] eqn:E0.
  pose proof E0 as E1. rewrite verifyRefreshToken_available in E1
    by exact Ho.
  destruct (jwt_verify token refreshTokenSecret verify_options (clock w))
    as [d|] eqn:Hj.
  2: { unfold refreshTokens, bind in H. rewrite E0 in H.
       injection E1 as <- <-. discriminate. }
  destruct (vouched token (p_userId d) (database w)) eqn:Hv.
  2: { unfold refreshTokens, bind in H. rewrite E0 in H.
       injection E1 as <- <-. discriminate. }
  rewrite (@refreshTokens_accepted w token d Ho Hj Hv) in H. cbn zeta in H.
  unfold db_findUserByEmail in H. cbn [fst] in H.
  destruct (find (fun u => js_eqb (user_email u) (p_email d))
              (tbl_users (database w))) as [u|] eqn:Ef; [|discriminate].
  destruct (user_isActive u) eqn:Ea; [|discriminate].
  apply find_some in Ef. destruct Ef as [Hin He]. apply js_eqb_eq in He.
  destruct w as [db o c en con]. cbn [outcomes database clock] in *.
  subst o. revert H. unfold db_getActiveRefreshTokensForUser. run_world.
  match goal with |- context [find ?f ?l] => destruct (find f l) end;
    run_world; unfold generateTokens; run_world;
    intros H; injection H as <- <- <-; repeat split; eauto.
Qed.

End MoreOnSignIn.

(** [loginUser_refuses_deactivated_account] on a sample input. *)
Lemma loginUser_refuses_deactivated_account_witness :
  fst (loginUser (P := test_platform) (js "ana@x.com") (js "correct horse")
         deactivated_world) = Throw (Error msg_deactivated).
Proof.
  exact (proj1
    (@loginUser_refuses_deactivated_account test_platform deactivated_world
       (js "ana@x.com") (js "correct horse") ana_deactivated I eq_refl
       eq_refl)).
Defined.

(** [loginUser_signs_in] on a sample input. *)
Lemma loginUser_signs_in_witness :
  fst (verifyRefreshToken (P := test_platform) ana_refresh_token
         (with_clock 5000
            (snd (loginUser (P := test_platform) (js "ana@x.com")
                    (js "correct horse") (world_of users_only []))))) =
  Ok {| p_userId := js "u1"; p_email := js "ana@x.com"; p_name := [];
        p_role := None; p_tenantId := None; p_accountType := None |}.
Proof.
  apply (proj2 (proj2 (proj2 (proj2
    (@loginUser_signs_in test_platform (world_of users_only [])
       (js "ana@x.com") (js "correct horse") ana eq_refl eq_refl eq_refl
       eq_refl))))).
  - reflexivity.
  - reflexivity.
  - intros salt. reflexivity.
Defined.

(** [refreshTokens_refuses_inactive_user] on a sample input. *)
Lemma refreshTokens_refuses_inactive_user_witness :
  fst (refreshTokens (P := test_platform) ana_refresh_token
         deactivated_world) = Throw (Error "User not found or inactive").
Proof.
  apply (proj1
    (@refreshTokens_refuses_inactive_user test_platform deactivated_world
       ana_refresh_token
       {| p_userId := js "u1"; p_email := js "ana@x.com"; p_name := [];
          p_role := None; p_tenantId := None; p_accountType := None |}
       eq_refl eq_refl eq_refl
       ltac:(intros user H; vm_compute in H; injection H as <-;
             reflexivity))).
Defined.

(** [refreshTokens_returns_the_stored_record] on a sample input. *)
Lemma refreshTokens_returns_the_stored_record_witness :
  In (set_last_login 1000 ana)
     (tbl_users (database (with_clock 2000 (signed_in [])))).
Proof.
  apply (proj1
    (@refreshTokens_returns_the_stored_record test_platform
       (with_clock 2000 (signed_in []))
       (snd (refreshTokens (P := test_platform) ana_refresh_token
               (with_clock 2000 (signed_in []))))
       ana_refresh_token (set_last_login 1000 ana)
       {| accessToken := js "access|u1|ana@x.com|2000";
          refreshToken := js "refresh|u1|ana@x.com|2000" |}
       eq_refl ltac:(vm_compute; reflexivity))).
Defined.

(* ================================================================== *)
(** * More on registration *)
(* ================================================================== *)

Section MoreOnRegistration.

Context {P : Platform}.

Ltac run_world_in H :=
  cbv beta iota zeta delta
    [bind try_catch ret throw console_log console_error new_Date draw storage
     with_database with_outcomes with_clock database outcomes clock entropy
     console fst snd negb] in H.

Ltac development_cases :=
  unfold when_development;
  destruct NODE_ENV as [env|];
  [destruct (js_eqb env (js "development"))|].

Lemma registerUser_available
  (w : World) (email password name key : js_string)
  (k : RegistrationKey) (t : js_string) (tenant : Tenant) :
  outcomes w = [] ->
  valid_match key w = Some k ->
  rk_tenant_id k = Some t -> t <> [] ->
  fst (db_findUserByEmail email (database w)) = None ->
  find (fun x => js_eqb (tenant_id x) t) (tbl_tenants (database w)) =
  Some tenant ->
  let r := registerUser email password name key w in
  let row := registered_user w email password name k tenant in
  fst r =
  Ok (without_password row, signed_tokens (identity_of_user row) (clock w),
      false)
  /\ outcomes (snd r) = []
  /\ clock (snd r) = clock w
  /\ tbl_users (database (snd r)) = tbl_users (database w) ++ [row]
  /\ tbl_tenants (database (snd r)) = tbl_tenants (database w)
  /\ tbl_registrationKeys (database (snd r)) =
     map (fun x => if js_eqb (rk_id x) (rk_id k)
                   then set_key_usage (rk_uses_left k - 1)
                          (nullish (rk_used_logs k) []
                           ++ [Registration (user_id row) email (clock w)])
                          x
                   else x)
         (tbl_registrationKeys (database w))
  /\ tbl_refreshTokens (database (snd r)) =
     tbl_refreshTokens (database w)
     ++ [token_row (fresh_id (N.succ (nextId (database w))))
           {| rtd_tokenHash :=
                bcrypt_hash (N.succ (entropy w))
                  (refreshToken
                     (signed_tokens (identity_of_user row) (clock w))) 10;
              rtd_userId := user_id row;
              rtd_expiresAt := setDate_getDate_plus 7 (clock w);
              rtd_isActive := true |}].
Proof.
  intros Ho Hk Ht Hne Hu Hten r row. subst r row.
  destruct t as [|c s]; [contradiction|].
  destruct w as [d o cl en con]. cbn [outcomes database clock] in *.
  subst o. unfold valid_match, db_findValidRegistrationKeys in Hk.
  run_world_in Hk.
  unfold db_findUserByEmail in Hu. cbn [fst] in Hu.
  unfold registerUser, hashPassword, db_findValidRegistrationKeys.
  run_world.
  development_cases; run_world; rewrite Hk; run_world; rewrite Ht;
    run_world; unfold db_findUserByEmail; run_world; rewrite Hu;
    run_world; unfold db_getAllTenants; run_world; rewrite Hten;
    run_world; unfold generateTokens; run_world; repeat split.
Qed.

(** X21. [registerUser] with the plaintext of a valid key bound to an
    existing tenant and an email no stored user has, on an available
    store: creates exactly one user, active, with the email and name
    given, the tier the key grants and the tenant the key is bound to;
    takes one use from that key and logs the registration; and never
    reports a new tenant, the tenant table being left as it was. *)
Theorem registerUser_binds_the_user_to_the_key
  (w : World) (email password name key : js_string)
  (k : RegistrationKey) (t : js_string) (tenant : Tenant) :
  outcomes w = [] ->
  valid_match key w = Some k ->
  rk_tenant_id k = Some t -> t <> [] ->
  (forall u, In u (tbl_users (database w)) -> user_email u <> email) ->
  find (fun x => js_eqb (tenant_id x) t) (tbl_tenants (database w)) =
  Some tenant ->
  let r := registerUser email password name key w in
  exists view tokens row,
    fst r = Ok (view, tokens, false)
    /\ pub_email view = email /\ pub_name view = name
    /\ pub_accountType view = rk_account_type k
    /\ pub_tenantId view = t
    /\ pub_isActive view = true
    /\ tbl_users (database (snd r)) = tbl_users (database w) ++ [row]
    /\ without_password row = view
    /\ tbl_tenants (database (snd r)) = tbl_tenants (database w)
    /\ (forall x, In x (tbl_registrationKeys (database (snd r))) ->
                  rk_id x = rk_id k ->
                  rk_uses_left x = rk_uses_left k - 1
                  /\ log_length (rk_used_logs x) =
                     S (log_length (rk_used_logs k)))
    /\ (forall x, In x (tbl_registrationKeys (database w)) ->
                  rk_id x <> rk_id k ->
                  In x (tbl_registrationKeys (database (snd r)))).
Proof.
  intros Ho Hk Ht Hne Hnew Hten r. subst r.
  assert (Hu : fst (db_findUserByEmail email (database w)) = None).
  { unfold db_findUserByEmail. cbn [fst]. apply find_none_iff.
    intros u Hin. apply js_eqb_neq. now apply Hnew. }
  destruct (@registerUser_available w email password name key k t tenant
              Ho Hk Ht Hne Hu Hten) as [H1 [_ [_ [H4 [H5 [H6 _]]]]]].
  apply find_some in Hten. destruct Hten as [_ Hid].
  apply js_eqb_eq in Hid.
  exists (without_password
            (registered_user w email password name k tenant)),
    (signed_tokens
       (identity_of_user (registered_user w email password name k tenant))
       (clock w)),
    (registered_user w email password name k tenant).
  split; [exact H1|].
  do 3 (split; [reflexivity|]). split; [exact Hid|].
  split; [reflexivity|]. split; [exact H4|]. split; [reflexivity|].
  split; [exact H5|]. rewrite H6. split.
  - intros x Hx Hxid. apply in_map_iff in Hx.
    destruct Hx as [y [<- Hy]].
    destruct (js_eqb (rk_id y) (rk_id k)) eqn:E.
    + cbn [set_key_usage rk_uses_left rk_used_logs log_length].
      split; [reflexivity|]. rewrite length_app. cbn [List.length].
      destruct (rk_used_logs k); simpl; lia.
    + apply js_eqb_neq in E. contradiction.
  - intros x Hx Hxid. apply in_map_iff. exists x.
    split; [|exact Hx]. apply js_eqb_neq in Hxid. now rewrite Hxid.
Qed.

(** X22. The refusals of [registerUser] after it found the key change no
    table: a key without tenant is refused as lacking its tenant
    association, an email that is already registered as an existing user,
    a key whose tenant is not stored as a missing tenant; in each case the
    key keeps its uses and no user is created. *)
Theorem registerUser_refusals_change_nothing
  (w : World) (email password name key : js_string) (k : RegistrationKey) :
  outcomes w = [] ->
  valid_match key w = Some k ->
  let r := registerUser email password name key w in
  (truthy (rk_tenant_id k) = false ->
   fst r =
   Throw (Error "Invalid registration key - missing tenant association")
   /\ database (snd r) = database w)
  /\ (truthy (rk_tenant_id k) = true ->
      (exists u, In u (tbl_users (database w)) /\ user_email u = email) ->
      fst r = Throw (Error "User already exists with this email")
      /\ database (snd r) = database w)
  /\ (forall t, rk_tenant_id k = Some t -> t <> [] ->
      (forall u, In u (tbl_users (database w)) -> user_email u <> email) ->
      (forall x, In x (tbl_tenants (database w)) -> tenant_id x <> t) ->
      fst r = Throw (Error "Associated tenant not found")
      /\ database (snd r) = database w).
Proof.
  intros Ho Hk r. subst r.
  destruct w as [d o cl en con]. cbn [outcomes database clock] in *.
  subst o. unfold valid_match, db_findValidRegistrationKeys in Hk.
  run_world_in Hk.
  split; [|split].
  - intros Ht. unfold registerUser. run_world.
    unfold db_findValidRegistrationKeys.
    development_cases; run_world; rewrite Hk; run_world;
      destruct (rk_tenant_id k) as [[|c s]|]; try discriminate;
      run_world; split; reflexivity.
  - intros Ht [u [Hin He]].
    assert (Hf : exists u', find (fun u => js_eqb (user_email u) email)
                              (tbl_users d) = Some u').
    { destruct (find (fun u => js_eqb (user_email u) email) (tbl_users d))
        as [u'|] eqn:E; [eauto|].
      apply find_none with (x := u) in E; trivial.
      apply js_eqb_neq in E. contradiction. }
    destruct Hf as [u' Hf].
    unfold registerUser. run_world. unfold db_findValidRegistrationKeys.
    development_cases; run_world; rewrite Hk; run_world;
      destruct (rk_tenant_id k) as [[|c s]|]; try discriminate;
      run_world; unfold db_findUserByEmail; run_world; rewrite Hf;
      run_world; split; reflexivity.
  - intros t Ht Hne Hnew Hnot.
    assert (Hu : find (fun u => js_eqb (user_email u) email) (tbl_users d) =
                 None).
    { apply find_none_iff. intros u Hin. apply js_eqb_neq. now apply Hnew. }
    assert (Hten : find (fun x => js_eqb (tenant_id x) t) (tbl_tenants d) =
                   None).
    { apply find_none_iff. intros x Hin. apply js_eqb_neq. now apply Hnot. }
    destruct t as [|c s]; [contradiction|].
    unfold registerUser, hashPassword. run_world.
    unfold db_findValidRegistrationKeys.
    development_cases; run_world; rewrite Hk; run_world; rewrite Ht;
      run_world; unfold db_findUserByEmail; run_world; rewrite Hu;
      run_world; unfold db_getAllTenants; run_world; rewrite Hten;
      run_world; split; reflexivity.
Qed.

(** X23. [registerUser] creates the user before it writes the key: when
    the store goes down at the write of the key's usage, the call throws
    the storage error, the user it created stays stored, the key keeps
    all its uses, and no token is issued. *)
Theorem registerUser_can_leave_a_user_without_consuming_the_key
  (w : World) (email password name key : js_string)
  (k : RegistrationKey) (t : js_string) (tenant : Tenant)
  (e : Exn) (rest : list (option Exn)) :
  outcomes w = None :: None :: None :: None :: Some e :: rest ->
  valid_match key w = Some k ->
  rk_tenant_id k = Some t -> t <> [] ->
  fst (db_findUserByEmail email (database w)) = None ->
  find (fun x => js_eqb (tenant_id x) t) (tbl_tenants (database w)) =
  Some tenant ->
  let r := registerUser email password name key w in
  fst r = Throw e
  /\ tbl_users (database (snd r)) =
     tbl_users (database w)
     ++ [registered_user w email password name k tenant]
  /\ tbl_registrationKeys (database (snd r)) =
     tbl_registrationKeys (database w)
  /\ tbl_refreshTokens (database (snd r)) = tbl_refreshTokens (database w).
Proof.
  intros Ho Hk Ht Hne Hu Hten r. subst r.
  destruct t as [|c s]; [contradiction|].
  destruct w as [d o cl en con]. cbn [outcomes database clock] in *.
  subst o. unfold valid_match, db_findValidRegistrationKeys in Hk.
  run_world_in Hk.
  unfold db_findUserByEmail in Hu. cbn [fst] in Hu.
  unfold registerUser, hashPassword, db_findValidRegistrationKeys.
  run_world.
  development_cases; run_world; rewrite Hk; run_world; rewrite Ht;
    run_world; unfold db_findUserByEmail; run_world; rewrite Hu;
    run_world; unfold db_getAllTenants; run_world; rewrite Hten;
    run_world; repeat split.
Qed.

(** X24. Registration then sign-in: after a successful [registerUser]
    (as in X21), [loginUser] with the same email and password succeeds,
    provided [bcrypt.compare] matches the password with its own hash, and
    returns the user with the tier and the tenant of the key. *)
Theorem registered_user_can_sign_in
  (w : World) (email password name key : js_string)
  (k : RegistrationKey) (t : js_string) (tenant : Tenant) :
  outcomes w = [] ->
  valid_match key w = Some k ->
  rk_tenant_id k = Some t -> t <> [] ->
  (forall u, In u (tbl_users (database w)) -> user_email u <> email) ->
  find (fun x => js_eqb (tenant_id x) t) (tbl_tenants (database w)) =
  Some tenant ->
  (forall salt,
     bcrypt_compare password (bcrypt_hash salt password 12) = true) ->
  exists view tokens,
    fst (loginUser email password
           (snd (registerUser email password name key w))) =
    Ok (view, tokens)
    /\ pub_email view = email
    /\ pub_accountType view = rk_account_type k
    /\ pub_tenantId view = t.
Proof.
  intros Ho Hk Ht Hne Hnew Hten Hown.
  assert (Hu : fst (db_findUserByEmail email (database w)) = None).
  { unfold db_findUserByEmail. cbn [fst]. apply find_none_iff.
    intros u Hin. apply js_eqb_neq. now apply Hnew. }
  destruct (@registerUser_available w email password name key k t tenant
              Ho Hk Ht Hne Hu Hten) as [_ [H2 [_ [H4 _]]]].
  set (row := registered_user w email password name k tenant) in *.
  assert (Hfind : fst (db_findUserByEmail email
                         (database
                            (snd (registerUser email password name key w)))) =
                  Some row).
  { unfold db_findUserByEmail in *. cbn [fst] in *. rewrite H4.
    rewrite find_app_none.
    - cbn [find row registered_user user_row user_email ud_email].
      now rewrite js_eqb_refl.
    - now apply find_none_iff. }
  destruct (@loginUser_available _
              (snd (registerUser email password name key w)) email password
              row H2 Hfind eq_refl (Hown _)) as [L1 _].
  apply find_some in Hten. destruct Hten as [_ Hid].
  apply js_eqb_eq in Hid.
  do 2 eexists. split; [exact L1|]. repeat split. exact Hid.
Qed.

End MoreOnRegistration.

(** [registerUser_binds_the_user_to_the_key] on a sample input. *)
Lemma registerUser_binds_the_user_to_the_key_witness :
  exists view tokens row,
    fst (registerUser (P := test_platform) (js "bia@x.com") (js "pw-1")
           (js "Bia") (js "key-7") onboarding_world) =
    Ok (view, tokens, false)
    /\ pub_accountType view = COMPOSTA
    /\ pub_tenantId view = js "tenant-a"
    /\ tbl_users
         (database
            (snd (registerUser (P := test_platform) (js "bia@x.com")
                    (js "pw-1") (js "Bia") (js "key-7") onboarding_world))) =
       [ana; row].
Proof.
  destruct (@registerUser_binds_the_user_to_the_key test_platform
              onboarding_world (js "bia@x.com") (js "pw-1") (js "Bia")
              (js "key-7") (fresh_key_row (Some 1)) (js "tenant-a") tenant_a
              eq_refl eq_refl eq_refl ltac:(discriminate)
              ltac:(intros u [<-|[]]; discriminate) eq_refl)
    as [view [tokens [row [H1 [_ [_ [H4 [H5 [_ [H7 _]]]]]]]]]].
  exists view, tokens, row. repeat split; assumption.
Defined.

(** [registerUser_refusals_change_nothing] on a sample input. *)
Lemma registerUser_refusals_change_nothing_witness :
  fst (registerUser (P := test_platform) (js "ana@x.com") (js "pw-1")
         (js "Ana") (js "key-7") onboarding_world) =
  Throw (Error "User already exists with this email")
  /\ database
       (snd (registerUser (P := test_platform) (js "ana@x.com") (js "pw-1")
               (js "Ana") (js "key-7") onboarding_world)) =
     database onboarding_world.
Proof.
  apply (proj1 (proj2
    (@registerUser_refusals_change_nothing test_platform onboarding_world
       (js "ana@x.com") (js "pw-1") (js "Ana") (js "key-7")
       (fresh_key_row (Some 1)) eq_refl eq_refl))).
  - reflexivity.
  - exists ana. split; [now left|reflexivity].
Defined.

(** [registerUser_can_leave_a_user_without_consuming_the_key] on a
    sample input. *)
Lemma registerUser_can_leave_a_user_without_consuming_the_key_witness :
  fst (registerUser (P := test_platform) (js "bia@x.com") (js "pw-1")
         (js "Bia") (js "key-7")
         (with_outcomes [None; None; None; None; Some (Error "connection lost")]
            onboarding_world)) = Throw (Error "connection lost")
  /\ map rk_uses_left
       (tbl_registrationKeys
          (database
             (snd (registerUser (P := test_platform) (js "bia@x.com")
                     (js "pw-1") (js "Bia") (js "key-7")
                     (with_outcomes
                        [None; None; None; None;
                         Some (Error "connection lost")]
                        onboarding_world))))) = [1]
  /\ map user_email
       (tbl_users
          (database
             (snd (registerUser (P := test_platform) (js "bia@x.com")
                     (js "pw-1") (js "Bia") (js "key-7")
                     (with_outcomes
                        [None; None; None; None;
                         Some (Error "connection lost")]
                        onboarding_world))))) =
     [js "ana@x.com"; js "bia@x.com"].
Proof.
  destruct (@registerUser_can_leave_a_user_without_consuming_the_key
              test_platform
              (with_outcomes
                 [None; None; None; None; Some (Error "connection lost")]
                 onboarding_world)
              (js "bia@x.com") (js "pw-1") (js "Bia") (js "key-7")
              (fresh_key_row (Some 1)) (js "tenant-a") tenant_a
              (Error "connection lost") [] eq_refl eq_refl eq_refl
              ltac:(discriminate) eq_refl eq_refl)
    as [H1 [H2 [H3 _]]].
  split; [exact H1|]. split.
  - rewrite H3. reflexivity.
  - rewrite H2. reflexivity.
Defined.

(** [registered_user_can_sign_in] on a sample input. *)
Lemma registered_user_can_sign_in_witness :
  exists view tokens,
    fst (loginUser (P := test_platform) (js "bia@x.com") (js "pw-1")
           (snd (registerUser (P := test_platform) (js "bia@x.com")
                   (js "pw-1") (js "Bia") (js "key-7") onboarding_world))) =
    Ok (view, tokens)
    /\ pub_email view = js "bia@x.com"
    /\ pub_accountType view = COMPOSTA
    /\ pub_tenantId view = js "tenant-a".
Proof.
  apply (@registered_user_can_sign_in test_platform onboarding_world
           (js "bia@x.com") (js "pw-1") (js "Bia") (js "key-7")
           (fresh_key_row (Some 1)) (js "tenant-a") tenant_a).
  - reflexivity.
  - reflexivity.
  - reflexivity.
  - discriminate.
  - intros u [<-|[]]. discriminate.
  - reflexivity.
  - intros salt. apply js_eqb_refl.
Defined.

(* ================================================================== *)
(** * What the services leave alone *)
(* ================================================================== *)

Section Keeping.

Variable R : Database -> Database -> Prop.
Hypothesis R_refl : forall d, R d d.
Hypothesis R_trans : forall a b c, R a b -> R b c -> R a c.

Lemma keeps_ret {A} (a : A) : keeps R (ret a).
Proof. intros w. apply R_refl. Qed.

Lemma keeps_throw {A} (e : Exn) : keeps R (throw (A := A) e).
Proof. intros w. apply R_refl. Qed.

Lemma keeps_console_log (text : string) : keeps R (console_log text).
Proof. intros w. apply R_refl. Qed.

Lemma keeps_console_error (text : string) (error : option Exn) :
  keeps R (console_error text error).
Proof. intros w. apply R_refl. Qed.

Lemma keeps_new_Date : keeps R new_Date.
Proof. intros w. apply R_refl. Qed.

Lemma keeps_draw : keeps R draw.
Proof. intros w. apply R_refl. Qed.

Lemma keeps_bind {A B} (c : M A) (k : A -> M B) :
  keeps R c -> (forall a, keeps R (k a)) -> keeps R (bind c k).
Proof.
  intros Hc Hk w. unfold bind. specialize (Hc w).
  destruct (c w) as [[a|e] w1]; cbn [snd] in *; [|exact Hc].
  eapply R_trans; [exact Hc|apply Hk].
Qed.

Lemma keeps_try_catch {A} (c : M A) (h : Exn -> M A) :
  keeps R c -> (forall e, keeps R (h e)) -> keeps R (try_catch c h).
Proof.
  intros Hc Hh w. unfold try_catch. specialize (Hc w).
  destruct (c w) as [[a|e] w1]; cbn [snd] in *; [exact Hc|].
  eapply R_trans; [exact Hc|apply Hh].
Qed.

Lemma keeps_storage {A} (op : Database -> A * Database) :
  (forall d, R d (snd (op d))) -> keeps R (storage op).
Proof.
  intros Hop w. unfold storage. specialize (Hop (database w)).
  destruct (outcomes w) as [|[e|] rest];
    destruct (op (database w)) as [a d]; cbn [snd database with_database
      with_outcomes] in *; trivial; apply R_refl.
Qed.

End Keeping.

Ltac keeps_steps :=
  repeat first
    [ apply keeps_ret; assumption
    | apply keeps_throw; assumption
    | apply keeps_console_log; assumption
    | apply keeps_console_error; assumption
    | apply keeps_new_Date; assumption
    | apply keeps_draw; assumption
    | apply keeps_bind; [assumption| |intros ?]
    | apply keeps_try_catch; [assumption| |intros ?]
    | apply keeps_storage; [assumption|intros ?; repeat split]
    | match goal with
      | |- keeps _ (match ?x with _ => _ end) => destruct x
      end ].

Lemma same_accounts_refl (d : Database) : same_accounts d d.
Proof. repeat split. Qed.

Lemma same_accounts_trans (a b c : Database) :
  same_accounts a b -> same_accounts b c -> same_accounts a c.
Proof. unfold same_accounts. intuition congruence. Qed.

Lemma same_keys_and_tenants_refl (d : Database) : same_keys_and_tenants d d.
Proof. repeat split. Qed.

Lemma same_keys_and_tenants_trans (a b c : Database) :
  same_keys_and_tenants a b -> same_keys_and_tenants b c ->
  same_keys_and_tenants a c.
Proof. unfold same_keys_and_tenants. intuition congruence. Qed.

Lemma same_tenants_refl (d : Database) : same_tenants d d.
Proof. reflexivity. Qed.

Lemma same_tenants_trans (a b c : Database) :
  same_tenants a b -> same_tenants b c -> same_tenants a c.
Proof. unfold same_tenants. congruence. Qed.

Section KeptTables.

Context {P : Platform}.

(** X25. Whatever the store does, in every world: the methods of the key
    service never change the users, the tenants or the refresh tokens;
    the token and sign-in methods never change the registration keys or
    the tenants; and [registerUser] never changes the tenants. *)
Theorem services_keep_to_their_tables :
  (forall request createdBy,
     keeps same_accounts (generateKey request createdBy))
  /\ (forall tenantId, keeps same_accounts (listKeys tenantId))
  /\ (forall keyId, keeps same_accounts (revokeKey keyId))
  /\ (forall keyId, keeps same_accounts (getKeyUsage keyId))
  /\ (forall plainKey tenantId,
        keeps same_accounts (validateAndConsumeKey plainKey tenantId))
  /\ (forall user, keeps same_keys_and_tenants (generateTokens user))
  /\ (forall token, keeps same_keys_and_tenants (verifyAccessToken token))
  /\ (forall token, keeps same_keys_and_tenants (verifyRefreshToken token))
  /\ (forall token, keeps same_keys_and_tenants (refreshTokens token))
  /\ (forall userId isAdmin,
        keeps same_keys_and_tenants (revokeAllTokens userId isAdmin))
  /\ (forall email password,
        keeps same_keys_and_tenants (loginUser email password))
  /\ (forall email password name key,
        keeps same_tenants (registerUser email password name key)).
Proof.
  pose proof same_accounts_refl as A1.
  pose proof same_accounts_trans as A2.
  pose proof same_keys_and_tenants_refl as B1.
  pose proof same_keys_and_tenants_trans as B2.
  pose proof same_tenants_refl as C1.
  pose proof same_tenants_trans as C2.
  repeat match goal with |- _ /\ _ => split end; intros.
  - unfold generateKey. cbv zeta. keeps_steps.
  - unfold listKeys. keeps_steps.
  - unfold revokeKey. keeps_steps.
  - unfold getKeyUsage. keeps_steps.
  - unfold validateAndConsumeKey. cbv zeta. keeps_steps.
  - unfold generateTokens. cbv zeta. keeps_steps.
  - unfold verifyAccessToken. keeps_steps.
  - unfold verifyRefreshToken. cbv zeta. keeps_steps.
  - unfold refreshTokens, verifyRefreshToken, generateTokens. cbv zeta.
    keeps_steps.
  - unfold revokeAllTokens. keeps_steps.
  - unfold loginUser, verifyPassword, generateTokens. cbv zeta. keeps_steps.
  - unfold registerUser, when_development, hashPassword, generateTokens.
    cbv zeta. keeps_steps.
Qed.

End KeptTables.

(* ================================================================== *)
(** * Interleaved consumption *)
(* ================================================================== *)

Ltac run_schedule :=
  cbv beta iota zeta delta
    [interleave advance_nth advance readKey writeKey logged_rethrow
     db_getAllRegistrationKeys db_updateRegistrationKey
     bind try_catch ret throw console_log console_error new_Date draw storage
     with_database with_outcomes with_clock database outcomes clock entropy
     console fst snd negb].

Section Interleaved.

Context {P : Platform}.

(** X26. Two requests for the plaintext of a valid key with uses left,
    on an available store, each reading the key before the other writes:
    both succeed, and the key loses one use and gains one log entry, not
    two; the second write overwrites the first. *)
Theorem interleaved_consumptions_take_one_use
  (w : World) (plainKey tenantId : js_string) (k : RegistrationKey) :
  outcomes w = [] ->
  matching plainKey (tbl_registrationKeys (database w)) = Some k ->
  rk_revoked k = false ->
  expired (clock w) k = false ->
  0 < rk_uses_left k ->
  rk_tenant_id k = Some tenantId ->
  let run :=
    interleave [0; 1; 0; 1]%nat
      [Arrived plainKey tenantId; Arrived plainKey tenantId] w in
  fst run =
  [Settled (Ok (rk_account_type k, Some tenantId));
   Settled (Ok (rk_account_type k, Some tenantId))]
  /\ exists k',
       matching plainKey (tbl_registrationKeys (database (snd run))) =
       Some k'
       /\ rk_uses_left k' = rk_uses_left k - 1
       /\ log_length (rk_used_logs k') = S (log_length (rk_used_logs k)).
Proof.
  intros Ho Hm Hr He Hu Ht run. subst run.
  destruct w as [d o cl en con]. cbn [outcomes database clock] in *.
  subst o.
  assert (Hd : tenant_differs (rk_tenant_id k) tenantId = false).
  { rewrite Ht. unfold tenant_differs. now rewrite js_eqb_refl. }
  assert (Hl : (rk_uses_left k <=? 0) = false) by now apply Z.leb_gt.
  run_schedule. rewrite Hm. run_schedule. rewrite Hr. run_schedule.
  rewrite He, Hl, Hd. run_schedule.
  rewrite Hm. run_schedule. rewrite Hr. run_schedule.
  rewrite He, Hl, Hd. run_schedule.
  cbn [tbl_registrationKeys tbl_users tbl_tenants tbl_refreshTokens nextId].
  rewrite Ht. split; [reflexivity|].
  set (logs := appended (rk_used_logs k) (KeyUse cl tenantId "system")).
  pose proof (@matching_after_update _ plainKey (tbl_registrationKeys d) k
                (rk_uses_left k - 1) logs Hm) as H1.
  pose proof (@matching_after_update _ plainKey _
                (set_key_usage (rk_uses_left k - 1) logs k)
                (rk_uses_left k - 1) logs H1) as H2.
  cbn [set_key_usage rk_id] in H2.
  eexists. split; [exact H2|].
  cbn [set_key_usage rk_uses_left rk_used_logs]. split; [reflexivity|].
  unfold logs. apply log_length_appended.
Qed.

End Interleaved.

(** [interleaved_consumptions_take_one_use] on a sample input. *)
Lemma interleaved_consumptions_take_one_use_witness :
  fst (interleave (P := test_platform) [0; 1; 0; 1]%nat
         [Arrived (js "key-1") (js "tenant-a");
          Arrived (js "key-1") (js "tenant-a")]
         (key_world (sample_key 3 None false))) =
  [Settled (Ok (COMPOSTA, Some (js "tenant-a")));
   Settled (Ok (COMPOSTA, Some (js "tenant-a")))].
Proof.
  refine (proj1
    (@interleaved_consumptions_take_one_use test_platform
       (key_world (sample_key 3 None false)) (js "key-1") (js "tenant-a")
       (sample_key 3 None false) eq_refl eq_refl eq_refl eq_refl _
       eq_refl)).
  simpl. lia.
Defined.

(* ================================================================== *)
(** * The tenant-schema script *)
(* ================================================================== *)

Lemma without_hyphens_no_hyphen (id : js_string) :
  ~ In 45%N (without_hyphens id).
Proof.
  unfold without_hyphens. intros H. apply filter_In in H.
  destruct H as [_ H]. discriminate.
Qed.

Lemma without_hyphens_id (id : js_string) :
  ~ In 45%N id -> without_hyphens id = id.
Proof.
  unfold without_hyphens. induction id as [|c id IH]; simpl; [reflexivity|].
  intros H. destruct (N.eqb_spec c 45) as [->|Hc]; simpl.
  - exfalso. apply H. now left.
  - f_equal. apply IH. intros Hin. apply H. now right.
Qed.

(** X27. The schema name of a tenant id is [tenant_] followed by the id
    without its hyphens: it contains no hyphen, keeps every other
    character of the id (a double quote too), and is the same for two
    ids exactly when they are equal once their hyphens are removed, so a
    hyphen more or less in an id does not change the schema, while ids
    free of hyphens get different schemas. *)
Theorem schemaName_ignores_hyphens (id id' a b : js_string) :
  ~ In 45%N (schemaName id)
  /\ (forall c, In c id -> c <> 45%N -> In c (schemaName id))
  /\ schemaName (a ++ 45%N :: b) = schemaName (a ++ b)
  /\ (schemaName id = schemaName id' <->
      without_hyphens id = without_hyphens id')
  /\ (~ In 45%N id -> ~ In 45%N id' ->
      schemaName id = schemaName id' -> id = id').
Proof.
  assert (Hiff : schemaName id = schemaName id' <->
                 without_hyphens id = without_hyphens id').
  { unfold schemaName. split; [apply app_inv_head|congruence]. }
  split; [|split; [|split; [|split]]].
  - unfold schemaName. intros H. apply in_app_or in H.
    destruct H as [H|H].
    + simpl in H. repeat (destruct H as [H|H]; [discriminate|]).
      contradiction.
    + now apply without_hyphens_no_hyphen in H.
  - intros c Hin Hc. unfold schemaName. apply in_or_app. right.
    unfold without_hyphens. apply filter_In. split; [exact Hin|].
    apply negb_true_iff. now apply N.eqb_neq.
  - unfold schemaName, without_hyphens. now rewrite !filter_app.
  - exact Hiff.
  - intros H H' E. apply Hiff in E.
    now rewrite !without_hyphens_id in E.
Qed.

(** [schemaName_ignores_hyphens] on a sample input. *)
Lemma schemaName_ignores_hyphens_witness :
  schemaName (js "3f2a-77") = js "tenant_3f2a77"
  /\ (schemaName (js "ab") = schemaName (js "cd") -> js "ab" = js "cd").
Proof.
  split; [reflexivity|].
  apply (proj2 (proj2 (proj2 (proj2
    (schemaName_ignores_hyphens (js "ab") (js "cd") [] []))))).
  - simpl. intros [H|[H|[]]]; discriminate.
  - simpl. intros [H|[H|[]]]; discriminate.
Defined.
















(* ================================================================== *)
(** * The client session and its routes *)
(* ================================================================== *)

Section ClientSession.

Context {O : Type} {browser : Client.Outside O}.

Lemma logout_run (s : Client.Session O) :
  Client.logout s =
  (let (r, o1) := Client.apiService_logout (Client.outside s) in
   let (r', o2) := Client.apiService_clearToken o1 in
   let printed :=
     match r with
     | Ok _ => Client.errors s
     | Throw e => Client.errors s ++ [("Logout error:"%string, e)]
     end in
   match r' with
   | Ok _ =>
       (Ok tt,
        {| Client.user := None; Client.isLoading := Client.isLoading s;
           Client.outside := o2; Client.errors := printed |})
   | Throw e' =>
       (Throw e',
        {| Client.user := Client.user s;
           Client.isLoading := Client.isLoading s;
           Client.outside := o2; Client.errors := printed |})
   end).
Proof.
  unfold Client.logout, try_catch_finally, and_then, Client.call,
    Client.console_error, Client.setUser.
  destruct (Client.apiService_logout (Client.outside s)) as [[u|e] o1];
    cbn [Client.outside Client.user Client.isLoading Client.errors];
    destruct (Client.apiService_clearToken o1) as [[u'|e'] o2];
    reflexivity.
Qed.

(** X29. [logout] signs the user out on the client whatever the server
    said: when [apiService.logout()] resolves or rejects and
    [apiService.clearToken()] returns, [logout] resolves, a rejection is
    only printed, the user is [null], and once loading is over every
    page route and [/] navigate to [/login], where the login page is
    shown. Only when [clearToken()] throws does [logout] reject, and then
    the user is left as it was. *)
Theorem logout_ends_at_the_login_page (s : Client.Session O)
  (r r' : Result unit) (o1 o2 : O) :
  Client.apiService_logout (Client.outside s) = (r, o1) ->
  Client.apiService_clearToken o1 = (r', o2) ->
  Client.outside (snd (Client.logout s)) = o2
  /\ (forall e, r = Throw e ->
      In ("Logout error:"%string, e) (Client.errors (snd (Client.logout s))))
  /\ (forall u, r' = Ok u ->
      fst (Client.logout s) = Ok tt
      /\ Client.user (snd (Client.logout s)) = None
      /\ (Client.isLoading s = false ->
          Client.AppRoutes (snd (Client.logout s)) Client.login_route =
          Client.Login
          /\ Client.AppRoutes (snd (Client.logout s)) Client.root_route =
             Client.Navigate "/login"
          /\ forall p,
               Client.AppRoutes (snd (Client.logout s))
                 (Client.page_route p) =
               Client.Navigate "/login"))
  /\ (forall e', r' = Throw e' ->
      fst (Client.logout s) = Throw e'
      /\ Client.user (snd (Client.logout s)) = Client.user s).
Proof.
  intros Hl Hc. rewrite logout_run, Hl, Hc. cbv zeta.
  split; [|split; [|split]].
  - destruct r'; reflexivity.
  - intros e ->. destruct r'; cbn [snd Client.errors];
      apply in_or_app; right; now left.
  - intros u ->. split; [reflexivity|]. split; [reflexivity|].
    intros Hload.
    unfold Client.AppRoutes, Client.ProtectedRoute, Client.isAuthenticated.
    cbn [snd Client.isLoading Client.user]. rewrite Hload.
    repeat split.
  - intros e' ->. split; reflexivity.
Qed.

(** X30. [checkAuthStatus] always ends the loading state, also when it
    rejects, so that no route shows the spinner afterwards. With no
    stored access token, or an empty one, it calls [apiService] not at
    all and resolves with the user as it was. The user changes only to
    what [getProfile()] answered for a stored token that [setToken()]
    accepted. *)
Theorem checkAuthStatus_ends_loading (s : Client.Session O) :
  Client.isLoading (snd (Client.checkAuthStatus s)) = false
  /\ (forall matched,
        Client.AppRoutes (snd (Client.checkAuthStatus s)) matched <>
        Client.Spinner)
  /\ (forall token o1,
        Client.localStorage_getItem "access_token" (Client.outside s) =
        (Ok token, o1) ->
        token = None \/ token = Some [] ->
        Client.checkAuthStatus s =
        (Ok tt,
         {| Client.user := Client.user s; Client.isLoading := false;
            Client.outside := o1; Client.errors := Client.errors s |}))
  /\ (Client.user (snd (Client.checkAuthStatus s)) = Client.user s
      \/ exists token o1 o2 o3,
           token <> []
           /\ Client.localStorage_getItem "access_token" (Client.outside s)
              = (Ok (Some token), o1)
           /\ Client.apiService_setToken token o1 = (Ok tt, o2)
           /\ Client.apiService_getProfile o2 =
              (Ok (Client.user (snd (Client.checkAuthStatus s))), o3)).
Proof.
  assert (Hload : Client.isLoading (snd (Client.checkAuthStatus s)) = false).
  { unfold Client.checkAuthStatus, try_catch_finally, and_then, Client.call,
      Client.console_error, Client.setUser, Client.setIsLoading.
    destruct (Client.localStorage_getItem "access_token" (Client.outside s))
      as [[[[|c t]|]|e] o1];
      cbn [Client.outside Client.user Client.isLoading Client.errors snd];
      try reflexivity.
    - destruct (Client.apiService_setToken (c :: t) o1) as [[u|e] o2];
        cbn [Client.outside Client.user Client.isLoading Client.errors snd].
      + destruct (Client.apiService_getProfile o2) as [[u'|e] o3];
          cbn [Client.outside Client.user Client.isLoading Client.errors
               snd]; [reflexivity|].
        destruct (Client.apiService_clearToken o3) as [[u''|e'] o4];
          reflexivity.
      + destruct (Client.apiService_clearToken o2) as [[u''|e'] o4];
          reflexivity.
    - destruct (Client.apiService_clearToken o1) as [[u''|e'] o4];
        reflexivity. }
  split; [exact Hload|]. split; [|split].
  - intros matched. unfold Client.AppRoutes, Client.ProtectedRoute.
    rewrite Hload.
    destruct matched;
      destruct (Client.isAuthenticated (snd (Client.checkAuthStatus s)));
      discriminate.
  - intros token o1 Hget Htoken.
    unfold Client.checkAuthStatus, try_catch_finally, and_then, Client.call.
    rewrite Hget. destruct Htoken as [->| ->]; reflexivity.
  - unfold Client.checkAuthStatus, try_catch_finally, and_then, Client.call,
      Client.console_error, Client.setUser, Client.setIsLoading.
    destruct (Client.localStorage_getItem "access_token" (Client.outside s))
      as [[[[|c t]|]|e] o1];
      cbn [Client.outside Client.user Client.isLoading Client.errors snd];
      try (left; reflexivity).
    + destruct (Client.apiService_setToken (c :: t) o1) as [[[]|e] o2] eqn:Hs;
        cbn [Client.outside Client.user Client.isLoading Client.errors snd].
      * destruct (Client.apiService_getProfile o2) as [[u'|e] o3] eqn:Hp;
          cbn [Client.outside Client.user Client.isLoading Client.errors
               snd].
        -- right. exists (c :: t), o1, o2, o3.
           repeat split; trivial. discriminate.
        -- destruct (Client.apiService_clearToken o3) as [[u''|e'] o4];
             left; reflexivity.
      * destruct (Client.apiService_clearToken o2) as [[u''|e'] o4];
          left; reflexivity.
    + destruct (Client.apiService_clearToken o1) as [[u''|e'] o4];
        left; reflexivity.
Qed.

End ClientSession.

(** [logout_ends_at_the_login_page] on a sample input. *)
Lemma logout_ends_at_the_login_page_witness :
  fst (Client.logout (browser := Client.offline) Client.signed_in) = Ok tt
  /\ Client.user (snd (Client.logout (browser := Client.offline) Client.signed_in))
     = None
  /\ Client.AppRoutes
       (snd (Client.logout (browser := Client.offline) Client.signed_in))
       (Client.page_route Client.Billing) =
     Client.Navigate "/login".
Proof.
  destruct (@logout_ends_at_the_login_page _ Client.offline Client.signed_in
              (Throw (Error "Network Error")) (Ok tt)
              (Some (js "eyJhbGciOi")) (Some (js "eyJhbGciOi"))
              eq_refl eq_refl) as [_ [_ [Hok _]]].
  destruct (Hok tt eq_refl) as [H1 [H2 H3]].
  split; [exact H1|]. split; [exact H2|].
  destruct (H3 eq_refl) as [_ [_ H4]]. apply H4.
Defined.

(** [checkAuthStatus_ends_loading] on a sample input. *)
Lemma checkAuthStatus_ends_loading_witness :
  Client.checkAuthStatus (browser := Client.offline) (Client.mounted None) =
  (Ok tt,
   {| Client.user := None; Client.isLoading := false;
      Client.outside := None; Client.errors := [] |}).
Proof.
  destruct (@checkAuthStatus_ends_loading _ Client.offline
              (Client.mounted None)) as [_ [_ [Hnone _]]].
  apply (Hnone None None eq_refl). now left.
Defined.
